(** * HeyGen automation scripts: the render-job client

    A shallow embedding of the submit / poll / download code of the four
    script variants of the repository

      - [HeyGen_GoogleSearch/main.py]          (module [GoogleSearch])
      - [HeyGen_Youtube/main.py]               (module [Youtube])
      - [HeyGen_PPT/main.py]                   (module [PPT])
      - [HeyGen_ppt(...)/Heygen_Python_Code(.py)/main.py] (module [PptVideoOnly])

    and the properties of the specification that concern them.

    Conventions of the model.
    - A Python [str] is the list of its code points ([pystr]).
    - A value obtained from [resp.json()] is a [json] tree (numbers are
      rationals); [dict.get], subscripting and truthiness follow Python on
      each shape of value.
    - The message of an exception built from an f-string is kept as the
      list of its literal pieces and of the values put between them.
    - The outside world (HeyGen's servers, the local files that are read,
      the paths that cannot be opened for writing, the thread scheduler) is
      a record of oracles, [world]; it also holds
      the chronological log of everything the script did to it.  A call of
      [requests] either gets a reply or raises; which, is the world's
      choice.
    - A Python function is a function in the monad [IO]: it takes the world
      and gives back either a value or the exception that left the function,
      with the world after it.  [while True] loops take a bound on the
      number of iterations and answer [None] when the bound is reached with
      the loop still running.
    - [ThreadPoolExecutor.map] is a pool in which the scheduler chooses,
      among the calls in flight, the one that completes next.
    - Opening a file for writing either creates or truncates it, or raises
      and creates nothing; which, is the world's choice.  A write to a file
      that has been opened is taken to succeed.
    - Console output ([print]) and wall-clock readings are not modelled. *)

From Stdlib Require Import String Ascii NArith ZArith QArith List Lia.
From stdpp Require Import base tactics option list numbers.
From stdpp Require gmap.

Set Warnings "-register-all".

Local Open Scope N_scope.
Local Open Scope list_scope.

(** ** Python strings *)

Definition pystr := list N.
Definition bytes := list N.

(** Code points of a UTF-8 encoded byte sequence (well-formed input). *)
Fixpoint utf8_decode (bs : list N) : pystr :=
  match bs with
  | [] => []
  | b0 :: r0 =>
    if b0 <? 0x80 then b0 :: utf8_decode r0
    else if b0 <? 0xE0 then
      match r0 with
      | b1 :: r1 => ((b0 - 0xC0) * 0x40 + (b1 - 0x80)) :: utf8_decode r1
      | _ => []
      end
    else if b0 <? 0xF0 then
      match r0 with
      | b1 :: b2 :: r2 =>
        ((b0 - 0xE0) * 0x1000 + (b1 - 0x80) * 0x40 + (b2 - 0x80)) :: utf8_decode r2
      | _ => []
      end
    else
      match r0 with
      | b1 :: b2 :: b3 :: r3 =>
        ((b0 - 0xF0) * 0x40000 + (b1 - 0x80) * 0x1000 + (b2 - 0x80) * 0x40 + (b3 - 0x80))
          :: utf8_decode r3
      | _ => []
      end
  end.

(** A string literal of the source, as a Python [str]. *)
Definition py (s : string) : pystr :=
  utf8_decode (map N_of_ascii (list_ascii_of_string s)).
Arguments py : simpl never.

Definition str_eqb (s t : pystr) : bool := bool_decide (s = t).

Fixpoint startswith (s prefix : pystr) : bool :=
  match prefix, s with
  | [], _ => true
  | p :: prefix', c :: s' => (c =? p) && startswith s' prefix'
  | _ :: _, [] => false
  end.

(** [s.replace(old, new)] for a non-empty [old]: every non-overlapping
    occurrence, scanning from the left.  [skip] counts the characters of an
    occurrence that has just been replaced and is still to be dropped. *)
Fixpoint replace_from (skip : nat) (old new s : pystr) : pystr :=
  match s with
  | [] => []
  | c :: s' =>
    match skip with
    | S k => replace_from k old new s'
    | O =>
      if startswith s old
      then new ++ replace_from (pred (length old)) old new s'
      else c :: replace_from O old new s'
    end
  end.

Definition py_replace (s old new : pystr) : pystr := replace_from O old new s.

(** [str.isspace] on one character, and [s.strip()]. *)
Definition py_isspace (c : N) : bool :=
  ((0x09 <=? c) && (c <=? 0x0D)) || ((0x1C <=? c) && (c <=? 0x20))
  || (c =? 0x85) || (c =? 0xA0) || (c =? 0x1680)
  || ((0x2000 <=? c) && (c <=? 0x200A))
  || (c =? 0x2028) || (c =? 0x2029) || (c =? 0x202F) || (c =? 0x205F)
  || (c =? 0x3000).

Fixpoint lstrip (s : pystr) : pystr :=
  match s with
  | c :: s' => if py_isspace c then lstrip s' else s
  | [] => []
  end.

Definition py_strip (s : pystr) : pystr := rev (lstrip (rev (lstrip s))).

(** [re.search] of the character class U+4E00 to U+9FFF, as a truth value. *)
Definition is_cjk (c : N) : bool := (0x4e00 <=? c) && (c <=? 0x9fff).
Definition re_search_cjk (text : pystr) : bool := existsb is_cjk text.

(** [str(n)] for a natural number: its decimal digits. *)
Fixpoint uint_digits (d : Decimal.uint) : pystr :=
  match d with
  | Decimal.Nil => []
  | Decimal.D0 d' => 48 :: uint_digits d'
  | Decimal.D1 d' => 49 :: uint_digits d'
  | Decimal.D2 d' => 50 :: uint_digits d'
  | Decimal.D3 d' => 51 :: uint_digits d'
  | Decimal.D4 d' => 52 :: uint_digits d'
  | Decimal.D5 d' => 53 :: uint_digits d'
  | Decimal.D6 d' => 54 :: uint_digits d'
  | Decimal.D7 d' => 55 :: uint_digits d'
  | Decimal.D8 d' => 56 :: uint_digits d'
  | Decimal.D9 d' => 57 :: uint_digits d'
  end.

Definition py_str_nat (n : nat) : pystr := uint_digits (Nat.to_uint n).

(** ** Values parsed from JSON *)

Inductive json : Type :=
| JNull
| JBool (b : bool)
| JNum (q : Q)
| JStr (s : pystr)
| JArr (items : list json)
| JObj (fields : list (pystr * json)).

Fixpoint assoc (k : pystr) (fields : list (pystr * json)) : option json :=
  match fields with
  | [] => None
  | (k', v) :: rest => if str_eqb k' k then Some v else assoc k rest
  end.

(** Python truthiness: [if v:]. *)
Definition truthy (v : json) : bool :=
  match v with
  | JNull => false
  | JBool b => b
  | JNum q => negb (Qeq_bool q 0)
  | JStr s => negb (bool_decide (s = []))
  | JArr items => negb (bool_decide (length items = O))
  | JObj fields => negb (bool_decide (length fields = O))
  end.

(** [v == "literal"]. *)
Definition is_str (v : json) (s : pystr) : bool :=
  match v with
  | JStr t => str_eqb t s
  | _ => false
  end.

(** ** Exceptions and results *)

(** The pieces of an f-string: literal text and interpolated values. *)
Inductive piece : Type :=
| Lit (s : pystr)
| Fmt (v : json).

Inductive exn : Type :=
| RequestException                 (* raised by [requests]: no usable reply *)
| JSONDecodeError                  (* [resp.json()] on a body that is not JSON *)
| KeyError (k : pystr)
| TypeError
| AttributeError
| FileNotFoundError (msg : list piece)
| CancelledError                   (* result of a future that never ran *)
| Exception_ (msg : list piece).   (* [raise Exception(...)] of an f-string *)

Inductive outcome (A : Type) : Type :=
| Ok (a : A)
| Raise (e : exn).
Arguments Ok {A} a.
Arguments Raise {A} e.

Global Instance outcome_ret : MRet outcome := @Ok.
Global Instance outcome_bind : MBind outcome :=
  fun A B k r => match r with Ok a => k a | Raise e => Raise e end.

(** [v[k]] for a string key. *)
Definition py_index (v : json) (k : pystr) : outcome json :=
  match v with
  | JObj fields =>
    match assoc k fields with
    | Some x => Ok x
    | None => Raise (KeyError k)
    end
  | _ => Raise TypeError
  end.

(** [v.get(k, default)]. *)
Definition py_get (v : json) (k : pystr) (default : json) : outcome json :=
  match v with
  | JObj fields =>
    match assoc k fields with
    | Some x => Ok x
    | None => Ok default
    end
  | _ => Raise AttributeError
  end.

(** ** HTTP exchanges *)

Inductive http_method : Type := GET | POST.

Inductive body : Type :=
| NoBody
| DataBody (data : bytes)          (* [data=...] *)
| JsonBody (j : json).             (* [json=...] *)

Record request : Type := Request {
  method : http_method;
  url : pystr;
  headers : list (pystr * pystr);
  params : list (pystr * pystr);
  req_body : body
}.

(** What the script can ask of a [requests.Response]. *)
Record response : Type := Response {
  status_code : N;
  content : bytes;                 (* [resp.content] *)
  text : pystr;                    (* [resp.text] *)
  parsed : option json             (* [resp.json()], [None] when it raises *)
}.

(** [resp.ok]: [raise_for_status] would not raise. *)
Definition resp_ok (r : response) : bool :=
  negb ((400 <=? status_code r) && (status_code r <? 600)).

Definition resp_json (r : response) : outcome json :=
  match parsed r with
  | Some j => Ok j
  | None => Raise JSONDecodeError
  end.

(** ** The world *)

Inductive file_mode : Type := WB | WText (encoding : pystr).

Inductive event : Type :=
| EHttp (req : request) (res : outcome response)
| ESleep (seconds : N)
| EOpen (path : pystr) (mode : file_mode)    (* create or truncate *)
| EWrite (path : pystr) (data : bytes)       (* [f.write] of bytes *)
| EWriteText (path : pystr) (s : pystr)      (* [f.write] of a str *)
| EConvertAssToSrt (path : pystr).           (* local subtitle rewrite *)

Record world : Type := World {
  api_key : pystr;                               (* HEYGEN_API_KEY *)
  http : nat -> request -> outcome response;     (* answer to the k-th request *)
  read_file : pystr -> option bytes;             (* files present on disk *)
  open_error : pystr -> option exn;              (* paths that cannot be opened
                                                    for writing, with the error *)
  pick : nat -> nat;                             (* thread scheduler *)
  clock : nat;                                   (* requests issued so far *)
  log : list event                               (* oldest first *)
}.

Definition emit (e : event) (w : world) : world :=
  {| api_key := api_key w; http := http w; read_file := read_file w;
     open_error := open_error w;
     pick := pick w; clock := clock w; log := log w ++ [e] |}.

Definition tick (w : world) : world :=
  {| api_key := api_key w; http := http w; read_file := read_file w;
     open_error := open_error w;
     pick := pick w; clock := S (clock w); log := log w |}.

(** ** The monad of Python functions *)

Definition IO (A : Type) : Type := world -> outcome A * world.

Definition io_ret {A} (a : A) : IO A := fun w => (Ok a, w).
Definition io_raise {A} (e : exn) : IO A := fun w => (Raise e, w).
Definition io_bind {A B} (m : IO A) (k : A -> IO B) : IO B :=
  fun w =>
    match m w with
    | (Ok a, w') => k a w'
    | (Raise e, w') => (Raise e, w')
    end.

Global Instance IO_ret : MRet IO := @io_ret.
Global Instance IO_bind : MBind IO := fun A B k m => io_bind m k.
Global Instance IO_fmap : FMap IO :=
  fun A B f m => io_bind m (fun a => io_ret (f a)).

(** A pure computation that may raise. *)
Definition lift {A} (r : outcome A) : IO A := fun w => (r, w).

(** [try: m  except: handler] with a handler that catches everything. *)
Definition try_except {A} (m : IO A) (handler : exn -> IO A) : IO A :=
  fun w =>
    match m w with
    | (Ok a, w') => (Ok a, w')
    | (Raise e, w') => handler e w'
    end.

(** One exchange with a server: the world answers, the exchange is logged. *)
Definition send (req : request) : IO response :=
  fun w =>
    let res := http w (clock w) req in
    (res, emit (EHttp req res) (tick w)).

Definition requests_get (u : pystr) (hs : list (pystr * pystr)) : IO response :=
  send (Request GET u hs [] NoBody).

Definition requests_post (u : pystr) (hs ps : list (pystr * pystr)) (b : body)
  : IO response :=
  send (Request POST u hs ps b).

(** [requests.get(v)] with a value taken from a reply: anything but a [str]
    formats to text without a URL scheme and is refused before any exchange. *)
Definition requests_get_value (v : json) : IO response :=
  match v with
  | JStr u => requests_get u []
  | _ => io_raise RequestException
  end.

Definition time_sleep (seconds : N) : IO unit :=
  fun w => (Ok tt, emit (ESleep seconds) w).

(** [open(path, "wb")] and [open(path, "w", encoding=...)]: the file is
    created or truncated, or [open] raises and nothing is created. *)
Definition file_open (path : pystr) (mode : file_mode) : IO unit :=
  fun w =>
    match open_error w path with
    | Some e => (Raise e, w)
    | None => (Ok tt, emit (EOpen path mode) w)
    end.

Definition file_write (path : pystr) (data : bytes) : IO unit :=
  fun w => (Ok tt, emit (EWrite path data) w).

Definition file_write_text (path : pystr) (s : pystr) : IO unit :=
  fun w => (Ok tt, emit (EWriteText path s) w).

(** [with open(path, "rb") as f: data = f.read()]. *)
Definition file_read (path : pystr) : IO bytes :=
  fun w =>
    match read_file w path with
    | Some data => (Ok data, w)
    | None => (Raise (FileNotFoundError [Lit path]), w)
    end.

Definition os_path_exists (path : pystr) : IO bool :=
  fun w => (Ok (bool_decide (is_Some (read_file w path))), w).


Definition get_api_key : IO pystr := fun w => (Ok (api_key w), w).

(** ** Loops *)

Inductive ctl : Type := Continue | Break.

(** [while True: body].  The body says whether the loop goes round again
    ([continue], or falling off the end of the body) or leaves ([break]);
    an exception that escapes the body leaves the function. *)
Fixpoint while_true (fuel : nat) (body : IO ctl) (w : world)
  : option (outcome unit * world) :=
  match fuel with
  | O => None
  | S fuel' =>
    match body w with
    | (Ok Continue, w') => while_true fuel' body w'
    | (Ok Break, w') => Some (Ok tt, w')
    | (Raise e, w') => Some (Raise e, w')
    end
  end.

(** ** [ThreadPoolExecutor(max_workers).map]

    [executor.map(fn, xs)] submits one call per element and keeps the
    futures in submission order.  At most [max_workers] calls are in flight;
    a worker that finishes takes the next call of the queue.  Which of the
    calls in flight finishes next is the scheduler's choice ([pick]).  Each
    call here talks to the server once, so a call is taken to happen at the
    moment it finishes.  [list(...)] then reads the futures in submission
    order and re-raises the first exception it meets.  Every submitted call
    runs: the cancellation of queued calls after a failure is not modelled. *)

Section executor.
Context {A B : Type}.
Variable max_workers : nat.
Variable fn : A -> IO B.

(** A submitted call: its argument and, once finished, its result. *)
Local Abbreviation future := (A * option (outcome B))%type.

Definition submit_all (xs : list A) : list future :=
  map (fun x => (x, None)) xs.

Fixpoint count_done (fs : list future) : nat :=
  match fs with
  | [] => O
  | (_, Some _) :: fs' => S (count_done fs')
  | (_, None) :: fs' => count_done fs'
  end.

(** The unfinished calls among the first [n], with their positions
    counted from [i]. *)
Fixpoint unfinished (i n : nat) (fs : list future) : list (nat * A) :=
  match n, fs with
  | S n', (x, None) :: fs' => (i, x) :: unfinished (S i) n' fs'
  | S n', (_, Some _) :: fs' => unfinished (S i) n' fs'
  | _, _ => []
  end.

(** The calls in flight: started (the finished ones and [max_workers]
    more) and not finished. *)
Definition in_flight (fs : list future) : list (nat * A) :=
  unfinished O (count_done fs + max_workers) fs.

(** [steps] completions of the pool; gives the order of completion too. *)
Fixpoint run_pool (steps : nat) (fs : list future) (w : world)
  : list nat * list future * world :=
  match steps with
  | O => ([], fs, w)
  | S steps' =>
    let running := in_flight fs in
    match running !! (pick w (count_done fs) mod length running)%nat with
    | None => ([], fs, w)
    | Some (i, x) =>
      let '(r, w1) := fn x w in
      let '(order, fs', w') := run_pool steps' (<[i := (x, Some r)]> fs) w1 in
      (i :: order, fs', w')
    end
  end.

(** [list(result_iterator)]: the results in submission order. *)
Fixpoint gather (fs : list future) : outcome (list B) :=
  match fs with
  | [] => Ok []
  | (_, None) :: _ => Raise CancelledError
  | (_, Some (Raise e)) :: _ => Raise e
  | (_, Some (Ok b)) :: fs' =>
    match gather fs' with
    | Ok bs => Ok (b :: bs)
    | Raise e => Raise e
    end
  end.

Definition executor_map (xs : list A) : IO (list B) :=
  fun w =>
    let '(_, fs, w') := run_pool (length xs) (submit_all xs) w in
    (gather fs, w').

Definition completion_order (xs : list A) (w : world) : list nat :=
  (run_pool (length xs) (submit_all xs) w).1.1.

(** The calls made one after the other in a given order: the reference
    against which the pool is compared. *)
Fixpoint one_by_one (xs : list A) (order : list nat) (w : world)
  : list (outcome B) * world :=
  match order with
  | [] => ([], w)
  | i :: order' =>
    match xs !! i with
    | None => ([], w)
    | Some x =>
      let '(r, w1) := fn x w in
      let '(rs, w') := one_by_one xs order' w1 in
      (r :: rs, w')
    end
  end.
End executor.

(** ** Constants shared by the variants *)

Definition API_HOST : pystr := py "https://api.heygen.com".
Definition GENERATE_URL_V2 : pystr := API_HOST ++ py "/v2/video/generate".
Definition UPLOAD_URL_V1 : pystr := py "https://upload.heygen.com/v1/asset".
Definition VIDEO_STATUS_URL_V1 : pystr := API_HOST ++ py "/v1/video_status.get".
Definition VOICE_ID_ZH : pystr := py "4158cf2ef85d4ccc856aacb1c47dbb0c".
Definition VOICE_ID_EN : pystr := py "cef3bc4e0a84424cafcde6f2cf466c97".

(** [{"video_inputs": ...}["video_inputs"]] of a request that carries a
    JSON payload. *)
Definition video_inputs (req : request) : option (list json) :=
  match req_body req with
  | JsonBody (JObj fields) =>
    match assoc (py "video_inputs") fields with
    | Some (JArr scenes) => Some scenes
    | _ => None
    end
  | _ => None
  end.

(** The fields of a scene the properties speak of. *)
Definition scene_field (section field : pystr) (scene : json) : option json :=
  match scene with
  | JObj fields =>
    match assoc section fields with
    | Some (JObj inner) => assoc field inner
    | _ => None
    end
  | _ => None
  end.

Definition image_asset_id := scene_field (py "background") (py "image_asset_id").
Definition input_text := scene_field (py "voice") (py "input_text").

(** The requests of a log, in order, with what came back. *)
Fixpoint exchanges (l : list event) : list (request * outcome response) :=
  match l with
  | [] => []
  | EHttp req res :: l' => (req, res) :: exchanges l'
  | _ :: l' => exchanges l'
  end.

(** ** Regular expressions

    The fragment of [re] the scripts use: literal characters, the star of
    a class of characters, greedy ([C*]) or lazy ([C*?]), concatenation and
    one capturing group.  Matching is by backtracking, as in [re]: the
    alternatives are tried in order of preference and the first complete
    match is taken; [k] is what is left to match after the expression. *)

Inductive regex : Type :=
| REmpty
| RChar (c : N)
| RStar (cls : N -> bool) (greedy : bool)
| RSeq (r1 r2 : regex)
| RGroup (r : regex).

Section matching.
Context {R : Type}.

Fixpoint star (cls : N -> bool) (greedy : bool) (s : pystr) (k : pystr -> option R)
  : option R :=
  match s with
  | c :: s' =>
    if cls c then
      if greedy then
        match star cls greedy s' k with
        | Some m => Some m
        | None => k s
        end
      else
        match k s with
        | Some m => Some m
        | None => star cls greedy s' k
        end
    else k s
  | [] => k s
  end.

(** [g] is the text of the group, once it has matched. *)
Fixpoint rmatch (r : regex) (s : pystr) (g : option pystr)
    (k : pystr -> option pystr -> option R) : option R :=
  match r with
  | REmpty => k s g
  | RChar c =>
    match s with
    | c' :: s' => if c' =? c then k s' g else None
    | [] => None
    end
  | RStar cls greedy => star cls greedy s (fun s' => k s' g)
  | RSeq r1 r2 => rmatch r1 s g (fun s' g' => rmatch r2 s' g' k)
  | RGroup r1 =>
    rmatch r1 s g (fun s' _ => k s' (Some (take (length s - length s') s)))
  end.
End matching.

(** [re.search(r, s)]: the match that starts leftmost, as the matched text
    ([group(0)]) and the text of the group ([group(1)]). *)
Fixpoint re_search (r : regex) (s : pystr) : option (pystr * option pystr) :=
  match rmatch r s None
          (fun rest g => Some (take (length s - length rest) s, g)) with
  | Some m => Some m
  | None =>
    match s with
    | [] => None
    | _ :: s' => re_search r s'
    end
  end.

Fixpoint RLit (s : pystr) : regex :=
  match s with
  | [] => REmpty
  | c :: s' => RSeq (RChar c) (RLit s')
  end.

(** [.] under [re.DOTALL]. *)
Definition any_char (c : N) : bool := true.

(** [r'```json\s*(.*?)\s*```'] and [r'\[\s*\{.*\}\s*\]'], both under
    [re.DOTALL]. *)
Definition fenced_json : regex :=
  RSeq (RLit (py "```json"))
    (RSeq (RStar py_isspace true)
      (RSeq (RGroup (RStar any_char false))
        (RSeq (RStar py_isspace true) (RLit (py "```"))))).

Definition json_array : regex :=
  RSeq (RChar 91)
    (RSeq (RStar py_isspace true)
      (RSeq (RChar 123)
        (RSeq (RStar any_char true)
          (RSeq (RChar 125)
            (RSeq (RStar py_isspace true) (RChar 93)))))).

(** [safe_extract_json], the same in the GoogleSearch and the Youtube
    script; [None] is Python's [None]. *)
Definition safe_extract_json (text : pystr) : option pystr :=
  if bool_decide (text = []) then None
  else
    match re_search fenced_json text with
    | Some (_, g1) => g1
    | None =>
      match re_search json_array text with
      | Some (g0, _) => Some g0
      | None => Some (py_strip text)
      end
    end.

(** * HeyGen_GoogleSearch/main.py *)

Module GoogleSearch.

Definition TALKING_PHOTO_ID : pystr := py "8c6187262e744939bb335949024e3ec5".

Definition upload_to_heygen (file_path : pystr) : IO json :=
  key ← get_api_key;
  let headers := [(py "X-Api-Key", key); (py "Content-Type", py "image/png")] in
  data ← file_read file_path;
  resp ← requests_post UPLOAD_URL_V1 headers [(py "type", py "image")] (DataBody data);
  j ← lift (resp_json resp);
  d ← lift (py_index j (py "data"));
  lift (py_index d (py "id")).

Definition scene (bg_id : json) (script : pystr) : json :=
  let v_id := if re_search_cjk script then VOICE_ID_ZH else VOICE_ID_EN in
  JObj [
    (py "character", JObj [
      (py "type", JStr (py "talking_photo"));
      (py "talking_photo_id", JStr TALKING_PHOTO_ID);
      (py "scale", JNum 0.25);
      (py "offset", JObj [(py "x", JNum 0.4); (py "y", JNum 0.4)])]);
    (py "voice", JObj [
      (py "type", JStr (py "text"));
      (py "voice_id", JStr v_id);
      (py "input_text", JStr (py_replace script (py "，") (py "， ")))]);
    (py "background", JObj [
      (py "type", JStr (py "image"));
      (py "image_asset_id", bg_id);
      (py "fit", JStr (py "contain"))])].

(** The [for bg_id, script in zip(bg_ids, scripts)] loop. *)
Definition build_scenes (bg_ids : list json) (scripts : list pystr) : list json :=
  map (fun '(bg_id, script) => scene bg_id script) (zip bg_ids scripts).

Definition payload (scenes : list json) : json :=
  JObj [(py "video_inputs", JArr scenes);
        (py "aspect_ratio", JStr (py "16:9"));
        (py "test", JBool false);
        (py "caption", JBool true)].

Definition create_full_video (image_paths scripts : list pystr) : IO json :=
  bg_ids ← executor_map 5 upload_to_heygen image_paths;
  let scenes := build_scenes bg_ids scripts in
  key ← get_api_key;
  resp ← requests_post GENERATE_URL_V2 [(py "X-Api-Key", key)] [] (JsonBody (payload scenes));
  j ← lift (resp_json resp);
  d ← lift (py_index j (py "data"));
  lift (py_index d (py "video_id")).

Definition status_url (video_id : pystr) : pystr :=
  VIDEO_STATUS_URL_V1 ++ py "?video_id=" ++ video_id.

(** The [try] block of the loop. *)
Definition poll (video_id : pystr) : IO (json * json) :=
  key ← get_api_key;
  resp ← requests_get (status_url video_id) [(py "X-Api-Key", key)];
  r ← lift (resp_json resp);
  data ← lift (py_get r (py "data") (JObj []));
  status ← lift (py_get data (py "status") JNull);
  mret (data, status).

(** [with open(path, "wb") as f: f.write(requests.get(data[key]).content)]
    under [if data.get(key):]. *)
Definition download_if_present (data : json) (key path : pystr) : IO unit :=
  link ← lift (py_get data key JNull);
  if truthy link then
    file_open path WB;;
    u ← lift (py_index data key);
    resp ← requests_get_value u;
    file_write path (content resp)
  else mret tt.

Definition loop_body (video_id output_video_path : pystr) : IO ctl :=
  polled ← try_except (Some <$> poll video_id)
                      (fun _ => time_sleep 5;; mret None);
  match polled with
  | None => mret Continue
  | Some (data, status) =>
    if is_str status (py "completed") then
      download_if_present data (py "video_url") output_video_path;;
      download_if_present data (py "caption_url")
        (py_replace output_video_path (py ".mp4") (py ".srt"));;
      mret Break
    else if is_str status (py "failed") then
      err ← lift (py_get data (py "error") JNull);
      io_raise (Exception_ [Lit (py "渲染失敗: "); Fmt err])
    else
      time_sleep 15;; mret Continue
  end.

Definition download_video (fuel : nat) (video_id output_video_path : pystr)
  : world -> option (outcome unit * world) :=
  while_true fuel (loop_body video_id output_video_path).

End GoogleSearch.


(** * HeyGen_Youtube/main.py *)

Module Youtube.

Definition TALKING_PHOTO_ID : pystr := py "8c6187262e744939bb335949024e3ec5".
Definition VOICE_SPEED : Q := 1.1.

Definition upload_to_heygen (file_path : pystr) : IO json :=
  key ← get_api_key;
  let headers := [(py "X-Api-Key", key); (py "Content-Type", py "image/png")] in
  try_except
    (data ← file_read file_path;
     resp ← requests_post UPLOAD_URL_V1 headers [(py "type", py "image")] (DataBody data);
     if negb (resp_ok resp) then
       io_raise (Exception_ [Lit (py "HeyGen 圖片上傳失敗: "); Fmt (JStr (text resp))])
     else
       j ← lift (resp_json resp);
       d ← lift (py_index j (py "data"));
       lift (py_index d (py "id")))
    (fun e => io_raise e).

Definition scene (bg_id : json) (script : pystr) : json :=
  let v_id := if re_search_cjk script then VOICE_ID_ZH else VOICE_ID_EN in
  JObj [
    (py "character", JObj [
      (py "type", JStr (py "talking_photo"));
      (py "talking_photo_id", JStr TALKING_PHOTO_ID);
      (py "scale", JNum 0.25);
      (py "offset", JObj [(py "x", JNum 0.4); (py "y", JNum 0.4)])]);
    (py "voice", JObj [
      (py "type", JStr (py "text"));
      (py "voice_id", JStr v_id);
      (py "input_text", JStr (py_replace script (py "，") (py "， ")));
      (py "speed", JNum VOICE_SPEED)]);
    (py "background", JObj [
      (py "type", JStr (py "image"));
      (py "image_asset_id", bg_id);
      (py "fit", JStr (py "contain"))])].

(** The [for bg_id, script in zip(bg_ids, scripts)] loop. *)
Definition build_scenes (bg_ids : list json) (scripts : list pystr) : list json :=
  map (fun '(bg_id, script) => scene bg_id script) (zip bg_ids scripts).

Definition payload (scenes : list json) : json :=
  JObj [(py "video_inputs", JArr scenes);
        (py "aspect_ratio", JStr (py "16:9"));
        (py "test", JBool false);
        (py "caption", JBool false)].

Definition create_full_video (image_paths scripts : list pystr) : IO json :=
  bg_ids ← executor_map 5 upload_to_heygen image_paths;
  let scenes := build_scenes bg_ids scripts in
  key ← get_api_key;
  resp ← requests_post GENERATE_URL_V2 [(py "X-Api-Key", key)] [] (JsonBody (payload scenes));
  if negb (resp_ok resp) then
    io_raise (Exception_ [Lit (py "HeyGen 影片生成請求被拒絕: "); Fmt (JStr (text resp))])
  else
    j ← lift (resp_json resp);
    d ← lift (py_index j (py "data"));
    lift (py_index d (py "video_id")).

(** [s.lstrip(chars)] and [s.strip(chars)] for a set of characters. *)
Fixpoint lstrip_chars (chars : list N) (s : pystr) : pystr :=
  match s with
  | c :: s' => if bool_decide (c ∈ chars) then lstrip_chars chars s' else s
  | [] => []
  end.

Definition strip_chars (chars : list N) (s : pystr) : pystr :=
  rev (lstrip_chars chars (rev (lstrip_chars chars s))).

(** The double and the single quotation mark. *)
Definition dquote : N := 34.
Definition squote : N := 39.

Definition clean_path_input (path_str : pystr) : pystr :=
  if bool_decide (path_str = []) then []
  else
    let path_str := py_strip path_str in
    let path_str :=
      if startswith path_str (py "& ") then py_strip (drop 2 path_str)
      else path_str in
    strip_chars [squote] (strip_chars [dquote]
      (strip_chars [squote] (strip_chars [dquote] path_str))).

Definition status_url (video_id : pystr) : pystr :=
  VIDEO_STATUS_URL_V1 ++ py "?video_id=" ++ video_id.

(** The [try] block of the loop of [download_video]. *)
Definition poll (video_id : pystr) : IO (json * json) :=
  key ← get_api_key;
  resp ← requests_get (status_url video_id) [(py "X-Api-Key", key)];
  r ← lift (resp_json resp);
  data ← lift (py_get r (py "data") (JObj []));
  status ← lift (py_get data (py "status") JNull);
  mret (data, status).

(** [with open(path, "wb") as f: f.write(requests.get(data["video_url"]).content)]
    under [if data.get("video_url"):]. *)
Definition download_if_present (data : json) (path : pystr) : IO unit :=
  link ← lift (py_get data (py "video_url") JNull);
  if truthy link then
    file_open path WB;;
    u ← lift (py_index data (py "video_url"));
    resp ← requests_get_value u;
    file_write path (content resp)
  else mret tt.

Definition loop_body (video_id output_video_path : pystr) : IO ctl :=
  polled ← try_except (Some <$> poll video_id)
                      (fun _ => time_sleep 5;; mret None);
  match polled with
  | None => mret Continue
  | Some (data, status) =>
    if is_str status (py "completed") then
      download_if_present data output_video_path;;
      mret Break
    else if is_str status (py "failed") then
      err ← lift (py_get data (py "error") JNull);
      io_raise (Exception_ [Lit (py "渲染失敗: "); Fmt err])
    else
      time_sleep 15;; mret Continue
  end.

Definition download_video (fuel : nat) (video_id output_video_path : pystr)
  : world -> option (outcome unit * world) :=
  while_true fuel (loop_body video_id output_video_path).

End Youtube.

(** * HeyGen_PPT/main.py *)

Module PPT.

Definition TALKING_PHOTO_ID : pystr := py "8c6187262e744939bb335949024e3ec5".

Definition detect_voice_id (text : pystr) : pystr :=
  if re_search_cjk text then VOICE_ID_ZH else VOICE_ID_EN.

Definition upload_to_heygen (file_path : pystr) : IO json :=
  key ← get_api_key;
  let headers := [(py "X-Api-Key", key); (py "Content-Type", py "image/png")] in
  present ← os_path_exists file_path;
  if negb present then
    io_raise (FileNotFoundError [Lit (py "找不到檔案: "); Fmt (JStr file_path)])
  else
    file_data ← file_read file_path;
    response ← requests_post UPLOAD_URL_V1 headers [(py "type", py "image")]
                 (DataBody file_data);
    if status_code response =? 200 then
      j ← lift (resp_json response);
      d ← lift (py_index j (py "data"));
      lift (py_index d (py "id"))
    else
      io_raise (Exception_ [Lit (py "HeyGen 上傳失敗 (");
                            Fmt (JNum (inject_Z (Z.of_N (status_code response))));
                            Lit (py "): "); Fmt (JStr (text response))]).

Definition scene (bg_asset_id : json) (script : pystr) : json :=
  let voice_id := detect_voice_id script in
  JObj [
    (py "character", JObj [
      (py "type", JStr (py "talking_photo"));
      (py "talking_photo_id", JStr TALKING_PHOTO_ID);
      (py "scale", JNum 0.25);
      (py "offset", JObj [(py "x", JNum 0.4); (py "y", JNum 0.4)]);
      (py "talking_style", JStr (py "stable"));
      (py "fit", JStr (py "cover"))]);
    (py "voice", JObj [
      (py "type", JStr (py "text"));
      (py "voice_id", JStr voice_id);
      (py "input_text", JStr script);
      (py "speed", JNum 1.0)]);
    (py "background", JObj [
      (py "type", JStr (py "image"));
      (py "image_asset_id", bg_asset_id);
      (py "fit", JStr (py "contain"))])].

(** The [for ... in enumerate(zip(image_paths, scripts))] loop: one upload
    and one scene per pair, in order. *)
Fixpoint build_scenes (pairs : list (pystr * pystr)) : IO (list json) :=
  match pairs with
  | [] => mret []
  | (img_path, script) :: rest =>
    bg_asset_id ← upload_to_heygen img_path;
    scenes ← build_scenes rest;
    mret (scene bg_asset_id script :: scenes)
  end.

Definition payload (scenes : list json) : json :=
  JObj [(py "video_inputs", JArr scenes);
        (py "test", JBool false);
        (py "aspect_ratio", JStr (py "16:9"));
        (py "caption", JBool true);
        (py "dimension", JObj [(py "width", JNum 1280); (py "height", JNum 720)])].

Definition create_full_video (image_paths scripts : list pystr) : IO json :=
  scenes ← build_scenes (zip image_paths scripts);
  key ← get_api_key;
  let headers := [(py "X-Api-Key", key); (py "Content-Type", py "application/json")] in
  response ← requests_post GENERATE_URL_V2 headers [] (JsonBody (payload scenes));
  data ← lift (resp_json response);
  accepted ← (if status_code response =? 200
              then negb <$> (truthy <$> lift (py_get data (py "error") JNull))
              else mret false);
  if (accepted : bool) then
    d ← lift (py_index data (py "data"));
    lift (py_index d (py "video_id"))
  else
    io_raise (Exception_ [Lit (py "HeyGen 任務失敗: "); Fmt data]).

(** [convert_ass_to_srt(path, ...)] rewrites a local file and talks to no
    server; it is kept as one event. *)
Definition convert_ass_to_srt (path : pystr) : IO unit :=
  fun w => (Ok tt, emit (EConvertAssToSrt path) w).

Section download.
(** [os.path.splitext], which depends on the platform's separators. *)
Variable splitext : pystr -> pystr * pystr.

(** The inner [try] block: fetch and store the captions. *)
Definition save_caption (caption_url : json) (output_filename : pystr) : IO unit :=
  sub_resp ← requests_get_value caption_url;
  let content_text := py_strip (text sub_resp) in
  if startswith content_text (py "WEBVTT") then
    let vtt_filename := (splitext output_filename).1 ++ py ".vtt" in
    file_open vtt_filename (WText (py "utf-8"));;
    file_write_text vtt_filename content_text
  else
    let srt_filename := (splitext output_filename).1 ++ py ".srt" in
    file_open srt_filename (WText (py "utf-8-sig"));;
    file_write_text srt_filename content_text;;
    convert_ass_to_srt srt_filename.

(** The [if video_url:] block. *)
Definition fetch_video (video_url : json) (output_filename : pystr) : IO unit :=
  if truthy video_url then
    r ← requests_get_value video_url;
    file_open output_filename WB;;
    file_write output_filename (content r)
  else mret tt.

(** The [if caption_url:] block, with its own [try]. *)
Definition fetch_caption (caption_url : json) (output_filename : pystr) : IO unit :=
  if truthy caption_url then
    try_except (save_caption caption_url output_filename) (fun _ => mret tt)
  else mret tt.

(** The branch of [status == "completed"]. *)
Definition on_completed (data : json) (output_filename : pystr) : IO ctl :=
  video_url ← lift (py_get data (py "video_url") JNull);
  caption_url ← lift (py_get data (py "caption_url") JNull);
  fetch_video video_url output_filename;;
  fetch_caption caption_url output_filename;;
  mret Break.

(** The outer [try] block. *)
Definition attempt (video_id output_filename : pystr) : IO ctl :=
  key ← get_api_key;
  resp ← requests_get (VIDEO_STATUS_URL_V1 ++ py "?video_id=" ++ video_id)
           [(py "X-Api-Key", key)];
  j ← lift (resp_json resp);
  data ← lift (py_index j (py "data"));
  status ← lift (py_index data (py "status"));
  if is_str status (py "completed") then
    on_completed data output_filename
  else if is_str status (py "failed") then
    mret Break
  else
    time_sleep 10;; mret Continue.

Definition loop_body (video_id output_filename : pystr) : IO ctl :=
  try_except (attempt video_id output_filename)
             (fun _ => time_sleep 10;; mret Continue).

Definition download_video (fuel : nat) (video_id output_filename : pystr)
  : world -> option (outcome unit * world) :=
  while_true fuel (loop_body video_id output_filename).
End download.

(** *** From ASS to SRT

    What [convert_ass_to_srt] makes of the lines of the captions file
    ([content.splitlines()]): the events it keeps and the texts it writes
    over the file.  A [datetime] is the number of microseconds since
    [datetime(1900, 1, 1, 0, 0, 0)], between [datetime.min] and
    [datetime.max]; a [timedelta] is a number of microseconds. *)

(** [s.split(sep)] and [s.split(sep, maxsplit)] for a one-character
    separator. *)
Fixpoint py_split (sep : N) (s : pystr) : list pystr :=
  match s with
  | [] => [[]]
  | c :: s' =>
    if c =? sep then [] :: py_split sep s'
    else
      match py_split sep s' with
      | part :: parts => (c :: part) :: parts
      | [] => [[c]]
      end
  end.

Fixpoint py_split_max (sep : N) (maxsplit : nat) (s : pystr) : list pystr :=
  match s with
  | [] => [[]]
  | c :: s' =>
    match maxsplit with
    | O => [s]
    | S n =>
      if c =? sep then [] :: py_split_max sep n s'
      else
        match py_split_max sep maxsplit s' with
        | part :: parts => (c :: part) :: parts
        | [] => [[c]]
        end
    end
  end.

Definition datetime_min : Z := (- 693595 * 86400 * 1000000)%Z.
Definition datetime_max : Z := (2958464 * 86400 * 1000000 - 1)%Z.
Definition base_time : Z := 0%Z.

(** [dt + delta]; [None] where Python raises OverflowError. *)
Definition datetime_add (dt delta : Z) : option Z :=
  let r := (dt + delta)%Z in
  if ((datetime_min <=? r) && (r <=? datetime_max))%Z then Some r else None.

Record srt_event : Type := SrtEvent {
  ev_start : Z;
  ev_end : Z;
  ev_text : pystr
}.

(** Two and three decimal digits, with leading zeros. *)
Definition two_digits (n : Z) : pystr :=
  [Z.to_N (48 + n / 10); Z.to_N (48 + n mod 10)].

Definition three_digits (n : Z) : pystr :=
  [Z.to_N (48 + n / 100); Z.to_N (48 + (n / 10) mod 10); Z.to_N (48 + n mod 10)].

(** [dt.strftime("%H:%M:%S,%f")[:-3]]. *)
Definition strftime_ms (dt : Z) : pystr :=
  let seconds := (dt / 1000000)%Z in
  let microsecond := (dt mod 1000000)%Z in
  two_digits ((seconds / 3600) mod 24) ++ [58]
  ++ two_digits ((seconds / 60) mod 60) ++ [58]
  ++ two_digits (seconds mod 60) ++ [44]
  ++ three_digits (microsecond / 1000).

(** The three [f.write] of one event. *)
Definition srt_block (idx : nat) (event : srt_event) : list pystr :=
  [py_str_nat idx ++ [13; 10];
   strftime_ms (ev_start event) ++ py " --> " ++ strftime_ms (ev_end event) ++ [13; 10];
   ev_text event ++ [13; 10; 13; 10]].

(** The [for idx, event in enumerate(srt_events, 1)] loop, from [idx]. *)
Fixpoint srt_writes (idx : nat) (srt_events : list srt_event) : list pystr :=
  match srt_events with
  | [] => []
  | event :: rest => srt_block idx event ++ srt_writes (S idx) rest
  end.

Section subtitles.
(** [int(s)]: the number, or [None] where Python raises ValueError. *)
Variable py_int : pystr -> option Z.

Definition parse_ass_time (time_str : pystr) : Z :=
  let parts := py_split 58 time_str in
  default base_time
    (p0 ← parts !! 0%nat; h ← py_int p0;
     p1 ← parts !! 1%nat; m ← py_int p1;
     p2 ← parts !! 2%nat;
     let s_parts := py_split 46 p2 in
     sp0 ← s_parts !! 0%nat; s ← py_int sp0;
     sp1 ← s_parts !! 1%nat; cs ← py_int sp1;
     if ((0 <=? h) && (h <=? 23) && (0 <=? m) && (m <=? 59)
         && (0 <=? s) && (s <=? 59))%Z
     then datetime_add (((h * 60 + m) * 60 + s) * 1000000) (cs * 10 * 1000)
     else None).

(** The body of the loop over the lines: the event a line adds, if any.
    [delta] is [timedelta(seconds=offset_seconds)]. *)
Definition dialogue_event (delta : Z) (line : pystr) : option srt_event :=
  if startswith line (py "Dialogue:") then
    let parts := py_split_max 44 9 line in
    if (length parts <? 10)%nat then None
    else
      start_str ← py_strip <$> parts !! 1%nat;
      end_str ← py_strip <$> parts !! 2%nat;
      text ← py_strip <$> parts !! 9%nat;
      let start_dt := parse_ass_time start_str in
      let end_dt := parse_ass_time end_str in
      new_start ← datetime_add start_dt delta;
      new_end ← datetime_add end_dt delta;
      let new_start := if (new_start <? base_time)%Z then base_time else new_start in
      let new_end := if (new_end <? base_time)%Z then base_time else new_end in
      let text := py_replace (py_replace text [92; 110] [10]) [92; 78] [10] in
      Some (SrtEvent new_start new_end text)
  else None.

(** From the lines of the file to what is written over it; [None] when
    no event was found and the file is left as it is. *)
Definition convert_lines (delta : Z) (lines : list pystr) : option (list pystr) :=
  match omap (dialogue_event delta) lines with
  | [] => None
  | srt_events => Some (srt_writes 1 srt_events)
  end.
End subtitles.

Section scripts.
(** What Gemini makes of the [i]-th slide (counted from 0): the upload of
    the image or the generation raises, or the answer has a text
    ([response.text], which may be [None]). *)
Variable gemini : nat -> pystr -> outcome (option pystr).

(** The [for i, img_path in enumerate(image_paths)] loop, from index [i]. *)
Fixpoint generate_scripts_from (i : nat) (image_paths : list pystr) : list pystr :=
  match image_paths with
  | [] => []
  | img_path :: rest =>
    let script :=
      match gemini i img_path with
      | Ok (Some response_text) =>
        if bool_decide (response_text = []) then py "（無法生成文字內容）"
        else py_strip response_text
      | Ok None => py "（無法生成文字內容）"
      | Raise _ => py "第 " ++ py_str_nat (i + 1) ++ py " 頁內容生成失敗，請手動補充。"
      end in
    script :: generate_scripts_from (S i) rest
  end.

Definition generate_scripts (image_paths : list pystr) : list pystr :=
  generate_scripts_from 0 image_paths.
End scripts.

End PPT.

(** * HeyGen_ppt (video only) / main.py *)

Module PptVideoOnly.

Definition detect_voice_and_locale (text : pystr) : pystr * pystr :=
  if re_search_cjk text then (VOICE_ID_ZH, py "zh-TW")
  else (VOICE_ID_EN, py "en-US").

Definition TALKING_PHOTO_ID : pystr := py "735b502f20074c68a13d51fe84aa0767".

(** Python's [None] is [JNull]. *)
Definition upload_image (img_path : pystr) : IO json :=
  key ← get_api_key;
  let headers := [(py "x-api-key", key); (py "Content-Type", py "image/png")] in
  file_data ← file_read img_path;
  r ← requests_post UPLOAD_URL_V1 headers [(py "type", py "image")] (DataBody file_data);
  if negb (status_code r =? 200) then mret JNull
  else
    j ← lift (resp_json r);
    d ← lift (py_index j (py "data"));
    lift (py_index d (py "id")).

Definition payload (asset_id : json) (text : pystr) : json :=
  let '(voice_id, locale) := detect_voice_and_locale text in
  JObj [
    (py "caption", JBool true);
    (py "video_inputs", JArr [
      JObj [
        (py "character", JObj [
          (py "type", JStr (py "talking_photo"));
          (py "talking_photo_id", JStr TALKING_PHOTO_ID);
          (py "scale", JNum 0.3);
          (py "offset", JObj [(py "x", JNum 0.4); (py "y", JNum 0.4)]);
          (py "talking_style", JStr (py "stable"));
          (py "fit", JStr (py "cover"))]);
        (py "voice", JObj [
          (py "type", JStr (py "text"));
          (py "voice_id", JStr voice_id);
          (py "input_text", JStr text);
          (py "speed", JNum 1.0);
          (py "locale", JStr locale)]);
        (py "background", JObj [
          (py "type", JStr (py "image"));
          (py "image_asset_id", asset_id);
          (py "fit", JStr (py "contain"))])]]);
    (py "dimension", JObj [(py "width", JNum 1280); (py "height", JNum 720)]);
    (py "test", JBool false)].

(** [slide_number] is only printed. *)
Definition create_video (asset_id : json) (text : pystr) (slide_number : nat)
  : IO json :=
  key ← get_api_key;
  let headers := [(py "x-api-key", key); (py "Content-Type", py "application/json")] in
  try_except
    (r ← requests_post GENERATE_URL_V2 headers [] (JsonBody (payload asset_id text));
     if status_code r =? 200 then
       data ← lift (resp_json r);
       d ← lift (py_get data (py "data") (JObj []));
       vid ← lift (py_get d (py "video_id") JNull);
       if truthy vid then mret vid else mret JNull
     else mret JNull)
    (fun _ => mret JNull).

(** The [for i, img_path in enumerate(pngs, 1)] loop, from slide number
    [i].  [scripts] is the dict of [load_scripts], from slide number to
    text. *)
Fixpoint main_loop (scripts : gmap.gmap nat pystr) (i : nat) (pngs : list pystr)
  : IO unit :=
  match pngs with
  | [] => mret tt
  | img_path :: rest =>
    let text := default [] (scripts !! i) in
    if bool_decide (text = []) then main_loop scripts (S i) rest
    else
      asset_id ← upload_image img_path;
      if negb (truthy asset_id) then main_loop scripts (S i) rest
      else
        create_video asset_id text i;;
        time_sleep 1;;
        main_loop scripts (S i) rest
  end.

(** [main], from what [load_scripts] and the listing of the slide images
    gave. *)
Definition main (scripts : gmap.gmap nat pystr) (pngs : list pystr) : IO unit :=
  if bool_decide (scripts = ∅) || bool_decide (pngs = []) then mret tt
  else main_loop scripts 1 pngs.

End PptVideoOnly.

(** * Reading a run *)

(** The world after some more events. *)
Definition after (w : world) (k : nat) (evs : list event) : world :=
  {| api_key := api_key w; http := http w; read_file := read_file w;
     open_error := open_error w;
     pick := pick w; clock := clock w + k; log := log w ++ evs |}.

(** The request of a status poll (the same in every variant). *)
Definition status_request (key video_id : pystr) : request :=
  Request GET (VIDEO_STATUS_URL_V1 ++ py "?video_id=" ++ video_id)
          [(py "X-Api-Key", key)] [] NoBody.


(** The status a reply reports: the string under [data], [status] of its
    JSON body, when there is one. *)
Definition status_of (res : outcome response) : option pystr :=
  match res with
  | Ok resp =>
    match parsed resp with
    | Some (JObj fields) =>
      match assoc (py "data") fields with
      | Some (JObj inner) =>
        match assoc (py "status") inner with
        | Some (JStr s) => Some s
        | _ => None
        end
      | _ => None
      end
    | _ => None
    end
  | Raise _ => None
  end.

Definition reports (res : outcome response) (s : string) : Prop :=
  status_of res = Some (py s).

Definition terminal (res : outcome response) : Prop :=
  reports res "completed" \/ reports res "failed".

(** A field of the [data] object of a reply ([None] as Python's [None]). *)
Definition data_field (res : outcome response) (k : string) : json :=
  match res with
  | Ok resp =>
    match parsed resp with
    | Some (JObj fields) =>
      match assoc (py "data") fields with
      | Some (JObj inner) => default JNull (assoc (py k) inner)
      | _ => JNull
      end
    | _ => JNull
    end
  | Raise _ => JNull
  end.

(** ** What a poll makes of a reply *)

(** The [try] block of [GoogleSearch.download_video] on a given reply. *)
Definition GS_observe (res : outcome response) : outcome (json * json) :=
  match res with
  | Raise e => Raise e
  | Ok resp =>
    match resp_json resp with
    | Raise e => Raise e
    | Ok r =>
      match py_get r (py "data") (JObj []) with
      | Raise e => Raise e
      | Ok data =>
        match py_get data (py "status") JNull with
        | Raise e => Raise e
        | Ok status => Ok (data, status)
        end
      end
    end
  end.

(** The outer [try] block of [PPT.download_video], up to the status, on a
    given reply. *)
Definition PPT_observe (res : outcome response) : outcome (json * json) :=
  match res with
  | Raise e => Raise e
  | Ok resp =>
    match resp_json resp with
    | Raise e => Raise e
    | Ok j =>
      match py_index j (py "data") with
      | Raise e => Raise e
      | Ok data =>
        match py_index data (py "status") with
        | Raise e => Raise e
        | Ok status => Ok (data, status)
        end
      end
    end
  end.


(** The request of a download. *)
Definition get_request (u : pystr) : request := Request GET u [] [] NoBody.



(** ** What a submission makes of a reply *)

(** [j["data"]["video_id"]]. *)
Definition video_id_of (j : json) : outcome json :=
  d ← py_index j (py "data"); py_index d (py "video_id").

(** [resp.json()["data"]["video_id"]]. *)
Definition video_id_of_reply (resp : response) : outcome json :=
  j ← resp_json resp; video_id_of j.

(** The generate request of the GoogleSearch and Youtube variants, and the
    one of the PPT variant. *)
Definition generate_request (key : pystr) (payload : json) : request :=
  Request POST GENERATE_URL_V2 [(py "X-Api-Key", key)] [] (JsonBody payload).

Definition PPT_generate_request (key : pystr) (payload : json) : request :=
  Request POST GENERATE_URL_V2
    [(py "X-Api-Key", key); (py "Content-Type", py "application/json")] []
    (JsonBody payload).

(** What each variant returns or raises on a reply to its generate request. *)
Definition GS_submit_result (res : outcome response) : outcome json :=
  resp ← res; video_id_of_reply resp.

Definition YT_submit_result (res : outcome response) : outcome json :=
  resp ← res;
  if resp_ok resp then video_id_of_reply resp
  else Raise (Exception_ [Lit (py "HeyGen 影片生成請求被拒絕: "); Fmt (JStr (text resp))]).

Definition PPT_submit_result (res : outcome response) : outcome json :=
  resp ← res;
  data ← resp_json resp;
  accepted ← (if status_code resp =? 200
              then err ← py_get data (py "error") JNull; mret (negb (truthy err))
              else mret false);
  if (accepted : bool) then video_id_of data
  else Raise (Exception_ [Lit (py "HeyGen 任務失敗: "); Fmt data]).

(** ** The two variants that upload through the pool *)

Inductive pooled : Type := InGoogleSearch | InYoutube.

Definition upload_to_heygen_of (v : pooled) : pystr -> IO json :=
  match v with
  | InGoogleSearch => GoogleSearch.upload_to_heygen
  | InYoutube => Youtube.upload_to_heygen
  end.

Definition create_full_video_of (v : pooled) : list pystr -> list pystr -> IO json :=
  match v with
  | InGoogleSearch => GoogleSearch.create_full_video
  | InYoutube => Youtube.create_full_video
  end.

Definition payload_of (v : pooled) (bg_ids : list json) (scripts : list pystr) : json :=
  match v with
  | InGoogleSearch => GoogleSearch.payload (GoogleSearch.build_scenes bg_ids scripts)
  | InYoutube => Youtube.payload (Youtube.build_scenes bg_ids scripts)
  end.

Definition scenes_of (v : pooled) (bg_ids : list json) (scripts : list pystr)
  : list json :=
  match v with
  | InGoogleSearch => GoogleSearch.build_scenes bg_ids scripts
  | InYoutube => Youtube.build_scenes bg_ids scripts
  end.

Definition submit_result_of (v : pooled) : outcome response -> outcome json :=
  match v with
  | InGoogleSearch => GS_submit_result
  | InYoutube => YT_submit_result
  end.

(** The upload of the [i]-th image, among the uploads in their order of
    completion, was answered with [id]. *)
Definition uploaded_as (fn : pystr -> IO json) (image_paths : list pystr)
    (w : world) (i : nat) (id : json) : Prop :=
  exists k,
    completion_order 5 fn image_paths w !! k = Some i /\
    (one_by_one fn image_paths (completion_order 5 fn image_paths w) w).1 !! k
    = Some (Ok id).

(** ** Worlds for the examples *)

Definition json_reply (code : N) (j : json) : response :=
  Response code [] [] (Some j).

Definition file_reply (data : bytes) : response :=
  Response 200 data [] None.

Definition status_reply (fields : list (pystr * json)) : response :=
  json_reply 200 (JObj [(py "code", JNum 100); (py "data", JObj fields)]).

Definition scripted_pick (choice : nat -> nat) (replies : list (outcome response))
  : world :=
  {| api_key := py "sk-test";
     http := fun k _ => default (Raise RequestException) (replies !! k);
     read_file := fun _ => Some [137; 80; 78; 71];
     open_error := fun _ => None;
     pick := choice;
     clock := O;
     log := [] |}.

Definition scripted : list (outcome response) -> world := scripted_pick (fun _ => O).

(** A name between double quotes, for the text of a JSON body. *)
Definition quoted (s : string) : pystr := [34] ++ py s ++ [34].

Definition upload_reply (id : string) : outcome response :=
  Ok (json_reply 200 (JObj [(py "code", JNum 100);
                            (py "data", JObj [(py "id", JStr (py id))])])).

Definition generate_reply (id : string) : outcome response :=
  Ok (json_reply 200 (JObj [(py "error", JNull);
                            (py "data", JObj [(py "video_id", JStr (py id))])])).

(** Three uploads that finish second, third, first; then the submission. *)
Definition world_three_uploads : world :=
  scripted_pick (fun _ => 1%nat)
    [upload_reply "asset-1"; upload_reply "asset-2"; upload_reply "asset-3";
     generate_reply "video-1"].


(** One upload, then a submission that the service refuses. *)
Definition world_submit_rejected : world :=
  scripted [upload_reply "asset-1";
            Ok (Response 401 []
                  (py "{" ++ quoted "data" ++ py ": null, " ++ quoted "error"
                   ++ py ": " ++ quoted "unauthorized" ++ py "}")
                  (Some (JObj [(py "data", JNull);
                               (py "error", JStr (py "unauthorized"))])))].

(** A submission that is answered with a video id. *)
Definition world_submit_accepted : world :=
  scripted [generate_reply "video-1"].

(** In progress once, then completed with both links. *)
Definition world_processing_then_completed : world :=
  scripted [
    Ok (status_reply [(py "status", JStr (py "processing"))]);
    Ok (status_reply [(py "status", JStr (py "completed"));
                      (py "video_url", JStr (py "https://files.heygen.ai/v.mp4"));
                      (py "caption_url", JStr (py "https://files.heygen.ai/v.srt"))]);
    Ok (file_reply [0; 0; 0; 24]);
    Ok (file_reply [49; 10])].

(** Failed at the first poll. *)
Definition world_failed : world :=
  scripted [
    Ok (status_reply [(py "status", JStr (py "failed"));
                      (py "error", JStr (py "invalid asset"))])].

(** Completed, but the download of the video raises; completed again. *)
Definition world_download_raises : world :=
  scripted [
    Ok (status_reply [(py "status", JStr (py "completed"));
                      (py "video_url", JStr (py "https://files.heygen.ai/v.mp4"))]);
    Raise RequestException;
    Ok (status_reply [(py "status", JStr (py "completed"));
                      (py "video_url", JStr (py "https://files.heygen.ai/v.mp4"))]);
    Ok (file_reply [0; 0; 0; 24])].

(** Completed at every poll, with a video that is fetched, and an output
    file that cannot be opened. *)
Definition world_output_unwritable : world :=
  let completed :=
    Ok (status_reply [(py "status", JStr (py "completed"));
                      (py "video_url", JStr (py "https://files.heygen.ai/v.mp4"))]) in
  {| api_key := py "sk-test";
     http := fun k _ =>
       default (Raise RequestException)
         ([completed; Ok (file_reply [0; 0; 0; 24]);
           completed; Ok (file_reply [0; 0; 0; 24])] !! k);
     read_file := fun _ => None;
     open_error := fun path => Some (FileNotFoundError [Lit path]);
     pick := fun _ => O;
     clock := O;
     log := [] |}.



(** The polls and pauses of [n] polls in a row that [GoogleSearch.download_video]
    does not take as final, from world [w]: 5 s after a poll that failed,
    15 s after one that gave a status. *)
Definition waiting_polls (sreq : request) (w : world) (n : nat) : list event :=
  flat_map (fun k =>
              let res := http w (clock w + k)%nat sreq in
              [EHttp sreq res;
               ESleep (match GS_observe res with Ok _ => 15 | Raise _ => 5 end)])
           (seq 0 n).

(** A [splitext] for the examples: the name is cut at its last dot. *)
Fixpoint cut_last_dot (p : pystr) : option (pystr * pystr) :=
  match p with
  | [] => None
  | c :: p' =>
    match cut_last_dot p' with
    | Some (root, ext) => Some (c :: root, ext)
    | None => if c =? 46 then Some ([], c :: p') else None
    end
  end.

Definition example_splitext (p : pystr) : pystr * pystr :=
  default (p, []) (cut_last_dot p).


(** [n] full turns of a loop body, each of which asks for another turn. *)
Fixpoint turns (n : nat) (body : IO ctl) (w : world) : option world :=
  match n with
  | O => Some w
  | S n' =>
    match body w with
    | (Ok Continue, w') => turns n' body w'
    | _ => None
    end
  end.

(** The body leaves the loop: by [break] or by an exception. *)
Definition leaves (body : IO ctl) (w : world) (r : outcome unit) (w' : world) : Prop :=
  (body w = (Ok Break, w') /\ r = Ok tt) \/
  (exists e, body w = (Raise e, w') /\ r = Raise e).

(** ** Uploads *)

(** The upload request of the GoogleSearch, Youtube and PPT scripts, and
    the one of the video-only script (which spells the header in lower
    case). *)
Definition upload_request (key : pystr) (data : bytes) : request :=
  Request POST UPLOAD_URL_V1
    [(py "X-Api-Key", key); (py "Content-Type", py "image/png")]
    [(py "type", py "image")] (DataBody data).

Definition PV_upload_request (key : pystr) (data : bytes) : request :=
  Request POST UPLOAD_URL_V1
    [(py "x-api-key", key); (py "Content-Type", py "image/png")]
    [(py "type", py "image")] (DataBody data).

(** [resp.json()["data"]["id"]]. *)
Definition asset_id_of_reply (resp : response) : outcome json :=
  j ← resp_json resp; d ← py_index j (py "data"); py_index d (py "id").

(** The addresses asked, in order. *)
Definition urls (evs : list event) : list pystr :=
  map (fun x => url x.1) (exchanges evs).

(** The four upload functions. *)
Inductive uploader : Type :=
| UpGoogleSearch | UpYoutube | UpPPT | UpVideoOnly.

Definition upload_of (u : uploader) : pystr -> IO json :=
  match u with
  | UpGoogleSearch => GoogleSearch.upload_to_heygen
  | UpYoutube => Youtube.upload_to_heygen
  | UpPPT => PPT.upload_to_heygen
  | UpVideoOnly => PptVideoOnly.upload_image
  end.

Definition upload_request_of (u : uploader) : pystr -> bytes -> request :=
  match u with
  | UpVideoOnly => PV_upload_request
  | _ => upload_request
  end.

Definition uploader_of (v : pooled) : uploader :=
  match v with
  | InGoogleSearch => UpGoogleSearch
  | InYoutube => UpYoutube
  end.

(** A world in which no file exists and no server answers. *)
Definition world_without_files : world :=
  {| api_key := py "sk-test";
     http := fun _ _ => Raise RequestException;
     read_file := fun _ => None;
     open_error := fun _ => None;
     pick := fun _ => O;
     clock := O;
     log := [] |}.

(** A reply of the upload server that carries an asset id under a given
    status code. *)
Definition upload_reply_with_status (code : N) (body : string) (id : string)
  : response :=
  Response code [] (py body)
    (Some (JObj [(py "code", JNum 100);
                 (py "data", JObj [(py "id", JStr (py id))])])).

(** What the upload of the [i]-th image came to, among the uploads in
    their order of completion. *)
Definition upload_outcome (fn : pystr -> IO json) (image_paths : list pystr)
    (w : world) (i : nat) (r : outcome json) : Prop :=
  exists k,
    completion_order 5 fn image_paths w !! k = Some i /\
    (one_by_one fn image_paths (completion_order 5 fn image_paths w) w).1 !! k
    = Some r.

(** Three uploads that finish third, first, second: the third image is
    answered with an error page, the first gets an id, the upload of the
    second cannot reach the server. *)
Definition world_two_uploads_fail : world :=
  scripted_pick (fun _ => 2%nat)
    [Ok (Response 500 [] (py "overloaded") None);
     upload_reply "asset-1";
     Raise RequestException].

(** ** The three polling loops *)

Inductive poller : Type :=
| PollGoogleSearch
| PollYoutube
| PollPPT (splitext : pystr -> pystr * pystr).

Definition loop_body_of (p : poller) : pystr -> pystr -> IO ctl :=
  match p with
  | PollGoogleSearch => GoogleSearch.loop_body
  | PollYoutube => Youtube.loop_body
  | PollPPT splitext => PPT.loop_body splitext
  end.

Definition download_video_of (p : poller) (fuel : nat) (video_id out : pystr)
  : world -> option (outcome unit * world) :=
  match p with
  | PollGoogleSearch => GoogleSearch.download_video fuel video_id out
  | PollYoutube => Youtube.download_video fuel video_id out
  | PollPPT splitext => PPT.download_video splitext fuel video_id out
  end.

(** An event that is not a request, or is the status poll, or is a GET
    of some address with no header, no parameter and no body. *)
Definition poll_or_bare_get (sreq : request) (e : event) : Prop :=
  match e with
  | EHttp req _ => req = sreq \/ exists u, req = get_request u
  | _ => True
  end.

(** Completed at the first poll, with no link at all. *)
Definition world_completed_without_links : world :=
  scripted [Ok (status_reply [(py "status", JStr (py "completed"))])].

(** [old in s], for strings. *)
Fixpoint contains (old s : pystr) : bool :=
  startswith s old ||
  match s with
  | [] => false
  | _ :: s' => contains old s'
  end.

(** ** The video-only script *)

Definition PV_generate_request (key : pystr) (payload : json) : request :=
  Request POST GENERATE_URL_V2
    [(py "x-api-key", key); (py "Content-Type", py "application/json")] []
    (JsonBody payload).

(** [resp.json().get("data", {}).get("video_id")]. *)
Definition PV_video_id_of_reply (resp : response) : outcome json :=
  data ← resp_json resp;
  d ← py_get data (py "data") (JObj []);
  py_get d (py "video_id") JNull.

(** The slides that have a text, with their numbers (from 1). *)
Definition slides_with_text (scripts : gmap.gmap nat pystr) (pngs : list pystr)
  : list (nat * pystr) :=
  filter (fun x => default [] (scripts !! x.1) <> []) (zip (seq 1 (length pngs)) pngs).

(** The requests of a log that went to a given address. *)
Definition requests_to (u : pystr) (evs : list event) : list request :=
  filter (fun req => url req = u) (map fst (exchanges evs)).

(** A generate request that the service accepts, under any status code. *)
Definition generate_reply_with_status (code : N) (id : string) : response :=
  json_reply code (JObj [(py "error", JNull);
                         (py "data", JObj [(py "video_id", JStr (py id))])]).

(** ** Paths typed or dropped at the prompt *)

(** Stripping on the left by a class of characters; [lstrip] and
    [lstrip_chars] are instances. *)
Fixpoint lstrip_by (P : N -> bool) (s : pystr) : pystr :=
  match s with
  | c :: s' => if P c then lstrip_by P s' else s
  | [] => []
  end.

(** A character a path may begin and end with: neither white space nor a
    quotation mark. *)
Definition path_edge (c : N) : bool :=
  negb (py_isspace c) && negb (c =? Youtube.dquote) && negb (c =? Youtube.squote).

(** A non-empty path that begins and ends with such characters. *)
Definition plain_path (p : pystr) : bool :=
  match p, rev p with
  | c :: _, d :: _ => path_edge c && path_edge d
  | _, _ => false
  end.

(** ** Texts handed to [safe_extract_json] *)

(** A text that neither begins nor ends with white space (the empty text
    is one). *)
Definition trimmed (s : pystr) : bool :=
  match s, rev s with
  | c :: _, d :: _ => negb (py_isspace c) && negb (py_isspace d)
  | _, _ => true
  end.

(** The character [c] does not occur in [s]. *)
Definition free_of (c : N) (s : pystr) : bool :=
  forallb (fun x => negb (x =? c)) s.

(** ** The voice of a scene *)

Definition voice_id := scene_field (py "voice") (py "voice_id").
Definition voice_locale := scene_field (py "voice") (py "locale").

(** A text holds a character of the block U+4E00 to U+9FFF. *)
Definition has_cjk (text : pystr) : Prop :=
  exists c, c ∈ text /\ 0x4e00 <= c <= 0x9fff.

(** The only scene of the payload of the video-only script. *)
Definition PV_scene (payload : json) : option json :=
  match payload with
  | JObj fields =>
    match assoc (py "video_inputs") fields with
    | Some (JArr [scene]) => Some scene
    | _ => None
    end
  | _ => None
  end.

(** ** Captions *)

(** The [i]-th field of a [Dialogue:] line, stripped. *)
Definition ass_field (i : nat) (line : pystr) : pystr :=
  py_strip (default [] (PPT.py_split_max 44 9 line !! i)).

(** A decimal digit. *)
Definition digit (d : Z) : N := Z.to_N (48 + d).

(** An [int] for the examples: it reads plain decimal digits. *)
Fixpoint ascii_int_from (acc : Z) (s : pystr) : option Z :=
  match s with
  | [] => Some acc
  | c :: s' =>
    if (48 <=? c) && (c <=? 57)
    then ascii_int_from (acc * 10 + Z.of_N (c - 48)) s'
    else None
  end.

Definition ascii_int (s : pystr) : option Z :=
  match s with
  | [] => None
  | _ => ascii_int_from 0 s
  end.

(** ** The files of a run *)

(** The paths that a run has opened for writing, in order. *)
Definition opened_paths (l : list event) : list pystr :=
  omap (fun e => match e with EOpen path _ => Some path | _ => None end) l.

(** A separator of a path. *)
Definition is_sep (c : N) : bool := (c =? 47) || (c =? 92).

(** A reversed path without its last name: from the last separator on. *)
Fixpoint drop_name (reversed : pystr) : pystr :=
  match reversed with
  | [] => []
  | c :: rest => if is_sep c then reversed else drop_name rest
  end.

(** The directory of a path: what stands before its last name. *)
Definition parent (path : pystr) : pystr := rev (drop_name (rev path)).

(** Two files were written: one at the output path and one at another path
    of the same directory. *)
Definition video_and_sibling_captions (out : pystr) (l : list event) : Prop :=
  exists srt, srt <> out /\ parent srt = parent out /\ opened_paths l = [out; srt].

(** * Lemmas *)

Lemma api_key_after w k evs : api_key (after w k evs) = api_key w.
Proof. reflexivity. Qed.
Lemma http_after w k evs : http (after w k evs) = http w.
Proof. reflexivity. Qed.
Lemma read_file_after w k evs : read_file (after w k evs) = read_file w.
Proof. reflexivity. Qed.
Lemma open_error_after w k evs : open_error (after w k evs) = open_error w.
Proof. reflexivity. Qed.
Lemma pick_after w k evs : pick (after w k evs) = pick w.
Proof. reflexivity. Qed.
Lemma clock_after w k evs : clock (after w k evs) = (clock w + k)%nat.
Proof. reflexivity. Qed.
Lemma log_after w k evs : log (after w k evs) = log w ++ evs.
Proof. reflexivity. Qed.

Lemma after_0_nil w : after w 0 [] = w.
Proof.
  destruct w; unfold after; simpl. rewrite Nat.add_0_r, app_nil_r. reflexivity.
Qed.

Lemma after_after w k1 k2 e1 e2 :
  after (after w k1 e1) k2 e2 = after w (k1 + k2) (e1 ++ e2).
Proof.
  unfold after; simpl. rewrite Nat.add_assoc, app_assoc. reflexivity.
Qed.

Lemma emit_after e w : emit e w = after w 0 [e].
Proof. unfold emit, after; simpl. rewrite Nat.add_0_r. reflexivity. Qed.

Lemma tick_after w : tick w = after w 1 [].
Proof. unfold tick, after; simpl. rewrite Nat.add_1_r, app_nil_r. reflexivity. Qed.

Lemma while_true_returns fuel body w r w' :
  while_true fuel body w = Some (r, w') <->
  exists n wn, (n < fuel)%nat /\ turns n body w = Some wn /\ leaves body wn r w'.
Proof.
  revert w. induction fuel as [|fuel IH]; intros w; simpl.
  - split; [discriminate|]. intros (n & wn & Hn & _). lia.
  - destruct (body w) as [[[]|e] w1] eqn:Hb.
    + rewrite IH. split.
      * intros (n & wn & Hn & Ht & Hl). exists (S n), wn.
        split; [lia|]. simpl. rewrite Hb. auto.
      * intros (n & wn & Hn & Ht & Hl). destruct n as [|n]; simpl in Ht.
        -- injection Ht as <-. destruct Hl as [[Hl _]|(e & Hl & _)]; congruence.
        -- rewrite Hb in Ht. exists n, wn. split; [lia|]. auto.
    + split.
      * intros [= <- <-]. exists O, w. split; [lia|]. split; [reflexivity|].
        left. auto.
      * intros (n & wn & Hn & Ht & Hl). destruct n as [|n]; simpl in Ht.
        -- injection Ht as <-. destruct Hl as [[Hl ->]|(e & Hl & _)]; congruence.
        -- rewrite Hb in Ht. discriminate.
    + split.
      * intros [= <- <-]. exists O, w. split; [lia|]. split; [reflexivity|].
        right. eauto.
      * intros (n & wn & Hn & Ht & Hl). destruct n as [|n]; simpl in Ht.
        -- injection Ht as <-. destruct Hl as [[Hl _]|(e' & Hl & ->)]; congruence.
        -- rewrite Hb in Ht. discriminate.
Qed.


Global Opaque emit tick after.
Global Opaque py API_HOST GENERATE_URL_V2 UPLOAD_URL_V1 VIDEO_STATUS_URL_V1
  VOICE_ID_ZH VOICE_ID_EN.

Ltac world_norm :=
  rewrite ?tick_after, ?emit_after, ?after_after,
    ?api_key_after, ?http_after, ?read_file_after, ?open_error_after,
    ?pick_after, ?clock_after, ?Nat.add_0_r;
  cbn [Nat.add app].

Ltac io_unfold :=
  unfold mbind, mret, fmap, IO_bind, IO_ret, IO_fmap, io_bind, io_ret,
    io_raise, lift, try_except, get_api_key, requests_get, requests_post,
    send, time_sleep, file_open, file_write, file_write_text in *.

Lemma GS_poll_eq vid w :
  let sreq := status_request (api_key w) vid in
  let res := http w (clock w) sreq in
  GoogleSearch.poll vid w = (GS_observe res, after w 1 [EHttp sreq res]).
Proof.
  intros sreq res.
  unfold GoogleSearch.poll, GoogleSearch.status_url, GS_observe.
  io_unfold. fold (status_request (api_key w) vid). fold sreq. fold res.
  world_norm.
  destruct res as [resp|e]; [|reflexivity].
  destruct (resp_json resp) as [r|e]; [|reflexivity].
  destruct (py_get r (py "data") (JObj [])) as [data|e]; [|reflexivity].
  destruct (py_get data (py "status") JNull) as [status|e]; reflexivity.
Qed.

Lemma is_str_py_true s : is_str (JStr (py s)) (py s) = true.
Proof. unfold is_str, str_eqb. apply bool_decide_eq_true. reflexivity. Qed.

Lemma is_str_true v s : is_str v s = true -> v = JStr s.
Proof.
  destruct v; simpl; try discriminate. unfold str_eqb.
  intros H%bool_decide_eq_true. congruence.
Qed.

Lemma completed_not_failed : py "completed" <> py "failed".
Proof. vm_compute. discriminate. Qed.

Lemma py_get_obj inner k d : py_get (JObj inner) k d = Ok (default d (assoc k inner)).
Proof. unfold py_get. destruct (assoc k inner); reflexivity. Qed.

Lemma GS_observe_reports res s :
  status_of res = Some s ->
  exists inner,
    GS_observe res = Ok (JObj inner, JStr s) /\
    forall k, default JNull (assoc (py k) inner) = data_field res k.
Proof.
  unfold status_of, GS_observe, data_field, resp_json.
  destruct res as [resp|e]; [|discriminate].
  destruct (parsed resp) as [[| | | | |fields]|]; try discriminate.
  simpl. destruct (assoc (py "data") fields) as [[| | | | |inner]|]; try discriminate.
  simpl. destruct (assoc (py "status") inner) as [[| | |t| |]|]; try discriminate.
  intros [= ->]. exists inner. split; reflexivity.
Qed.

Lemma GS_observe_not_terminal res :
  ~ terminal res ->
  (exists e, GS_observe res = Raise e) \/
  (exists data status, GS_observe res = Ok (data, status) /\
     is_str status (py "completed") = false /\
     is_str status (py "failed") = false).
Proof.
  intros Hnt.
  destruct (GS_observe res) as [[data status]|e] eqn:Hobs; [|eauto].
  right. exists data, status. split; [reflexivity|].
  assert (Hs : forall s, is_str status (py s) = true -> reports res s).
  { intros s Hs%is_str_true. subst status.
    unfold reports, status_of. unfold GS_observe, resp_json in Hobs.
    destruct res as [resp|e]; [|discriminate].
    destruct (parsed resp) as [[| | | | |fields]|]; try discriminate.
    simpl in Hobs. destruct (assoc (py "data") fields) as [[| | | | |inner]|];
      try discriminate; simpl in Hobs; try discriminate.
    destruct (assoc (py "status") inner) as [x|]; [|discriminate].
    injection Hobs as _ ->. reflexivity. }
  split.
  - destruct (is_str status (py "completed")) eqn:E; [|reflexivity].
    exfalso. apply Hnt. left. auto.
  - destruct (is_str status (py "failed")) eqn:E; [|reflexivity].
    exfalso. apply Hnt. right. auto.
Qed.


Lemma GS_loop_body_eq vid out w :
  let sreq := status_request (api_key w) vid in
  let res := http w (clock w) sreq in
  let w1 := after w 1 [EHttp sreq res] in
  GoogleSearch.loop_body vid out w =
  match GS_observe res with
  | Raise _ => (Ok Continue, after w 1 [EHttp sreq res; ESleep 5])
  | Ok (data, status) =>
    if is_str status (py "completed") then
      (GoogleSearch.download_if_present data (py "video_url") out;;
       GoogleSearch.download_if_present data (py "caption_url")
         (py_replace out (py ".mp4") (py ".srt"));;
       mret Break) w1
    else if is_str status (py "failed") then
      (err ← lift (py_get data (py "error") JNull);
       io_raise (Exception_ [Lit (py "渲染失敗: "); Fmt err])) w1
    else (Ok Continue, after w 1 [EHttp sreq res; ESleep 15])
  end.
Proof.
  intros sreq res w1.
  pose proof (GS_poll_eq vid w) as Hp. cbv zeta in Hp. fold sreq res in Hp.
  unfold GoogleSearch.loop_body.
  unfold mbind at 1, IO_bind, io_bind, try_except, fmap, IO_fmap, io_bind.
  rewrite Hp. fold w1.
  destruct (GS_observe res) as [[data status]|e].
  - cbn [io_ret].
    destruct (is_str status (py "completed")); [reflexivity|].
    destruct (is_str status (py "failed")); [reflexivity|].
    io_unfold. unfold w1. world_norm. reflexivity.
  - io_unfold. unfold w1. world_norm. reflexivity.
Qed.


Lemma GS_turn_failed vid out w :
  let sreq := status_request (api_key w) vid in
  let res := http w (clock w) sreq in
  reports res "failed" ->
  GoogleSearch.loop_body vid out w
  = (Raise (Exception_ [Lit (py "渲染失敗: "); Fmt (data_field res "error")]),
     after w 1 [EHttp sreq res]).
Proof.
  intros sreq res Hf. pose proof (GS_loop_body_eq vid out w) as H.
  cbv zeta in H. fold sreq res in H. rewrite H.
  destruct (GS_observe_reports res _ Hf) as (inner & -> & Hget).
  assert (is_str (JStr (py "failed")) (py "completed") = false) as ->.
  { unfold is_str, str_eqb. apply bool_decide_eq_false.
    intros E. apply completed_not_failed. auto. }
  rewrite is_str_py_true. io_unfold. rewrite py_get_obj, Hget. reflexivity.
Qed.

(** What [download_if_present] does, by the shape of the link. *)
Lemma GS_download_if_present_eq inner key path w :
  let v := default JNull (assoc key inner) in
  GoogleSearch.download_if_present (JObj inner) key path w =
  if truthy v then
    match open_error w path with
    | Some e => (Raise e, w)
    | None =>
      match v with
      | JStr u =>
        let req := get_request u in
        match http w (clock w) req with
        | Ok resp =>
          (Ok tt, after w 1 [EOpen path WB; EHttp req (Ok resp); EWrite path (content resp)])
        | Raise e => (Raise e, after w 1 [EOpen path WB; EHttp req (Raise e)])
        end
      | _ => (Raise RequestException, after w 0 [EOpen path WB])
      end
    end
  else (Ok tt, w).
Proof.
  intros v. unfold GoogleSearch.download_if_present, py_get, py_index, v.
  io_unfold.
  destruct (assoc key inner) as [x|] eqn:Hx; cbn [from_option id]; [|reflexivity].
  destruct (truthy x) eqn:Ht; [|reflexivity].
  destruct (open_error w path) as [e|]; [reflexivity|].
  destruct x; cbn [requests_get_value]; io_unfold; world_norm; try reflexivity.
  destruct (http w (clock w) _) eqn:E; world_norm; reflexivity.
Qed.

Lemma is_str_other s t : s <> t -> is_str (JStr s) t = false.
Proof. intros H. unfold is_str, str_eqb. apply bool_decide_eq_false. exact H. Qed.

(** A well-formed reply with any other status: wait 15 s and poll again. *)
Lemma GS_turn_in_progress vid out w s :
  let sreq := status_request (api_key w) vid in
  let res := http w (clock w) sreq in
  status_of res = Some s -> s <> py "completed" -> s <> py "failed" ->
  GoogleSearch.loop_body vid out w
  = (Ok Continue, after w 1 [EHttp sreq res; ESleep 15]).
Proof.
  intros sreq res Hs Hc Hf. pose proof (GS_loop_body_eq vid out w) as H.
  cbv zeta in H. fold sreq res in H. rewrite H.
  destruct (GS_observe_reports res _ Hs) as (inner & -> & _).
  rewrite !is_str_other by assumption. reflexivity.
Qed.

(** A reply that reports [completed]: the downloads, then [break]. *)
Lemma GS_turn_completed vid out w :
  let sreq := status_request (api_key w) vid in
  let res := http w (clock w) sreq in
  reports res "completed" ->
  exists inner,
    (forall k, default JNull (assoc (py k) inner) = data_field res k) /\
    GoogleSearch.loop_body vid out w =
    (GoogleSearch.download_if_present (JObj inner) (py "video_url") out;;
     GoogleSearch.download_if_present (JObj inner) (py "caption_url")
       (py_replace out (py ".mp4") (py ".srt"));;
     mret Break) (after w 1 [EHttp sreq res]).
Proof.
  intros sreq res Hc. pose proof (GS_loop_body_eq vid out w) as H.
  cbv zeta in H. fold sreq res in H. rewrite H.
  destruct (GS_observe_reports res _ Hc) as (inner & -> & Hget).
  rewrite is_str_py_true. eauto.
Qed.

Lemma truthy_nonempty_str u : u <> [] -> truthy (JStr u) = true.
Proof.
  intros H. unfold truthy. apply negb_true_iff, bool_decide_eq_false. exact H.
Qed.

(** ** The PPT loop *)

Lemma PPT_observe_reports res s :
  status_of res = Some s ->
  exists inner,
    PPT_observe res = Ok (JObj inner, JStr s) /\
    forall k, default JNull (assoc (py k) inner) = data_field res k.
Proof.
  unfold status_of, PPT_observe, data_field, resp_json.
  destruct res as [resp|e]; [|discriminate].
  destruct (parsed resp) as [[| | | | |fields]|]; try discriminate.
  simpl. destruct (assoc (py "data") fields) as [[| | | | |inner]|]; try discriminate.
  simpl. destruct (assoc (py "status") inner) as [[| | |t| |]|]; try discriminate.
  intros [= ->]. exists inner. split; reflexivity.
Qed.


Lemma PPT_attempt_eq splitext vid out w :
  let sreq := status_request (api_key w) vid in
  let res := http w (clock w) sreq in
  let w1 := after w 1 [EHttp sreq res] in
  PPT.attempt splitext vid out w =
  match PPT_observe res with
  | Raise e => (Raise e, w1)
  | Ok (data, status) =>
    if is_str status (py "completed") then PPT.on_completed splitext data out w1
    else if is_str status (py "failed") then (Ok Break, w1)
    else (Ok Continue, after w 1 [EHttp sreq res; ESleep 10])
  end.
Proof.
  intros sreq res w1.
  unfold PPT.attempt, PPT_observe, PPT.on_completed.
  io_unfold. fold (status_request (api_key w) vid). fold sreq. fold res.
  world_norm. fold w1.
  destruct res as [resp|e]; [|reflexivity].
  destruct (resp_json resp) as [r|e]; [|reflexivity].
  destruct (py_index r (py "data")) as [data|e]; [|reflexivity].
  destruct (py_index data (py "status")) as [status|e]; [|reflexivity].
  destruct (is_str status (py "completed")); [reflexivity|].
  destruct (is_str status (py "failed")); [reflexivity|].
  unfold w1. world_norm. reflexivity.
Qed.




Lemma PPT_fetch_video_eq v out w :
  PPT.fetch_video v out w =
  if truthy v then
    match v with
    | JStr u =>
      match http w (clock w) (get_request u) with
      | Ok r =>
        match open_error w out with
        | Some e => (Raise e, after w 1 [EHttp (get_request u) (Ok r)])
        | None =>
          (Ok tt, after w 1 [EHttp (get_request u) (Ok r); EOpen out WB;
                             EWrite out (content r)])
        end
      | Raise e => (Raise e, after w 1 [EHttp (get_request u) (Raise e)])
      end
    | _ => (Raise RequestException, w)
    end
  else (Ok tt, w).
Proof.
  unfold PPT.fetch_video. destruct (truthy v); [|reflexivity].
  destruct v; unfold requests_get_value; io_unfold; try reflexivity.
  fold (get_request s).
  destruct (http w (clock w) (get_request s)) eqn:E; world_norm; [|reflexivity].
  destruct (open_error w out); world_norm; reflexivity.
Qed.

Lemma PPT_on_completed_eq splitext inner out w :
  PPT.on_completed splitext (JObj inner) out w =
  match PPT.fetch_video (default JNull (assoc (py "video_url") inner)) out w with
  | (Ok _, w2) =>
    match PPT.fetch_caption splitext
            (default JNull (assoc (py "caption_url") inner)) out w2 with
    | (Ok _, w3) => (Ok Break, w3)
    | (Raise e, w3) => (Raise e, w3)
    end
  | (Raise e, w2) => (Raise e, w2)
  end.
Proof.
  unfold PPT.on_completed. io_unfold. rewrite !py_get_obj. reflexivity.
Qed.



Lemma PPT_turn_failed splitext vid out w :
  let sreq := status_request (api_key w) vid in
  let res := http w (clock w) sreq in
  reports res "failed" ->
  PPT.loop_body splitext vid out w = (Ok Break, after w 1 [EHttp sreq res]).
Proof.
  intros sreq res Hf. unfold PPT.loop_body, try_except.
  pose proof (PPT_attempt_eq splitext vid out w) as H.
  cbv zeta in H. fold sreq res in H. rewrite H.
  destruct (PPT_observe_reports res _ Hf) as (inner & -> & _).
  rewrite is_str_other by (intros E; apply completed_not_failed; auto).
  rewrite is_str_py_true. reflexivity.
Qed.


(** ** Turns of a loop as rounds of events *)

Lemma turns_rounds (P : pystr -> list event -> Prop) body :
  (forall w w', body w = (Ok Continue, w') ->
     exists k round, w' = after w k round /\ P (api_key w) round) ->
  forall n w wn, turns n body w = Some wn ->
    exists k rounds, wn = after w k (concat rounds) /\ Forall (P (api_key w)) rounds.
Proof.
  intros Hstep n. induction n as [|n IH]; intros w wn; simpl.
  - intros [= <-]. exists O, []. rewrite after_0_nil. split; [reflexivity|constructor].
  - destruct (body w) as [[[]|e] w1] eqn:Hb; try discriminate.
    intros Ht. destruct (Hstep _ _ Hb) as (k & round & -> & HP).
    destruct (IH _ _ Ht) as (k' & rounds & -> & HPs).
    exists (k + k')%nat, (round :: rounds). rewrite after_after. split; [reflexivity|].
    constructor; assumption.
Qed.






Lemma while_true_leaves n fuel body w wn r w' :
  turns n body w = Some wn -> (n < fuel)%nat -> leaves body wn r w' ->
  while_true fuel body w = Some (r, w').
Proof.
  intros Ht Hn Hl. apply while_true_returns. eauto.
Qed.



(** [n] turns, each of which is known from the position of its poll. *)
Lemma turns_flat_map body (ev : nat -> list event) n w :
  (forall k w0, (k < n)%nat ->
     api_key w0 = api_key w -> http w0 = http w -> clock w0 = (clock w + k)%nat ->
     body w0 = (Ok Continue, after w0 1 (ev k))) ->
  turns n body w = Some (after w n (flat_map ev (seq 0 n))).
Proof.
  intros Hstep.
  assert (Hgen : forall m c w0, (c + m <= n)%nat ->
    api_key w0 = api_key w -> http w0 = http w -> clock w0 = (clock w + c)%nat ->
    turns m body w0 = Some (after w0 m (flat_map ev (seq c m)))).
  { induction m as [|m IH]; intros c w0 Hle Hk Hh Hc; simpl.
    - rewrite after_0_nil. reflexivity.
    - rewrite (Hstep c w0) by (assumption || lia).
      rewrite (IH (S c)); world_norm; try assumption; try lia.
      replace (m + 1)%nat with (S m) by lia. reflexivity. }
  rewrite (Hgen n O w); try reflexivity; lia.
Qed.








(** ** The thread pool *)

Section executor_facts.
Context {A B : Type}.
Variable max_workers : nat.
Variable fn : A -> IO B.

Lemma unfinished_lookup i0 n (fs : list (A * option (outcome B))) idx i x :
  unfinished i0 n fs !! idx = Some (i, x) ->
  exists j, i = (i0 + j)%nat /\ (j < n)%nat /\ fs !! j = Some (x, None).
Proof.
  revert i0 n idx. induction fs as [|[y [r|]] fs IH]; intros i0 n idx.
  - destruct n; discriminate.
  - destruct n as [|n]; [discriminate|]. cbn [unfinished]. intros H.
    destruct (IH _ _ _ H) as (j & -> & Hj & Hl).
    exists (S j). repeat split; [lia|lia|exact Hl].
  - destruct n as [|n]; [discriminate|]. cbn [unfinished].
    destruct idx as [|idx]; cbn [lookup list_lookup].
    + intros [= <- <-]. exists O. repeat split; [lia|lia].
    + intros H. destruct (IH _ _ _ H) as (j & -> & Hj & Hl).
      exists (S j). repeat split; [lia|lia|exact Hl].
Qed.

Lemma count_done_insert (fs : list (A * option (outcome B))) i x r :
  fs !! i = Some (x, None) ->
  count_done (<[i := (x, Some r)]> fs) = S (count_done fs).
Proof.
  revert i. induction fs as [|[y [r'|]] fs IH]; intros [|i]; cbn;
    try discriminate; intros H.
  - f_equal. apply (IH _ H).
  - reflexivity.
  - apply (IH _ H).
Qed.

Lemma fst_insert_done (fs : list (A * option (outcome B))) i x o r :
  fs !! i = Some (x, o) ->
  fst <$> <[i := (x, Some r)]> fs = fst <$> fs.
Proof.
  intros H. rewrite list_fmap_insert. apply list_insert_id.
  rewrite list_lookup_fmap, H. reflexivity.
Qed.

(** What a run of the pool leaves behind. *)
Lemma run_pool_spec steps (fs : list (A * option (outcome B))) w order fs' w' :
  run_pool max_workers fn steps fs w = (order, fs', w') ->
  fst <$> fs' = fst <$> fs /\
  (forall i, i ∉ order -> fs' !! i = fs !! i) /\
  NoDup order /\
  (forall k i, order !! k = Some i ->
     (exists x, fs !! i = Some (x, None)) /\
     (i < count_done fs + k + max_workers)%nat) /\
  exists rs,
    one_by_one fn (fst <$> fs) order w = (rs, w') /\
    forall k i, order !! k = Some i ->
      exists x r, rs !! k = Some r /\ fs' !! i = Some (x, Some r).
Proof.
  revert fs w order fs' w'. induction steps as [|steps IH];
    intros fs w order fs' w'; cbn [run_pool].
  { intros [= <- <- <-]. split; [done|]. split; [done|].
    split; [constructor|]. split; [intros k i H; discriminate|].
    exists []. split; [reflexivity|intros k i H; discriminate]. }
  destruct (in_flight max_workers fs !! _) as [[i x]|] eqn:Hpick.
  2:{ intros [= <- <- <-]. split; [done|]. split; [done|].
      split; [constructor|]. split; [intros k i H; discriminate|].
      exists []. split; [reflexivity|intros k i H; discriminate]. }
  apply unfinished_lookup in Hpick as (j & Hij & Hj & Hfs).
  cbn [Nat.add] in Hij. subst j.
  destruct (fn x w) as [r w1] eqn:Hfn.
  destruct (run_pool max_workers fn steps (<[i:=(x, Some r)]> fs) w1)
    as [[order' fs1] w1'] eqn:Hrun.
  intros [= <- <- <-].
  destruct (IH _ _ _ _ _ Hrun) as (Hfst & Hother & Hnd & Hwin & rs & Hone & Hres).
  pose proof (lookup_lt_Some _ _ _ Hfs) as Hlen.
  assert (Hnotin : i ∉ order').
  { intros (k & Hk)%list_elem_of_lookup_1.
    destruct (Hwin _ _ Hk) as [[x' Hx'] _].
    rewrite list_lookup_insert_eq in Hx' by exact Hlen. discriminate. }
  split; [|split; [|split; [|split]]].
  - rewrite Hfst. eapply fst_insert_done, Hfs.
  - intros i' Hi'. apply not_elem_of_cons in Hi' as [Hne Hi'].
    rewrite (Hother _ Hi'). apply list_lookup_insert_ne. congruence.
  - constructor; assumption.
  - intros [|k] i' Hk; cbn in Hk.
    + injection Hk as <-. split; [eauto|lia].
    + destruct (Hwin _ _ Hk) as [[x' Hx'] Hlt].
      assert (i <> i').
      { intros <-. rewrite list_lookup_insert_eq in Hx' by exact Hlen.
        discriminate. }
      rewrite list_lookup_insert_ne in Hx' by assumption.
      rewrite (count_done_insert _ _ _ _ Hfs) in Hlt.
      split; [eauto|lia].
  - exists (r :: rs). split.
    + cbn [one_by_one]. rewrite list_lookup_fmap, Hfs. cbn.
      rewrite Hfn. rewrite (fst_insert_done _ _ _ _ r Hfs) in Hone.
      rewrite Hone. reflexivity.
    + intros [|k] i' Hk; cbn in Hk.
      * injection Hk as <-. exists x, r. split; [reflexivity|].
        rewrite (Hother _ Hnotin). apply list_lookup_insert_eq, Hlen.
      * apply (Hres _ _ Hk).
Qed.

Lemma gather_Ok (fs : list (A * option (outcome B))) bs :
  gather fs = Ok bs ->
  length bs = length fs /\
  forall i x o, fs !! i = Some (x, o) ->
    exists b, o = Some (Ok b) /\ bs !! i = Some b.
Proof.
  revert bs. induction fs as [|[x [[b|e]|]] fs IH]; intros bs; cbn [gather];
    try discriminate.
  - intros [= <-]. split; [reflexivity|]. intros i x o H. discriminate.
  - destruct (gather fs) as [bs'|e]; [|discriminate].
    intros [= <-]. destruct (IH _ eq_refl) as [Hlen Hall].
    split; [cbn; congruence|].
    intros [|i] x' o H; cbn in H.
    + injection H as <- <-. eauto.
    + apply (Hall _ _ _ H).
Qed.

Lemma count_done_submit_all (xs : list A) : count_done (@submit_all A B xs) = O.
Proof. induction xs as [|x xs IH]; [reflexivity|exact IH]. Qed.

(** [executor.map] gives back one result per argument, each at the
    position of its argument, whatever the order of completion. *)
Lemma executor_map_spec xs w bs w' :
  executor_map max_workers fn xs w = (Ok bs, w') ->
  let order := completion_order max_workers fn xs w in
  length bs = length xs /\
  order ≡ₚ seq 0 (length xs) /\
  (forall k i, order !! k = Some i -> (i < k + max_workers)%nat) /\
  exists rs,
    one_by_one fn xs order w = (rs, w') /\
    forall k i, order !! k = Some i ->
      exists x b, xs !! i = Some x /\ rs !! k = Some (Ok b) /\ bs !! i = Some b.
Proof.
  unfold executor_map, completion_order.
  destruct (run_pool max_workers fn (length xs) (submit_all xs) w)
    as [[order fs] w1] eqn:Hrun.
  intros [= Hg <-]. cbn [fst].
  destruct (run_pool_spec _ _ _ _ _ _ Hrun)
    as (Hfst & Hother & Hnd & Hwin & rs & Hone & Hres).
  destruct (gather_Ok _ _ Hg) as [Hlen Hall].
  assert (Hxs : fst <$> @submit_all A B xs = xs).
  { unfold submit_all. rewrite <- list_fmap_compose. apply list_fmap_id. }
  assert (Hsub : forall i x, xs !! i = Some x -> @submit_all A B xs !! i = Some (x, None)).
  { intros i x H. unfold submit_all. rewrite list_lookup_fmap, H. reflexivity. }
  pose proof (count_done_submit_all xs) as Hcd.
  assert (Hlenfs : length fs = length xs).
  { rewrite <- (length_fmap fst fs), Hfst, Hxs. reflexivity. }
  rewrite Hxs in Hone.
  split; [congruence|]. split; [|split].
  - apply NoDup_Permutation; [exact Hnd|apply NoDup_seq|].
    intros i. rewrite elem_of_seq. split.
    + intros (k & Hk)%list_elem_of_lookup_1.
      destruct (Hwin _ _ Hk) as [[x Hx] _].
      apply lookup_lt_Some in Hx. unfold submit_all in Hx.
      rewrite length_fmap in Hx. lia.
    + intros [_ Hi]. destruct (decide (i ∈ order)) as [|Hni]; [assumption|].
      exfalso. destruct (lookup_lt_is_Some_2 xs i) as [x Hx]; [lia|].
      pose proof (Hother _ Hni) as Hsame. rewrite (Hsub _ _ Hx) in Hsame.
      destruct (Hall _ _ _ Hsame) as (b & Hb & _). discriminate.
  - intros k i Hk. destruct (Hwin _ _ Hk) as [_ Hlt]. rewrite Hcd in Hlt. lia.
  - exists rs. split; [exact Hone|].
    intros k i Hk. destruct (Hres _ _ Hk) as (x & r & Hr & Hfs).
    destruct (Hall _ _ _ Hfs) as (b & [= ->] & Hb).
    exists x, b. split; [|split; assumption].
    assert (Hx : (fst <$> fs) !! i = Some x)
      by (rewrite list_lookup_fmap, Hfs; reflexivity).
    rewrite Hfst, Hxs in Hx. exact Hx.
Qed.
Lemma count_done_le_length (fs : list (A * option (outcome B))) :
  (count_done fs <= length fs)%nat.
Proof. induction fs as [|[x [r|]] fs IH]; cbn; lia. Qed.

Lemma count_done_take_le n (fs : list (A * option (outcome B))) :
  (count_done (take n fs) <= count_done fs)%nat.
Proof.
  revert n. induction fs as [|[x [r|]] fs IH]; intros [|n]; cbn; try lia.
  - specialize (IH n). lia.
  - apply IH.
Qed.

Lemma unfinished_length i n (fs : list (A * option (outcome B))) :
  (length (unfinished i n fs) + count_done (take n fs))%nat
  = Nat.min n (length fs).
Proof.
  revert i n. induction fs as [|[x [r|]] fs IH]; intros i [|n]; cbn; try reflexivity.
  - rewrite <- (IH (S i) n). lia.
  - rewrite <- (IH (S i) n). lia.
Qed.

(** While a call is unfinished, some call is in flight. *)
Lemma in_flight_nonempty (fs : list (A * option (outcome B))) :
  (0 < max_workers)%nat -> (count_done fs < length fs)%nat ->
  (0 < length (in_flight max_workers fs))%nat.
Proof.
  intros Hw Hlt. unfold in_flight.
  pose proof (unfinished_length O (count_done fs + max_workers) fs) as Hlen.
  pose proof (count_done_take_le (count_done fs + max_workers) fs) as Hle.
  destruct (Nat.le_gt_cases (count_done fs + max_workers) (length fs)) as [H|H].
  - rewrite Nat.min_l in Hlen by exact H. lia.
  - rewrite Nat.min_r in Hlen by lia.
    rewrite take_ge in Hlen by lia. lia.
Qed.

(** Given enough steps, the pool finishes every call. *)
Lemma run_pool_completes steps (fs : list (A * option (outcome B))) w order fs' w' :
  (0 < max_workers)%nat ->
  (length fs - count_done fs <= steps)%nat ->
  run_pool max_workers fn steps fs w = (order, fs', w') ->
  count_done fs' = length fs'.
Proof.
  intros Hw. revert fs w order fs' w'. induction steps as [|steps IH];
    intros fs w order fs' w' Hsteps; cbn [run_pool].
  { intros [= <- <- <-]. pose proof (count_done_le_length fs). lia. }
  destruct (in_flight max_workers fs !! _) as [[i x]|] eqn:Hpick.
  - pose proof Hpick as Hp.
    apply unfinished_lookup in Hp as (j & Hij & Hj & Hfs).
    cbn [Nat.add] in Hij. subst j.
    destruct (fn x w) as [r w1].
    destruct (run_pool max_workers fn steps (<[i:=(x, Some r)]> fs) w1)
      as [[order' fs1] w1'] eqn:Hrun.
    intros [= <- <- <-]. apply (IH _ _ _ _ _) in Hrun; [exact Hrun|].
    rewrite (count_done_insert _ _ _ r Hfs), length_insert. lia.
  - intros [= <- <- <-].
    destruct (Nat.eq_dec (count_done fs) (length fs)) as [|Hne]; [assumption|].
    exfalso. pose proof (count_done_le_length fs).
    pose proof (in_flight_nonempty fs Hw ltac:(lia)) as Hpos.
    apply lookup_ge_None in Hpick.
    pose proof (Nat.mod_upper_bound (pick w (count_done fs))
                  (length (in_flight max_workers fs)) ltac:(lia)). lia.
Qed.

Lemma gather_Raise (fs : list (A * option (outcome B))) e :
  count_done fs = length fs ->
  gather fs = Raise e ->
  exists i x, fs !! i = Some (x, Some (Raise e)).
Proof.
  induction fs as [|[x [[b|e']|]] fs IH]; cbn [gather count_done length].
  - discriminate.
  - intros Hd. destruct (gather fs) as [bs|e'']; [discriminate|].
    intros [= ->]. destruct IH as (i & x' & Hi); [lia|reflexivity|].
    exists (S i), x'. exact Hi.
  - intros _ [= ->]. exists O, x. reflexivity.
  - intros Hd. pose proof (count_done_le_length fs). lia.
Qed.

(** [executor.map] raises only what one of the calls raised. *)
Lemma executor_map_raises xs w e w' :
  (0 < max_workers)%nat ->
  executor_map max_workers fn xs w = (Raise e, w') ->
  exists k,
    (one_by_one fn xs (completion_order max_workers fn xs w) w).1 !! k
    = Some (Raise e).
Proof.
  intros Hw. unfold executor_map, completion_order.
  destruct (run_pool max_workers fn (length xs) (submit_all xs) w)
    as [[order fs] w1] eqn:Hrun.
  intros [= Hg <-]. cbn [fst].
  assert (Hdone : count_done fs = length fs).
  { eapply run_pool_completes; [exact Hw| |exact Hrun].
    unfold submit_all. rewrite length_fmap. lia. }
  destruct (gather_Raise _ _ Hdone Hg) as (i & x & Hi).
  destruct (run_pool_spec _ _ _ _ _ _ Hrun)
    as (Hfst & Hother & Hnd & Hwin & rs & Hone & Hres).
  assert (Hxs : fst <$> @submit_all A B xs = xs).
  { unfold submit_all. rewrite <- list_fmap_compose. apply list_fmap_id. }
  rewrite Hxs in Hone. rewrite Hone. cbn [fst].
  destruct (decide (i ∈ order)) as [Hin|Hni].
  - apply list_elem_of_lookup_1 in Hin as [k Hk].
    destruct (Hres _ _ Hk) as (x' & r & Hr & Hfs).
    exists k. rewrite Hr. congruence.
  - exfalso. pose proof (Hother _ Hni) as Hsame. rewrite Hi in Hsame.
    unfold submit_all in Hsame. rewrite list_lookup_fmap in Hsame.
    destruct (xs !! i); discriminate.
Qed.
End executor_facts.

(** ** Submission *)

Lemma GS_create_eq image_paths scripts w :
  GoogleSearch.create_full_video image_paths scripts w =
  match executor_map 5 GoogleSearch.upload_to_heygen image_paths w with
  | (Ok bg_ids, w1) =>
    let req := generate_request (api_key w1)
                 (GoogleSearch.payload (GoogleSearch.build_scenes bg_ids scripts)) in
    let res := http w1 (clock w1) req in
    (GS_submit_result res, after w1 1 [EHttp req res])
  | (Raise e, w1) => (Raise e, w1)
  end.
Proof.
  unfold GoogleSearch.create_full_video.
  unfold mbind at 1, IO_bind, io_bind.
  destruct (executor_map 5 GoogleSearch.upload_to_heygen image_paths w)
    as [[bg_ids|e] w1]; [|reflexivity].
  io_unfold. world_norm. cbv zeta.
  fold (generate_request (api_key w1)
          (GoogleSearch.payload (GoogleSearch.build_scenes bg_ids scripts))).
  destruct (http w1 (clock w1) _) as [resp|e]; [|reflexivity].
  unfold GS_submit_result, video_id_of_reply, video_id_of.
  cbn [mbind outcome_bind].
  destruct (resp_json resp) as [j|e]; [|reflexivity]. cbn.
  destruct (py_index j (py "data")) as [d|e]; [|reflexivity]. cbn.
  destruct (py_index d (py "video_id")); reflexivity.
Qed.

Lemma YT_create_eq image_paths scripts w :
  Youtube.create_full_video image_paths scripts w =
  match executor_map 5 Youtube.upload_to_heygen image_paths w with
  | (Ok bg_ids, w1) =>
    let req := generate_request (api_key w1)
                 (Youtube.payload (Youtube.build_scenes bg_ids scripts)) in
    let res := http w1 (clock w1) req in
    (YT_submit_result res, after w1 1 [EHttp req res])
  | (Raise e, w1) => (Raise e, w1)
  end.
Proof.
  unfold Youtube.create_full_video.
  unfold mbind at 1, IO_bind, io_bind.
  destruct (executor_map 5 Youtube.upload_to_heygen image_paths w)
    as [[bg_ids|e] w1]; [|reflexivity].
  io_unfold. world_norm. cbv zeta.
  fold (generate_request (api_key w1)
          (Youtube.payload (Youtube.build_scenes bg_ids scripts))).
  destruct (http w1 (clock w1) _) as [resp|e]; [|reflexivity].
  unfold YT_submit_result, video_id_of_reply, video_id_of.
  cbn [mbind outcome_bind].
  destruct (resp_ok resp); [|reflexivity]. cbn.
  destruct (resp_json resp) as [j|e]; [|reflexivity]. cbn.
  destruct (py_index j (py "data")) as [d|e]; [|reflexivity]. cbn.
  destruct (py_index d (py "video_id")); reflexivity.
Qed.

Lemma PPT_create_eq image_paths scripts w :
  PPT.create_full_video image_paths scripts w =
  match PPT.build_scenes (zip image_paths scripts) w with
  | (Ok scenes, w1) =>
    let req := PPT_generate_request (api_key w1) (PPT.payload scenes) in
    let res := http w1 (clock w1) req in
    (PPT_submit_result res, after w1 1 [EHttp req res])
  | (Raise e, w1) => (Raise e, w1)
  end.
Proof.
  unfold PPT.create_full_video.
  unfold mbind at 1, IO_bind, io_bind.
  destruct (PPT.build_scenes (zip image_paths scripts) w)
    as [[scenes|e] w1]; [|reflexivity].
  io_unfold. world_norm. cbv zeta.
  fold (PPT_generate_request (api_key w1) (PPT.payload scenes)).
  destruct (http w1 (clock w1) _) as [resp|e]; [|reflexivity].
  unfold PPT_submit_result, video_id_of.
  cbn [mbind outcome_bind].
  destruct (resp_json resp) as [data|e]; [|reflexivity]. cbn.
  destruct (status_code resp =? 200).
  - destruct (py_get data (py "error") JNull) as [err|e]; [|reflexivity]. cbn.
    destruct (truthy err); cbn; [reflexivity|].
    destruct (py_index data (py "data")) as [d|e]; [|reflexivity]. cbn.
    destruct (py_index d (py "video_id")); reflexivity.
  - reflexivity.
Qed.

Lemma create_full_video_of_eq v image_paths scripts w :
  create_full_video_of v image_paths scripts w =
  match executor_map 5 (upload_to_heygen_of v) image_paths w with
  | (Ok bg_ids, w1) =>
    let req := generate_request (api_key w1) (payload_of v bg_ids scripts) in
    let res := http w1 (clock w1) req in
    (submit_result_of v res, after w1 1 [EHttp req res])
  | (Raise e, w1) => (Raise e, w1)
  end.
Proof. destruct v; [apply GS_create_eq|apply YT_create_eq]. Qed.

Lemma video_inputs_payload_of v key bg_ids scripts :
  video_inputs (generate_request key (payload_of v bg_ids scripts))
  = Some (scenes_of v bg_ids scripts).
Proof. destruct v; vm_compute; reflexivity. Qed.

Lemma map_zip_lookup {X Y Z} (f : X * Y -> Z) (xs : list X) (ys : list Y) i x y :
  xs !! i = Some x -> ys !! i = Some y ->
  map f (zip xs ys) !! i = Some (f (x, y)).
Proof.
  revert ys i. induction xs as [|x0 xs IH]; intros [|y0 ys] [|i]; cbn;
    try discriminate.
  - intros [= ->] [= ->]. reflexivity.
  - apply IH.
Qed.

Lemma map_zip_length {X Y Z} (f : X * Y -> Z) (xs : list X) (ys : list Y) :
  length (map f (zip xs ys)) = Nat.min (length xs) (length ys).
Proof.
  revert ys. induction xs as [|x0 xs IH]; intros [|y0 ys]; cbn; try reflexivity.
  f_equal. apply IH.
Qed.

Lemma scenes_of_length v bg_ids scripts :
  length (scenes_of v bg_ids scripts) = Nat.min (length bg_ids) (length scripts).
Proof. destruct v; apply map_zip_length. Qed.

Lemma scenes_of_lookup v bg_ids scripts i id script :
  bg_ids !! i = Some id -> scripts !! i = Some script ->
  exists scene,
    scenes_of v bg_ids scripts !! i = Some scene /\
    image_asset_id scene = Some id /\
    input_text scene = Some (JStr (py_replace script (py "，") (py "， "))).
Proof.
  intros Hid Hs. destruct v; cbn [scenes_of].
  - exists (GoogleSearch.scene id script). split; [|split].
    + unfold GoogleSearch.build_scenes.
      rewrite (map_zip_lookup _ _ _ _ _ _ Hid Hs). reflexivity.
    + vm_compute. reflexivity.
    + vm_compute. reflexivity.
  - exists (Youtube.scene id script). split; [|split].
    + unfold Youtube.build_scenes.
      rewrite (map_zip_lookup _ _ _ _ _ _ Hid Hs). reflexivity.
    + vm_compute. reflexivity.
    + vm_compute. reflexivity.
Qed.

Lemma uploads_in_order v image_paths w bg_ids w' :
  executor_map 5 (upload_to_heygen_of v) image_paths w = (Ok bg_ids, w') ->
  length bg_ids = length image_paths /\
  forall i path, image_paths !! i = Some path ->
    exists id, bg_ids !! i = Some id /\
               uploaded_as (upload_to_heygen_of v) image_paths w i id.
Proof.
  intros Hrun.
  destruct (executor_map_spec _ _ _ _ _ _ Hrun) as (Hlen & Hperm & _ & rs & Hone & Hres).
  split; [exact Hlen|].
  intros i path Hi.
  assert (Hin : i ∈ completion_order 5 (upload_to_heygen_of v) image_paths w).
  { rewrite Hperm. apply elem_of_seq. apply lookup_lt_Some in Hi. lia. }
  apply list_elem_of_lookup_1 in Hin as [k Hk].
  destruct (Hres _ _ Hk) as (x & id & _ & Hr & Hb).
  exists id. split; [exact Hb|]. exists k. split; [exact Hk|].
  rewrite Hone. exact Hr.
Qed.

Lemma PPT_build_scenes_spec pairs w scenes w1 :
  PPT.build_scenes pairs w = (Ok scenes, w1) ->
  length scenes = length pairs /\
  forall i path script, pairs !! i = Some (path, script) ->
    exists scene id,
      scenes !! i = Some scene /\
      image_asset_id scene = Some id /\
      input_text scene = Some (JStr script).
Proof.
  revert w scenes w1. induction pairs as [|[path0 script0] pairs IH];
    intros w scenes w1; cbn [PPT.build_scenes].
  - intros [= <- <-]. split; [reflexivity|]. intros i path script H. discriminate.
  - unfold mbind, IO_bind, io_bind, mret, IO_ret, io_ret.
    destruct (PPT.upload_to_heygen path0 w) as [[id|e] w2]; [|discriminate].
    destruct (PPT.build_scenes pairs w2) as [[scenes'|e] w3] eqn:Hrest; [|discriminate].
    intros [= <- <-]. destruct (IH _ _ _ Hrest) as [Hlen Hall].
    split; [cbn; congruence|].
    intros [|i] path script H; cbn in H.
    + injection H as <- <-. exists (PPT.scene id script0), id.
      split; [reflexivity|]. split; vm_compute; reflexivity.
    + apply (Hall _ _ _ H).
Qed.

Lemma video_inputs_PPT key scenes :
  video_inputs (PPT_generate_request key (PPT.payload scenes)) = Some scenes.
Proof. vm_compute. reflexivity. Qed.

Lemma executor_map_nil (fn : pystr -> IO json) w :
  executor_map 5 fn [] w = (Ok [], w).
Proof. reflexivity. Qed.

(** ** Voice selection *)

Lemma voice_ids_differ : VOICE_ID_ZH <> VOICE_ID_EN.
Proof. vm_compute. discriminate. Qed.

Lemma re_search_cjk_spec text :
  re_search_cjk text = true <-> exists c, c ∈ text /\ 0x4e00 <= c <= 0x9fff.
Proof.
  unfold re_search_cjk. rewrite existsb_exists. split.
  - intros (c & Hin & Hc). exists c. split; [apply list_elem_of_In; exact Hin|].
    unfold is_cjk in Hc. apply andb_true_iff in Hc as [H1 H2].
    apply N.leb_le in H1, H2. lia.
  - intros (c & Hin & Hc). exists c. split; [apply list_elem_of_In; exact Hin|].
    unfold is_cjk. apply andb_true_iff. split; apply N.leb_le; lia.
Qed.

(** * Properties of the specification *)

(** C1.  Once the uploads have succeeded, [create_full_video] (GoogleSearch
    and Youtube variants) sends one generate request whose [video_inputs]
    lists the scenes in the order of the input: for lists of equal length
    there is one scene per image, the [image_asset_id] of scene [i] is the
    id with which the upload of image [i] was answered, and its
    [input_text] is script [i] (with a space put after each full-width
    comma). *)
Theorem create_full_video_keeps_scene_order
  (v : pooled) (image_paths scripts : list pystr) (w : world)
  (bg_ids : list json) (w1 : world) :
  length scripts = length image_paths ->
  executor_map 5 (upload_to_heygen_of v) image_paths w = (Ok bg_ids, w1) ->
  exists scenes req res,
    create_full_video_of v image_paths scripts w
    = (submit_result_of v res, after w1 1 [EHttp req res]) /\
    method req = POST /\ url req = GENERATE_URL_V2 /\
    video_inputs req = Some scenes /\
    length scenes = length image_paths /\
    forall i path script,
      image_paths !! i = Some path -> scripts !! i = Some script ->
      exists scene id,
        scenes !! i = Some scene /\
        image_asset_id scene = Some id /\
        uploaded_as (upload_to_heygen_of v) image_paths w i id /\
        input_text scene = Some (JStr (py_replace script (py "，") (py "， "))).
Proof.
  intros Hlen Hrun.
  destruct (uploads_in_order _ _ _ _ _ Hrun) as [Hn Hids].
  eexists (scenes_of v bg_ids scripts), _, _.
  split; [rewrite create_full_video_of_eq, Hrun; reflexivity|].
  split; [reflexivity|]. split; [reflexivity|].
  split; [apply video_inputs_payload_of|].
  split; [rewrite scenes_of_length; lia|].
  intros i path script Hp Hs.
  destruct (Hids _ _ Hp) as (id & Hid & Hup).
  destruct (scenes_of_lookup v _ _ _ _ _ Hid Hs) as (scene & Hsc & Hbg & Htxt).
  exists scene, id. auto.
Qed.

Lemma create_full_video_keeps_scene_order_witness :
  let w := world_three_uploads in
  let paths := [py "outputs/slide_1.png"; py "outputs/slide_2.png";
                py "outputs/slide_3.png"] in
  let scripts := [py "歡迎收看，我是主播"; py "Second slide"; py "Third slide"] in
  exists scenes req res,
    GoogleSearch.create_full_video paths scripts w
    = (GS_submit_result res,
       after (executor_map 5 GoogleSearch.upload_to_heygen paths w).2 1 [EHttp req res]) /\
    video_inputs req = Some scenes /\
    length scenes = 3%nat.
Proof.
  intros w paths scripts.
  destruct (create_full_video_keeps_scene_order InGoogleSearch paths scripts w
              [JStr (py "asset-3"); JStr (py "asset-1"); JStr (py "asset-2")]
              (executor_map 5 GoogleSearch.upload_to_heygen paths w).2)
    as (scenes & req & res & Heq & _ & _ & Hvi & Hlen & _).
  - reflexivity.
  - vm_compute. reflexivity.
  - exists scenes, req, res. auto.
Defined.




(** With an output file that cannot be opened, the PPT variant fetches the
    video after each [completed] reply, pauses 10 s and polls again: after
    two turns it has not returned and has written nothing. *)
Lemma PPT_unwritable_output_polls_again :
  let w := world_output_unwritable in
  let sreq := status_request (api_key w) (py "v1") in
  let out := py "missing/final_output.mp4" in
  let vurl := py "https://files.heygen.ai/v.mp4" in
  PPT.download_video example_splitext 2 (py "v1") out w = None /\
  turns 2 (PPT.loop_body example_splitext (py "v1") out) w
  = Some (after w 4
      [EHttp sreq (http w 0%nat sreq);
       EHttp (get_request vurl) (Ok (file_reply [0; 0; 0; 24]));
       ESleep 10;
       EHttp sreq (http w 2%nat sreq);
       EHttp (get_request vurl) (Ok (file_reply [0; 0; 0; 24]));
       ESleep 10]).
Proof.
  intros w sreq out vurl. split; vm_compute; reflexivity.
Qed.



(** C4, as the code has it.  When a poll is answered [failed], however
    many turns the loop has made before, polling stops there and no
    download is requested: the poll is the last event.  The GoogleSearch
    variant raises an exception whose message is the render-failure text
    followed by the error detail of the reply; the PPT variant raises
    nothing and returns. *)
Theorem failed_status_stops_polling_without_download :
  (forall n fuel vid out w wn,
     turns n (GoogleSearch.loop_body vid out) w = Some wn ->
     (n < fuel)%nat ->
     reports (http wn (clock wn) (status_request (api_key wn) vid)) "failed" ->
     GoogleSearch.download_video fuel vid out w =
     Some (Raise (Exception_
                    [Lit (py "渲染失敗: ");
                     Fmt (data_field
                            (http wn (clock wn) (status_request (api_key wn) vid))
                            "error")]),
           after wn 1 [EHttp (status_request (api_key wn) vid)
                         (http wn (clock wn) (status_request (api_key wn) vid))])) /\
  (forall splitext n fuel vid out w wn,
     turns n (PPT.loop_body splitext vid out) w = Some wn ->
     (n < fuel)%nat ->
     reports (http wn (clock wn) (status_request (api_key wn) vid)) "failed" ->
     PPT.download_video splitext fuel vid out w =
     Some (Ok tt,
           after wn 1 [EHttp (status_request (api_key wn) vid)
                         (http wn (clock wn) (status_request (api_key wn) vid))])).
Proof.
  split.
  - intros n fuel vid out w wn Ht Hn Hf.
    apply (while_true_leaves n fuel _ w wn); [exact Ht|exact Hn|].
    right. eexists. split; [|reflexivity].
    apply (GS_turn_failed vid out wn Hf).
  - intros splitext n fuel vid out w wn Ht Hn Hf.
    apply (while_true_leaves n fuel _ w wn); [exact Ht|exact Hn|].
    left. split; [|reflexivity].
    apply (PPT_turn_failed splitext vid out wn Hf).
Qed.

Lemma failed_status_stops_polling_without_download_witness :
  let w := world_failed in
  let sreq := status_request (api_key w) (py "v1") in
  GoogleSearch.download_video 3 (py "v1") (py "outputs/final_news_video.mp4") w =
  Some (Raise (Exception_ [Lit (py "渲染失敗: "); Fmt (JStr (py "invalid asset"))]),
        after w 1 [EHttp sreq (http w 0%nat sreq)]).
Proof.
  intros w sreq.
  apply (proj1 failed_status_stops_polling_without_download
           0%nat 3%nat (py "v1") (py "outputs/final_news_video.mp4") w w).
  - reflexivity.
  - lia.
  - vm_compute. reflexivity.
Defined.

(** C4, counterexample.  The status endpoint reports [failed] with the
    error detail [invalid asset], and the PPT variant returns without
    raising anything. *)
Lemma PPT_returns_normally_on_failed :
  let w := world_failed in
  let sreq := status_request (api_key w) (py "v1") in
  reports (http w 0%nat sreq) "failed" /\
  data_field (http w 0%nat sreq) "error" = JStr (py "invalid asset") /\
  PPT.download_video example_splitext 1 (py "v1") (py "outputs/final_output.mp4") w
  = Some (Ok tt, after w 1 [EHttp sreq (http w 0%nat sreq)]) /\
  ~ (exists e w',
       PPT.download_video example_splitext 1 (py "v1") (py "outputs/final_output.mp4") w
       = Some (Raise e, w')).
Proof.
  intros w sreq.
  assert (Hrun : PPT.download_video example_splitext 1 (py "v1")
                   (py "outputs/final_output.mp4") w
                 = Some (Ok tt, after w 1 [EHttp sreq (http w 0%nat sreq)]))
    by (vm_compute; reflexivity).
  split; [vm_compute; reflexivity|]. split; [vm_compute; reflexivity|].
  split; [exact Hrun|].
  intros (e & w' & H). rewrite Hrun in H. discriminate.
Qed.

(** C5, as the code has it.  What [create_full_video] makes of the reply to
    its one generate request.  The PPT variant raises an exception that
    carries the parsed body when the status code is not 200 or the [error]
    field of the body is truthy, and gives the [video_id] of its [data]
    otherwise.  The Youtube variant raises an exception that carries the
    text of the body when the status code is from 400 to 599, and gives
    [data], [video_id] otherwise, whatever the [error] field holds.  The
    GoogleSearch variant looks at neither the status code nor the [error]
    field.  No variant sends the request a second time. *)
Theorem submit_reply_handling_by_variant :
  (forall image_paths scripts w scenes w1 resp fields,
     PPT.build_scenes (zip image_paths scripts) w = (Ok scenes, w1) ->
     http w1 (clock w1) (PPT_generate_request (api_key w1) (PPT.payload scenes))
     = Ok resp ->
     parsed resp = Some (JObj fields) ->
     PPT.create_full_video image_paths scripts w =
     (if (status_code resp =? 200)
         && negb (truthy (default JNull (assoc (py "error") fields)))
      then video_id_of (JObj fields)
      else Raise (Exception_ [Lit (py "HeyGen 任務失敗: "); Fmt (JObj fields)]),
      after w1 1
        [EHttp (PPT_generate_request (api_key w1) (PPT.payload scenes)) (Ok resp)])) /\
  (forall image_paths scripts w bg_ids w1 resp,
     executor_map 5 Youtube.upload_to_heygen image_paths w = (Ok bg_ids, w1) ->
     http w1 (clock w1)
       (generate_request (api_key w1)
          (Youtube.payload (Youtube.build_scenes bg_ids scripts))) = Ok resp ->
     Youtube.create_full_video image_paths scripts w =
     (if resp_ok resp then video_id_of_reply resp
      else Raise (Exception_ [Lit (py "HeyGen 影片生成請求被拒絕: ");
                              Fmt (JStr (text resp))]),
      after w1 1
        [EHttp (generate_request (api_key w1)
                  (Youtube.payload (Youtube.build_scenes bg_ids scripts)))
               (Ok resp)])) /\
  (forall image_paths scripts w bg_ids w1 resp,
     executor_map 5 GoogleSearch.upload_to_heygen image_paths w = (Ok bg_ids, w1) ->
     http w1 (clock w1)
       (generate_request (api_key w1)
          (GoogleSearch.payload (GoogleSearch.build_scenes bg_ids scripts))) = Ok resp ->
     GoogleSearch.create_full_video image_paths scripts w =
     (video_id_of_reply resp,
      after w1 1
        [EHttp (generate_request (api_key w1)
                  (GoogleSearch.payload (GoogleSearch.build_scenes bg_ids scripts)))
               (Ok resp)])).
Proof.
  split; [|split].
  - intros image_paths scripts w scenes w1 resp fields Hrun Hres Hp.
    rewrite PPT_create_eq, Hrun. cbv zeta. rewrite Hres.
    unfold PPT_submit_result, resp_json. cbn [mbind outcome_bind].
    rewrite Hp. cbn [mbind outcome_bind]. rewrite py_get_obj.
    destruct (status_code resp =? 200); cbn; [|reflexivity].
    destruct (truthy _); reflexivity.
  - intros image_paths scripts w bg_ids w1 resp Hrun Hres.
    rewrite YT_create_eq, Hrun. cbv zeta. rewrite Hres. reflexivity.
  - intros image_paths scripts w bg_ids w1 resp Hrun Hres.
    rewrite GS_create_eq, Hrun. cbv zeta. rewrite Hres. reflexivity.
Qed.

Lemma submit_reply_handling_by_variant_witness :
  let w := world_submit_rejected in
  let paths := [py "outputs/slide_1.png"] in
  let scripts := [py "First slide"] in
  let body := [(py "data", JNull); (py "error", JStr (py "unauthorized"))] in
  (PPT.create_full_video paths scripts w).1
  = Raise (Exception_ [Lit (py "HeyGen 任務失敗: "); Fmt (JObj body)]).
Proof.
  intros w paths scripts body.
  rewrite (proj1 submit_reply_handling_by_variant paths scripts w
             [PPT.scene (JStr (py "asset-1")) (py "First slide")]
             (PPT.build_scenes (zip paths scripts) w).2
             (Response 401 []
                (py "{" ++ quoted "data" ++ py ": null, " ++ quoted "error"
                 ++ py ": " ++ quoted "unauthorized" ++ py "}")
                (Some (JObj body)))
             body).
  - vm_compute. reflexivity.
  - vm_compute. reflexivity.
  - vm_compute. reflexivity.
  - reflexivity.
Defined.

(** C5, counterexample.  The service answers the generate request with
    status 401 and an [error] field; the GoogleSearch variant raises the
    [TypeError] of subscripting [None], which carries nothing of the reply. *)
Lemma GoogleSearch_submit_ignores_rejection :
  let w := world_submit_rejected in
  let paths := [py "outputs/slide_1.png"] in
  let scripts := [py "First slide"] in
  exists resp,
    http w 1%nat (generate_request (api_key w)
                    (GoogleSearch.payload
                       (GoogleSearch.build_scenes [JStr (py "asset-1")] scripts)))
    = Ok resp /\
    status_code resp = 401 /\ resp_ok resp = false /\
    truthy (default JNull (mbind (assoc (py "error")) (match parsed resp with
                                                       | Some (JObj fields) => Some fields
                                                       | _ => None
                                                       end))) = true /\
    (GoogleSearch.create_full_video paths scripts w).1 = Raise TypeError.
Proof.
  intros w paths scripts. eexists. split; [vm_compute; reflexivity|].
  repeat split; vm_compute; reflexivity.
Qed.

(** C6.  The parallel upload step of [create_full_video] (GoogleSearch and
    Youtube variants, a pool of 5 workers) gives back a list as long as the
    list of image paths, and its [i]-th element is the asset id with which
    the upload of the [i]-th image was answered, whatever the order in
    which the uploads completed: that order is some permutation of the
    positions in which no upload overtakes more than 4 others, and the
    world is left as by the uploads made one by one in that order. *)
Theorem parallel_upload_keeps_input_order
  (v : pooled) (image_paths : list pystr) (w : world) (bg_ids : list json) (w' : world) :
  executor_map 5 (upload_to_heygen_of v) image_paths w = (Ok bg_ids, w') ->
  let order := completion_order 5 (upload_to_heygen_of v) image_paths w in
  length bg_ids = length image_paths /\
  order ≡ₚ seq 0 (length image_paths) /\
  (forall k i, order !! k = Some i -> (i < k + 5)%nat) /\
  (one_by_one (upload_to_heygen_of v) image_paths order w).2 = w' /\
  forall i path, image_paths !! i = Some path ->
    exists id, bg_ids !! i = Some id /\
               uploaded_as (upload_to_heygen_of v) image_paths w i id.
Proof.
  intros Hrun order.
  destruct (executor_map_spec _ _ _ _ _ _ Hrun) as (Hlen & Hperm & Hwin & rs & Hone & _).
  destruct (uploads_in_order _ _ _ _ _ Hrun) as [_ Hids].
  split; [exact Hlen|]. split; [exact Hperm|]. split; [exact Hwin|].
  split; [|exact Hids]. unfold order. rewrite Hone. reflexivity.
Qed.

Lemma parallel_upload_keeps_input_order_witness :
  let w := world_three_uploads in
  let paths := [py "outputs/slide_1.png"; py "outputs/slide_2.png";
                py "outputs/slide_3.png"] in
  completion_order 5 GoogleSearch.upload_to_heygen paths w = [1; 2; 0]%nat /\
  exists id, [JStr (py "asset-3"); JStr (py "asset-1"); JStr (py "asset-2")] !! 0%nat
             = Some id /\
             uploaded_as GoogleSearch.upload_to_heygen paths w 0 id.
Proof.
  intros w paths. split; [vm_compute; reflexivity|].
  refine (proj2 (proj2 (proj2 (proj2
    (parallel_upload_keeps_input_order InGoogleSearch paths w
       [JStr (py "asset-3"); JStr (py "asset-1"); JStr (py "asset-2")]
       (executor_map 5 GoogleSearch.upload_to_heygen paths w).2 _))))
    0%nat (py "outputs/slide_1.png") _).
  - vm_compute. reflexivity.
  - reflexivity.
Defined.

(** C7.  The voice selection returns the Chinese voice id (with locale
    [zh-TW] in the variant that sets one) exactly when the text holds a
    character from U+4E00 to U+9FFF, and the English voice id (locale
    [en-US]) exactly when it holds none. *)
Theorem voice_selection_follows_cjk (text : pystr) :
  (PptVideoOnly.detect_voice_and_locale text = (VOICE_ID_ZH, py "zh-TW")
   <-> exists c, c ∈ text /\ 0x4e00 <= c <= 0x9fff) /\
  (PptVideoOnly.detect_voice_and_locale text = (VOICE_ID_EN, py "en-US")
   <-> ~ exists c, c ∈ text /\ 0x4e00 <= c <= 0x9fff) /\
  (PPT.detect_voice_id text = VOICE_ID_ZH
   <-> exists c, c ∈ text /\ 0x4e00 <= c <= 0x9fff) /\
  (PPT.detect_voice_id text = VOICE_ID_EN
   <-> ~ exists c, c ∈ text /\ 0x4e00 <= c <= 0x9fff).
Proof.
  rewrite <- re_search_cjk_spec.
  unfold PptVideoOnly.detect_voice_and_locale, PPT.detect_voice_id.
  pose proof voice_ids_differ as Hne.
  destruct (re_search_cjk text).
  - split; [split; intros _; reflexivity|]. split; [|split; [split; intros _; reflexivity|]].
    + split; [intros H%(f_equal fst)|intros H; exfalso; apply H; reflexivity].
      cbn [fst] in H. exfalso; exact (Hne H).
    + split; [intros H; exfalso; exact (Hne H)|intros H; exfalso; apply H; reflexivity].
  - split; [|split; [|split]].
    + split; [intros H%(f_equal fst)|discriminate].
      cbn [fst] in H. exfalso; exact (Hne (eq_sym H)).
    + split; [intros _; discriminate|intros _; reflexivity].
    + split; [intros H; exfalso; exact (Hne (eq_sym H))|discriminate].
    + split; [intros _; discriminate|intros _; reflexivity].
Qed.

(** C8, as the code has it.  With no image, [create_full_video] does not
    refuse anything locally: it sends the generate request with an empty
    [video_inputs], and what it returns or raises is decided by the reply.
    (GoogleSearch, Youtube and PPT variants.) *)
Theorem empty_scene_list_is_submitted (scripts : list pystr) (w : world) :
  (let req := generate_request (api_key w) (GoogleSearch.payload []) in
   video_inputs req = Some [] /\
   GoogleSearch.create_full_video [] scripts w
   = (GS_submit_result (http w (clock w) req),
      after w 1 [EHttp req (http w (clock w) req)])) /\
  (let req := generate_request (api_key w) (Youtube.payload []) in
   video_inputs req = Some [] /\
   Youtube.create_full_video [] scripts w
   = (YT_submit_result (http w (clock w) req),
      after w 1 [EHttp req (http w (clock w) req)])) /\
  (let req := PPT_generate_request (api_key w) (PPT.payload []) in
   video_inputs req = Some [] /\
   PPT.create_full_video [] scripts w
   = (PPT_submit_result (http w (clock w) req),
      after w 1 [EHttp req (http w (clock w) req)])).
Proof.
  split; [|split]; cbv zeta.
  - split; [vm_compute; reflexivity|]. rewrite GS_create_eq. reflexivity.
  - split; [vm_compute; reflexivity|]. rewrite YT_create_eq. reflexivity.
  - split; [vm_compute; reflexivity|]. rewrite PPT_create_eq. reflexivity.
Qed.

(** C8, counterexample.  Called with no image and no script, the
    GoogleSearch variant sends the generate request and returns the video
    id of the reply. *)
Lemma empty_scene_list_reaches_the_service :
  let w := world_submit_accepted in
  let req := generate_request (api_key w) (GoogleSearch.payload []) in
  GoogleSearch.create_full_video [] [] w
  = (Ok (JStr (py "video-1")), after w 1 [EHttp req (generate_reply "video-1")]) /\
  exchanges (log (GoogleSearch.create_full_video [] [] w).2)
  = [(req, generate_reply "video-1")].
Proof.
  intros w req. split; vm_compute; reflexivity.
Qed.

Lemma drop_name_app ending reversed :
  forallb (fun c => negb (is_sep c)) ending = true ->
  drop_name (ending ++ reversed) = drop_name reversed.
Proof.
  induction ending as [|c ending IH]; cbn [forallb app drop_name]; [reflexivity|].
  intros [Hc He]%andb_true_iff. apply negb_true_iff in Hc.
  rewrite Hc. exact (IH He).
Qed.

(** Two endings without separator give paths of the same directory. *)
Lemma parent_app_ending stem e1 e2 :
  forallb (fun c => negb (is_sep c)) (rev e1) = true ->
  forallb (fun c => negb (is_sep c)) (rev e2) = true ->
  parent (stem ++ e1) = parent (stem ++ e2).
Proof.
  intros H1 H2. unfold parent.
  rewrite !rev_app_distr, !drop_name_app by assumption. reflexivity.
Qed.

(** [.mp4] at the end of a path that holds it nowhere else is the only
    occurrence that [replace] finds. *)
Lemma replace_final_mp4 stem :
  contains (py ".mp4") stem = false ->
  py_replace (stem ++ py ".mp4") (py ".mp4") (py ".srt") = stem ++ py ".srt".
Proof.
  replace (py ".mp4") with [46; 109; 112; 52] by (vm_compute; reflexivity).
  replace (py ".srt") with [46; 115; 114; 116] by (vm_compute; reflexivity).
  unfold py_replace.
  induction stem as [|c stem IH].
  - intros _. reflexivity.
  - cbn [contains]. intros [Hhead Htail]%orb_false_iff.
    cbn [app replace_from].
    assert (Hno : startswith (c :: stem ++ [46; 109; 112; 52]) [46; 109; 112; 52]
                  = false).
    { revert Hhead. cbn [startswith].
      destruct (c =? 46) eqn:Hc; [|reflexivity]. cbn [andb].
      destruct stem as [|c1 [|c2 [|c3 rest]]]; cbn [app startswith];
        intros Hhead; try exact Hhead;
        repeat match goal with
               | |- context [(?x =? ?y)] =>
                 is_var x; destruct (x =? y) eqn:?; cbn [andb]; try reflexivity
               end.
      exfalso. destruct rest; cbn [startswith andb] in Hhead; discriminate Hhead. }
    rewrite Hno, (IH Htail). reflexivity.
Qed.

(** C9, as the code has it.  A job whose status is reported in progress
    once and then [completed] with a [video_url], when the files can be
    opened: the client polls twice, waiting 15 s in between, and polls no
    more.  With a [caption_url] too it downloads twice, the video to the
    output path and the captions to the output path with every [.mp4]
    replaced by [.srt]; with no [caption_url] it downloads the video only.
    When the output path ends in [.mp4] and holds [.mp4] nowhere else, the
    path of the captions is the output path with [.srt] for its ending:
    another path, in the same directory, so that two files are written. *)
Theorem download_video_processing_then_completed
  (fuel : nat) (vid out : pystr) (w : world) (s1 vurl : pystr) (rv : response) :
  let sreq := status_request (api_key w) vid in
  let r1 := http w (clock w) sreq in
  let r2 := http w (clock w + 1)%nat sreq in
  let get := get_request in
  let srt := py_replace out (py ".mp4") (py ".srt") in
  (2 <= fuel)%nat ->
  status_of r1 = Some s1 -> s1 <> py "completed" -> s1 <> py "failed" ->
  reports r2 "completed" ->
  data_field r2 "video_url" = JStr vurl -> vurl <> [] ->
  open_error w out = None ->
  http w (clock w + 2)%nat (get vurl) = Ok rv ->
  (forall curl rc,
     data_field r2 "caption_url" = JStr curl -> curl <> [] ->
     open_error w srt = None ->
     http w (clock w + 3)%nat (get curl) = Ok rc ->
     GoogleSearch.download_video fuel vid out w =
     Some (Ok tt, after w 4
       [EHttp sreq r1; ESleep 15; EHttp sreq r2;
        EOpen out WB; EHttp (get vurl) (Ok rv); EWrite out (content rv);
        EOpen srt WB; EHttp (get curl) (Ok rc); EWrite srt (content rc)])) /\
  (truthy (data_field r2 "caption_url") = false ->
     GoogleSearch.download_video fuel vid out w =
     Some (Ok tt, after w 3
       [EHttp sreq r1; ESleep 15; EHttp sreq r2;
        EOpen out WB; EHttp (get vurl) (Ok rv); EWrite out (content rv)])) /\
  (forall stem,
     out = stem ++ py ".mp4" -> contains (py ".mp4") stem = false ->
     srt = stem ++ py ".srt" /\ srt <> out /\ parent srt = parent out).
Proof.
  intros sreq r1 r2 get srt Hfuel Hs1 Hnc Hnf Hc Hv Hvne Hopen Hrv.
  subst get. cbv beta in *.
  split; [|split].
  3:{ intros stem -> Hstem. unfold srt.
      rewrite (replace_final_mp4 stem Hstem).
      split; [reflexivity|]. split.
      - intros E%app_inv_head. revert E. vm_compute. discriminate.
      - apply parent_app_ending; vm_compute; reflexivity. }
  all: destruct fuel as [|[|fuel]]; try lia.
  all: unfold GoogleSearch.download_video; cbn [while_true].
  all: pose proof (GS_turn_in_progress vid out w s1 Hs1 Hnc Hnf) as H1.
  all: cbv zeta in H1; fold sreq r1 in H1; rewrite H1; clear H1.
  all: set (w1 := after w 1 [EHttp sreq r1; ESleep 15]).
  all: assert (Hr2 : http w1 (clock w1) (status_request (api_key w1) vid) = r2)
         by reflexivity.
  all: destruct (GS_turn_completed vid out w1) as (inner & Hget & ->);
         [rewrite Hr2; exact Hc|].
  all: rewrite Hr2 in Hget |- *; clear Hr2.
  all: unfold mbind, IO_bind, io_bind.
  all: rewrite GS_download_if_present_eq; cbv zeta.
  all: rewrite Hget, Hv, (truthy_nonempty_str _ Hvne).
  all: unfold w1; world_norm; fold sreq.
  all: replace (clock w + 1 + 1)%nat with (clock w + 2)%nat by lia.
  all: rewrite Hopen, Hrv.
  all: rewrite GS_download_if_present_eq; cbv zeta; rewrite Hget.
  - intros curl rc Hcu Hcne Hopen2 Hrc. rewrite Hcu, (truthy_nonempty_str _ Hcne).
    world_norm. fold srt. rewrite Hopen2.
    rewrite Hrc. unfold mret, IO_ret, io_ret. world_norm.
    reflexivity.
  - intros Hno. rewrite Hno. unfold mret, IO_ret, io_ret. world_norm.
    reflexivity.
Qed.

Lemma download_video_processing_then_completed_witness :
  let w := world_processing_then_completed in
  let out := py "outputs/final_news_video.mp4" in
  let srt := py "outputs/final_news_video.srt" in
  let sreq := status_request (api_key w) (py "v1") in
  let vurl := py "https://files.heygen.ai/v.mp4" in
  let curl := py "https://files.heygen.ai/v.srt" in
  GoogleSearch.download_video 2 (py "v1") out w =
  Some (Ok tt, after w 4
    [EHttp sreq (http w 0%nat sreq); ESleep 15; EHttp sreq (http w 1%nat sreq);
     EOpen out WB; EHttp (get_request vurl) (Ok (file_reply [0; 0; 0; 24]));
     EWrite out [0; 0; 0; 24];
     EOpen srt WB; EHttp (get_request curl) (Ok (file_reply [49; 10]));
     EWrite srt [49; 10]]).
Proof.
  intros w out srt sreq vurl curl.
  refine (proj1 (download_video_processing_then_completed
                   2 (py "v1") out w (py "processing") vurl (file_reply [0; 0; 0; 24])
                   _ _ _ _ _ _ _ _ _) curl (file_reply [49; 10]) _ _ _ _).
  - lia.
  - vm_compute. reflexivity.
  - vm_compute. discriminate.
  - vm_compute. discriminate.
  - vm_compute. reflexivity.
  - vm_compute. reflexivity.
  - vm_compute. discriminate.
  - vm_compute. reflexivity.
  - vm_compute. reflexivity.
  - vm_compute. reflexivity.
  - vm_compute. discriminate.
  - vm_compute. reflexivity.
  - vm_compute. reflexivity.
Defined.

(** C9, counterexample.  The status is in progress once and then
    [completed] with both links, and the output path is
    [outputs/final_news_video.mov].  The path of the captions is the
    output path itself: the client downloads twice and writes one file,
    in which the captions take the place of the video. *)
Lemma GoogleSearch_two_downloads_one_file :
  let w := world_processing_then_completed in
  let out := py "outputs/final_news_video.mov" in
  let sreq := status_request (api_key w) (py "v1") in
  let vurl := py "https://files.heygen.ai/v.mp4" in
  let curl := py "https://files.heygen.ai/v.srt" in
  let evs :=
    [EHttp sreq (http w 0%nat sreq); ESleep 15; EHttp sreq (http w 1%nat sreq);
     EOpen out WB; EHttp (get_request vurl) (Ok (file_reply [0; 0; 0; 24]));
     EWrite out [0; 0; 0; 24];
     EOpen out WB; EHttp (get_request curl) (Ok (file_reply [49; 10]));
     EWrite out [49; 10]] in
  GoogleSearch.download_video 2 (py "v1") out w = Some (Ok tt, after w 4 evs) /\
  opened_paths (log (after w 4 evs)) = [out; out] /\
  ~ video_and_sibling_captions out (log (after w 4 evs)).
Proof.
  intros w out sreq vurl curl evs.
  split; [vm_compute; reflexivity|].
  assert (Hpaths : opened_paths (log (after w 4 evs)) = [out; out])
    by (vm_compute; reflexivity).
  split; [exact Hpaths|].
  intros (srt & Hne & _ & Hl). rewrite Hpaths in Hl.
  injection Hl as Hl. apply Hne. symmetry. exact Hl.
Qed.




(** * Further properties of the code *)

(** ** Uploading an image *)

Lemma file_read_eq path w :
  file_read path w =
  match read_file w path with
  | Some data => (Ok data, w)
  | None => (Raise (FileNotFoundError [Lit path]), w)
  end.
Proof. reflexivity. Qed.

Lemma os_path_exists_eq path w :
  os_path_exists path w = (Ok (bool_decide (is_Some (read_file w path))), w).
Proof. reflexivity. Qed.

(** What each upload function makes of the reply, when the file is there. *)
Lemma upload_of_eq u path data w :
  read_file w path = Some data ->
  let req := upload_request_of u (api_key w) data in
  let res := http w (clock w) req in
  upload_of u path w =
  (match res with
   | Raise e => Raise e
   | Ok resp =>
     match u with
     | UpGoogleSearch => asset_id_of_reply resp
     | UpYoutube =>
       if resp_ok resp then asset_id_of_reply resp
       else Raise (Exception_ [Lit (py "HeyGen 圖片上傳失敗: "); Fmt (JStr (text resp))])
     | UpPPT =>
       if status_code resp =? 200 then asset_id_of_reply resp
       else Raise (Exception_ [Lit (py "HeyGen 上傳失敗 (");
                               Fmt (JNum (inject_Z (Z.of_N (status_code resp))));
                               Lit (py "): "); Fmt (JStr (text resp))])
     | UpVideoOnly =>
       if status_code resp =? 200 then asset_id_of_reply resp else Ok JNull
     end
   end, after w 1 [EHttp req res]).
Proof.
  intros Hfile req res. subst req res.
  destruct u; cbn [upload_of upload_request_of];
    unfold GoogleSearch.upload_to_heygen, Youtube.upload_to_heygen,
      PPT.upload_to_heygen, PptVideoOnly.upload_image,
      upload_request, PV_upload_request, asset_id_of_reply;
    io_unfold; rewrite ?os_path_exists_eq, ?file_read_eq, ?Hfile; cbn [negb bool_decide];
    try (rewrite bool_decide_eq_true_2 by (eexists; reflexivity); cbn [negb]);
    rewrite ?file_read_eq, ?Hfile;
    destruct (http w (clock w) _) as [resp|e]; world_norm; try reflexivity.
  - destruct (resp_json resp) as [j|e]; [|reflexivity]. cbn.
    destruct (py_index j (py "data")) as [d|e]; [|reflexivity]. cbn.
    destruct (py_index d (py "id")); reflexivity.
  - destruct (resp_ok resp); cbn [negb]; [|reflexivity].
    destruct (resp_json resp) as [j|e]; [|reflexivity]. cbn.
    destruct (py_index j (py "data")) as [d|e]; [|reflexivity]. cbn.
    destruct (py_index d (py "id")); reflexivity.
  - destruct (status_code resp =? 200); [|reflexivity].
    destruct (resp_json resp) as [j|e]; [|reflexivity]. cbn.
    destruct (py_index j (py "data")) as [d|e]; [|reflexivity]. cbn.
    destruct (py_index d (py "id")); reflexivity.
  - destruct (status_code resp =? 200); cbn [negb]; [|reflexivity].
    destruct (resp_json resp) as [j|e]; [|reflexivity]. cbn.
    destruct (py_index j (py "data")) as [d|e]; [|reflexivity]. cbn.
    destruct (py_index d (py "id")); reflexivity.
Qed.

Lemma upload_of_missing u path w :
  read_file w path = None ->
  upload_of u path w =
  (Raise (FileNotFoundError
            match u with
            | UpPPT => [Lit (py "找不到檔案: "); Fmt (JStr path)]
            | _ => [Lit path]
            end), w).
Proof.
  intros Hfile.
  destruct u; cbn [upload_of];
    unfold GoogleSearch.upload_to_heygen, Youtube.upload_to_heygen,
      PPT.upload_to_heygen, PptVideoOnly.upload_image;
    io_unfold; rewrite ?os_path_exists_eq, ?file_read_eq, ?Hfile;
    reflexivity.
Qed.

Lemma exchanges_app l1 l2 : exchanges (l1 ++ l2) = exchanges l1 ++ exchanges l2.
Proof.
  induction l1 as [|[] l1 IH]; cbn [exchanges app]; rewrite ?IH; reflexivity.
Qed.

Lemma urls_app l1 l2 : urls (l1 ++ l2) = urls l1 ++ urls l2.
Proof. unfold urls. rewrite exchanges_app. apply map_app. Qed.

Lemma url_upload_request_of u key data :
  url (upload_request_of u key data) = UPLOAD_URL_V1.
Proof. destruct u; reflexivity. Qed.

(** An upload sends at most one request; when it sends none, it raises. *)
Lemma upload_of_shape u path w :
  exists r k evs,
    upload_of u path w = (r, after w k evs) /\
    ((urls evs = [] /\ exists e, r = Raise e) \/ urls evs = [UPLOAD_URL_V1]).
Proof.
  destruct (read_file w path) as [data|] eqn:Hfile.
  - eexists _, _, _. split; [apply (upload_of_eq u path data w Hfile)|].
    right. unfold urls. cbn [exchanges map fst].
    rewrite url_upload_request_of. reflexivity.
  - eexists _, O, []. split.
    + rewrite (upload_of_missing u path w Hfile), after_0_nil. reflexivity.
    + left. split; [reflexivity|]. eexists. reflexivity.
Qed.

(** Uploads made one after the other ask the upload address only, once
    for every upload that gave an id. *)
Lemma one_by_one_uploads u xs order w rs w' :
  one_by_one (upload_of u) xs order w = (rs, w') ->
  exists k evs,
    w' = after w k evs /\
    Forall (fun a => a = UPLOAD_URL_V1) (urls evs) /\
    ((forall r, r ∈ rs -> exists id, r = Ok id) ->
     urls evs = replicate (length rs) UPLOAD_URL_V1).
Proof.
  revert w rs w'. induction order as [|i order IH]; intros w rs w'; cbn [one_by_one].
  { intros [= <- <-]. exists O, []. rewrite after_0_nil.
    split; [reflexivity|]. split; [constructor|reflexivity]. }
  destruct (xs !! i) as [x|].
  2:{ intros [= <- <-]. exists O, []. rewrite after_0_nil.
      split; [reflexivity|]. split; [constructor|reflexivity]. }
  destruct (upload_of_shape u x w) as (r & k1 & evs1 & -> & Hshape).
  destruct (one_by_one (upload_of u) xs order (after w k1 evs1)) as [rs1 w1] eqn:Hrest.
  intros [= <- <-].
  destruct (IH _ _ _ Hrest) as (k2 & evs2 & -> & Hall & Hok).
  exists (k1 + k2)%nat, (evs1 ++ evs2). rewrite after_after.
  split; [reflexivity|]. rewrite urls_app. split.
  - apply Forall_app. split; [|exact Hall].
    destruct Hshape as [[-> _]| ->]; [constructor|].
    constructor; [reflexivity|constructor].
  - intros Hrs. rewrite Hok.
    2:{ intros r' Hr'. apply Hrs. right. exact Hr'. }
    destruct Hshape as [[_ [e ->]]| ->]; [|reflexivity].
    destruct (Hrs (Raise e)) as [id Hid]; [left|discriminate].
Qed.

(** X1.  An upload of a file that does not exist raises
    [FileNotFoundError] before anything is sent, in each of the four
    scripts: the world is left as it was (no request, nothing logged).  In
    the PPT script the error is the script's own, with the path in its
    message. *)
Theorem upload_of_missing_file_sends_nothing
  (u : uploader) (file_path : pystr) (w : world) :
  read_file w file_path = None ->
  exists msg,
    upload_of u file_path w = (Raise (FileNotFoundError msg), w) /\
    (u = UpPPT -> msg = [Lit (py "找不到檔案: "); Fmt (JStr file_path)]).
Proof.
  intros Hfile. eexists. split; [apply upload_of_missing; exact Hfile|].
  intros ->. reflexivity.
Qed.

Lemma upload_of_missing_file_sends_nothing_witness :
  exists msg,
    PPT.upload_to_heygen (py "outputs/slide_1.png") world_without_files
    = (Raise (FileNotFoundError msg), world_without_files) /\
    (UpPPT = UpPPT ->
     msg = [Lit (py "找不到檔案: "); Fmt (JStr (py "outputs/slide_1.png"))]).
Proof.
  apply (upload_of_missing_file_sends_nothing
           UpPPT (py "outputs/slide_1.png") world_without_files).
  reflexivity.
Defined.

(** X2.  An upload of a file that is there sends one request, a POST of
    the file's bytes to the upload address, and what it makes of the reply
    depends on the script.  All four return [data.id] of a reply with
    status 200.  On any other status code: the GoogleSearch script does not
    look at the code and still returns [data.id]; the Youtube script raises
    with the reply's text when the code is an error status (400 to 599) and
    returns [data.id] otherwise; the PPT script raises with the code and the
    text in the message; the video-only script raises nothing and returns
    [None]. *)
Theorem upload_reply_handling_by_variant
  (u : uploader) (file_path : pystr) (data : bytes) (w : world) (resp : response) :
  let req := upload_request_of u (api_key w) data in
  read_file w file_path = Some data ->
  http w (clock w) req = Ok resp ->
  exists r,
    upload_of u file_path w = (r, after w 1 [EHttp req (Ok resp)]) /\
    method req = POST /\ url req = UPLOAD_URL_V1 /\ req_body req = DataBody data /\
    (status_code resp = 200 -> r = asset_id_of_reply resp) /\
    (status_code resp <> 200 ->
     match u with
     | UpGoogleSearch => r = asset_id_of_reply resp
     | UpYoutube =>
       if resp_ok resp then r = asset_id_of_reply resp
       else r = Raise (Exception_ [Lit (py "HeyGen 圖片上傳失敗: ");
                                   Fmt (JStr (text resp))])
     | UpPPT =>
       r = Raise (Exception_ [Lit (py "HeyGen 上傳失敗 (");
                              Fmt (JNum (inject_Z (Z.of_N (status_code resp))));
                              Lit (py "): "); Fmt (JStr (text resp))])
     | UpVideoOnly => r = Ok JNull
     end).
Proof.
  intros req Hfile Hres.
  pose proof (upload_of_eq u file_path data w Hfile) as Heq.
  cbv zeta in Heq. fold req in Heq. rewrite Hres in Heq.
  eexists. split; [exact Heq|].
  split; [destruct u; reflexivity|].
  split; [apply url_upload_request_of|].
  split; [destruct u; reflexivity|].
  split.
  - intros H200.
    assert (Hok : resp_ok resp = true) by (unfold resp_ok; rewrite H200; reflexivity).
    assert (Heqb : (status_code resp =? 200) = true) by (rewrite H200; reflexivity).
    destruct u; rewrite ?Hok, ?Heqb; reflexivity.
  - intros Hne. apply N.eqb_neq in Hne.
    destruct u; rewrite ?Hne; try reflexivity.
    destruct (resp_ok resp); reflexivity.
Qed.

Lemma upload_reply_handling_by_variant_witness :
  let resp := upload_reply_with_status 500 "overloaded" "asset-1" in
  let w := scripted [Ok resp] in
  let req := upload_request (py "sk-test") [137; 80; 78; 71] in
  exists r,
    PPT.upload_to_heygen (py "outputs/slide_1.png") w
    = (r, after w 1 [EHttp req (Ok resp)]) /\
    method req = POST /\ url req = UPLOAD_URL_V1 /\
    req_body req = DataBody [137; 80; 78; 71] /\
    (status_code resp = 200 -> r = asset_id_of_reply resp) /\
    (status_code resp <> 200 ->
     r = Raise (Exception_ [Lit (py "HeyGen 上傳失敗 (");
                            Fmt (JNum (inject_Z (Z.of_N (status_code resp))));
                            Lit (py "): "); Fmt (JStr (text resp))])).
Proof.
  intros resp w req.
  apply (upload_reply_handling_by_variant
           UpPPT (py "outputs/slide_1.png") [137; 80; 78; 71] w resp).
  - reflexivity.
  - vm_compute. reflexivity.
Defined.

(** ** Uploads and the request that follows *)

Section executor_outcomes.
Context {A B : Type}.
Variable max_workers : nat.
Variable fn : A -> IO B.

(** Whatever [executor.map] comes to, every call has run, and the result
    is read off the calls' outcomes in the order of the input. *)
Lemma executor_map_outcomes xs w res w' :
  (0 < max_workers)%nat ->
  executor_map max_workers fn xs w = (res, w') ->
  let order := completion_order max_workers fn xs w in
  exists (fs : list (A * option (outcome B))) rs,
    one_by_one fn xs order w = (rs, w') /\
    gather fs = res /\
    length fs = length xs /\
    forall i, (i < length xs)%nat ->
      exists x k r,
        fs !! i = Some (x, Some r) /\ order !! k = Some i /\ rs !! k = Some r.
Proof.
  intros Hw. unfold executor_map, completion_order.
  destruct (run_pool max_workers fn (length xs) (submit_all xs) w)
    as [[order fs] w1] eqn:Hrun.
  intros [= Hg <-]. cbn [fst].
  assert (Hdone : count_done fs = length fs).
  { eapply run_pool_completes; [exact Hw| |exact Hrun].
    unfold submit_all. rewrite length_fmap. lia. }
  destruct (run_pool_spec _ _ _ _ _ _ _ _ Hrun)
    as (Hfst & Hother & Hnd & Hwin & rs & Hone & Hres).
  assert (Hxs : fst <$> @submit_all A B xs = xs).
  { unfold submit_all. rewrite <- list_fmap_compose. apply list_fmap_id. }
  assert (Hlenfs : length fs = length xs).
  { rewrite <- (length_fmap fst fs), Hfst, Hxs. reflexivity. }
  rewrite Hxs in Hone.
  exists fs, rs. split; [exact Hone|]. split; [exact Hg|]. split; [exact Hlenfs|].
  intros i Hi.
  destruct (lookup_lt_is_Some_2 xs i Hi) as [x Hx].
  destruct (decide (i ∈ order)) as [Hin|Hni].
  - apply list_elem_of_lookup_1 in Hin as [k Hk].
    destruct (Hres _ _ Hk) as (x' & r & Hr & Hfs).
    exists x', k, r. split; [exact Hfs|]. split; [exact Hk|exact Hr].
  - exfalso. pose proof (Hother _ Hni) as Hsame.
    unfold submit_all in Hsame. rewrite list_lookup_fmap, Hx in Hsame.
    cbn in Hsame.
    assert (Hcount : forall (l : list (A * option (outcome B))) j y,
               l !! j = Some (y, None) -> (count_done l < length l)%nat).
    { clear. induction l as [|[y' [r|]] l IH]; intros [|j] y; cbn; try discriminate.
      - intros H. apply IH in H. lia.
      - intros _. pose proof (count_done_le_length l). lia.
      - intros H. apply IH in H. lia. }
    apply Hcount in Hsame. lia.
Qed.

(** [list(...)] raises the exception of the first future, in the order of
    the input, that holds one. *)
Lemma gather_Raise_first (fs : list (A * option (outcome B))) e :
  gather fs = Raise e ->
  exists i,
    (i < length fs)%nat /\
    (forall x r, fs !! i = Some (x, Some r) -> r = Raise e) /\
    forall j, (j < i)%nat ->
      forall x r, fs !! j = Some (x, Some r) -> exists b, r = Ok b.
Proof.
  induction fs as [|[x [[b|e']|]] fs IH]; cbn [gather length].
  - discriminate.
  - destruct (gather fs) as [bs|e'']; [discriminate|].
    intros [= ->]. destruct IH as (i & Hi & Hat & Hbefore); [reflexivity|].
    exists (S i). split; [lia|]. split; [exact Hat|].
    intros [|j] Hj y r; cbn.
    + intros [= <- <-]. eexists. reflexivity.
    + apply Hbefore. lia.
  - intros [= ->]. exists O. split; [lia|]. split.
    + intros y r [= <- <-]. reflexivity.
    + intros j Hj. lia.
  - intros [= <-]. exists O. split; [lia|]. split.
    + intros y r [=].
    + intros j Hj. lia.
Qed.
End executor_outcomes.

Lemma one_by_one_length {A B} (fn : A -> IO B) xs order w rs w' :
  one_by_one fn xs order w = (rs, w') -> (length rs <= length order)%nat.
Proof.
  revert w rs w'. induction order as [|i order IH]; intros w rs w'; cbn [one_by_one].
  { intros [= <- <-]. reflexivity. }
  destruct (xs !! i) as [x|]; [|intros [= <- <-]; cbn; lia].
  destruct (fn x w) as [r w1].
  destruct (one_by_one fn xs order w1) as [rs1 w2] eqn:Hrest.
  intros [= <- <-]. apply IH in Hrest. cbn [length]. lia.
Qed.

Lemma upload_to_heygen_of_uploader v :
  upload_to_heygen_of v = upload_of (uploader_of v).
Proof. destruct v; reflexivity. Qed.

Lemma PPT_build_scenes_app l1 l2 w :
  PPT.build_scenes (l1 ++ l2) w =
  match PPT.build_scenes l1 w with
  | (Ok s1, w1) =>
    match PPT.build_scenes l2 w1 with
    | (Ok s2, w2) => (Ok (s1 ++ s2), w2)
    | (Raise e, w2) => (Raise e, w2)
    end
  | (Raise e, w1) => (Raise e, w1)
  end.
Proof.
  revert w. induction l1 as [|[path script] l1 IH]; intros w; cbn [app PPT.build_scenes].
  - unfold mret, IO_ret, io_ret.
    destruct (PPT.build_scenes l2 w) as [[s2|e] w2]; reflexivity.
  - unfold mbind, mret, IO_bind, IO_ret, io_bind, io_ret.
    destruct (PPT.upload_to_heygen path w) as [[id|e] w1]; [|reflexivity].
    rewrite IH.
    destruct (PPT.build_scenes l1 w1) as [[s1|e] w2]; [|reflexivity].
    destruct (PPT.build_scenes l2 w2) as [[s2|e] w3]; reflexivity.
Qed.

(** The uploads of the PPT script ask the upload address only, once for
    every pair when all of them gave an id. *)
Lemma PPT_build_scenes_uploads pairs w r w' :
  PPT.build_scenes pairs w = (r, w') ->
  exists k evs,
    w' = after w k evs /\
    Forall (fun a => a = UPLOAD_URL_V1) (urls evs) /\
    (length (urls evs) <= length pairs)%nat /\
    (forall scenes, r = Ok scenes ->
       urls evs = replicate (length pairs) UPLOAD_URL_V1).
Proof.
  revert w r w'. induction pairs as [|[path script] pairs IH]; intros w r w';
    cbn [PPT.build_scenes].
  { intros [= <- <-]. exists O, []. rewrite after_0_nil.
    split; [reflexivity|]. split; [constructor|]. split; reflexivity. }
  unfold mbind, IO_bind, io_bind.
  destruct (upload_of_shape UpPPT path w) as (r1 & k1 & evs1 & Hup & Hshape).
  cbn [upload_of] in Hup. rewrite Hup.
  destruct r1 as [id|e].
  - destruct Hshape as [[_ [e He]]|Hurl]; [discriminate|].
    destruct (PPT.build_scenes pairs (after w k1 evs1)) as [r2 w2] eqn:Hrest.
    destruct (IH _ _ _ Hrest) as (k2 & evs2 & -> & Hall & Hlen & Hok).
    intros Heq. unfold mret, IO_ret, io_ret in Heq. rewrite after_after in Heq.
    assert (Hw' : w' = after w (k1 + k2) (evs1 ++ evs2) /\
                  forall scenes, r = Ok scenes -> exists s2, r2 = Ok s2).
    { destruct r2 as [s2|e2]; injection Heq as <- <-; (split; [reflexivity|]);
        intros scenes; [eexists; reflexivity|discriminate]. }
    destruct Hw' as [-> Hr].
    exists (k1 + k2)%nat, (evs1 ++ evs2). rewrite urls_app, Hurl.
    split; [reflexivity|].
    split; [constructor; [reflexivity|exact Hall]|].
    split; [cbn [app length]; lia|].
    intros scenes Hs. destruct (Hr _ Hs) as [s2 ->].
    rewrite (Hok s2 eq_refl). reflexivity.
  - intros [= <- <-]. exists k1, evs1. split; [reflexivity|].
    split; [destruct Hshape as [[-> _]| ->]; repeat constructor|].
    split; [destruct Hshape as [[-> _]| ->]; cbn; lia|].
    intros scenes [=].
Qed.

(** X3.  The PPT script uploads the images one after the other inside
    [create_full_video]: when the upload of an image raises, the exception
    leaves [create_full_video] at once, with the world as that upload left
    it.  No later image is uploaded and the generate request is never
    sent: all that was asked is the upload address, at most once for each
    image up to the failing one. *)
Theorem PPT_create_full_video_stops_at_failed_upload
  (paths1 scripts1 : list pystr) (path script : pystr)
  (paths2 scripts2 : list pystr)
  (w : world) (scenes : list json) (w1 : world) (e : exn) (w2 : world) :
  length paths1 = length scripts1 ->
  PPT.build_scenes (zip paths1 scripts1) w = (Ok scenes, w1) ->
  PPT.upload_to_heygen path w1 = (Raise e, w2) ->
  PPT.create_full_video (paths1 ++ path :: paths2) (scripts1 ++ script :: scripts2) w
  = (Raise e, w2) /\
  exists k evs,
    w2 = after w k evs /\
    Forall (fun a => a = UPLOAD_URL_V1) (urls evs) /\
    (length (urls evs) <= S (length paths1))%nat.
Proof.
  intros Hlen Hdone Hfail.
  assert (Hrun : PPT.build_scenes
            (zip (paths1 ++ path :: paths2) (scripts1 ++ script :: scripts2)) w
          = (Raise e, w2)).
  { rewrite zip_with_app by exact Hlen. cbn [zip_with].
    rewrite PPT_build_scenes_app, Hdone.
    cbn [PPT.build_scenes]. unfold mbind, IO_bind, io_bind. rewrite Hfail.
    reflexivity. }
  split.
  - rewrite PPT_create_eq, Hrun. reflexivity.
  - assert (Hpre : PPT.build_scenes (zip paths1 scripts1 ++ [(path, script)]) w
                   = (Raise e, w2)).
    { rewrite PPT_build_scenes_app, Hdone. cbn [PPT.build_scenes].
      unfold mbind, IO_bind, io_bind. rewrite Hfail. reflexivity. }
    destruct (PPT_build_scenes_uploads _ _ _ _ Hpre) as (k & evs & -> & Hall & Hn & _).
    exists k, evs. split; [reflexivity|]. split; [exact Hall|].
    rewrite length_app, length_zip in Hn. cbn [length] in Hn. lia.
Qed.

Lemma PPT_create_full_video_stops_at_failed_upload_witness :
  let w := scripted [upload_reply "asset-1";
                     Ok (upload_reply_with_status 500 "overloaded" "asset-2")] in
  let r1 := upload_reply "asset-1" in
  let r2 := Ok (upload_reply_with_status 500 "overloaded" "asset-2") in
  let req := upload_request (py "sk-test") [137; 80; 78; 71] in
  let e := Exception_ [Lit (py "HeyGen 上傳失敗 ("); Fmt (JNum 500);
                       Lit (py "): "); Fmt (JStr (py "overloaded"))] in
  PPT.create_full_video
    ([py "slide_1.png"] ++ py "slide_2.png" :: [py "slide_3.png"])
    ([py "one"] ++ py "two" :: [py "three"]) w
  = (Raise e, after w 2 [EHttp req r1; EHttp req r2]) /\
  exists k evs,
    after w 2 [EHttp req r1; EHttp req r2] = after w k evs /\
    Forall (fun a => a = UPLOAD_URL_V1) (urls evs) /\
    (length (urls evs) <= 2)%nat.
Proof.
  intros w r1 r2 req e.
  apply (PPT_create_full_video_stops_at_failed_upload
           [py "slide_1.png"] [py "one"] (py "slide_2.png") (py "two")
           [py "slide_3.png"] [py "three"] w
           [PPT.scene (JStr (py "asset-1")) (py "one")]
           (after w 1 [EHttp req r1]) e (after w 2 [EHttp req r1; EHttp req r2])).
  - reflexivity.
  - vm_compute. reflexivity.
  - vm_compute. reflexivity.
Defined.

(** X4.  In the GoogleSearch and Youtube scripts the images are uploaded
    through the pool.  When the pool's result is an exception,
    [create_full_video] raises it and the generate request is never sent:
    all that was asked is the upload address.  The exception is the one
    of the failing image that comes first in the input, whatever the order
    in which the uploads finished, and every image before it got its id. *)
Theorem pooled_upload_failure_raised_in_input_order
  (v : pooled) (image_paths scripts : list pystr) (w : world) (e : exn) (w1 : world) :
  executor_map 5 (upload_to_heygen_of v) image_paths w = (Raise e, w1) ->
  create_full_video_of v image_paths scripts w = (Raise e, w1) /\
  (exists k evs,
     w1 = after w k evs /\ Forall (fun a => a = UPLOAD_URL_V1) (urls evs)) /\
  exists i,
    (i < length image_paths)%nat /\
    upload_outcome (upload_to_heygen_of v) image_paths w i (Raise e) /\
    forall j, (j < i)%nat ->
      exists id, upload_outcome (upload_to_heygen_of v) image_paths w j (Ok id).
Proof.
  intros Hmap.
  split; [rewrite create_full_video_of_eq, Hmap; reflexivity|].
  destruct (executor_map_outcomes 5 _ _ _ _ _ ltac:(lia) Hmap)
    as (fs & rs & Hone & Hg & Hlen & Hall).
  split.
  - rewrite upload_to_heygen_of_uploader in Hone.
    destruct (one_by_one_uploads _ _ _ _ _ _ Hone) as (k & evs & Hw1 & Hurls & _).
    exists k, evs. split; assumption.
  - destruct (gather_Raise_first _ _ Hg) as (i & Hi & Hat & Hbefore).
    rewrite Hlen in Hi.
    exists i. split; [exact Hi|]. split.
    + destruct (Hall i Hi) as (x & k & r & Hfs & Hk & Hr).
      exists k. split; [exact Hk|]. rewrite Hone. cbn [fst].
      rewrite Hr, (Hat _ _ Hfs). reflexivity.
    + intros j Hj.
      destruct (Hall j ltac:(lia)) as (x & k & r & Hfs & Hk & Hr).
      destruct (Hbefore j Hj _ _ Hfs) as [id ->].
      exists id, k. split; [exact Hk|]. rewrite Hone. exact Hr.
Qed.

Lemma pooled_upload_failure_raised_in_input_order_witness :
  let w := world_two_uploads_fail in
  let paths := [py "outputs/slide_1.png"; py "outputs/slide_2.png";
                py "outputs/slide_3.png"] in
  let w1 := (executor_map 5 GoogleSearch.upload_to_heygen paths w).2 in
  create_full_video_of InGoogleSearch paths [py "one"; py "two"; py "three"] w
  = (Raise RequestException, w1) /\
  (exists k evs,
     w1 = after w k evs /\ Forall (fun a => a = UPLOAD_URL_V1) (urls evs)) /\
  exists i,
    (i < length paths)%nat /\
    upload_outcome (upload_to_heygen_of InGoogleSearch) paths w i
      (Raise RequestException) /\
    forall j, (j < i)%nat ->
      exists id,
        upload_outcome (upload_to_heygen_of InGoogleSearch) paths w j (Ok id).
Proof.
  intros w paths w1.
  apply (pooled_upload_failure_raised_in_input_order
           InGoogleSearch paths [py "one"; py "two"; py "three"] w
           RequestException w1).
  vm_compute. reflexivity.
Defined.

(** X5.  When [create_full_video] returns a video id, what it has asked of
    the servers is, in order: the upload address once for every image it
    uploaded, then the generate address once.  The GoogleSearch and Youtube
    scripts upload every image of the list, also those that have no script
    and get no scene; the PPT script uploads only as many images as there
    are pairs of an image and a script. *)
Theorem create_full_video_request_sequence :
  (forall v image_paths scripts w id w',
     create_full_video_of v image_paths scripts w = (Ok id, w') ->
     exists k evs,
       w' = after w k evs /\
       urls evs = replicate (length image_paths) UPLOAD_URL_V1 ++ [GENERATE_URL_V2]) /\
  (forall image_paths scripts w id w',
     PPT.create_full_video image_paths scripts w = (Ok id, w') ->
     exists k evs,
       w' = after w k evs /\
       urls evs = replicate (Nat.min (length image_paths) (length scripts))
                    UPLOAD_URL_V1 ++ [GENERATE_URL_V2]).
Proof.
  split.
  - intros v image_paths scripts w id w'.
    rewrite create_full_video_of_eq.
    destruct (executor_map 5 (upload_to_heygen_of v) image_paths w)
      as [[bg_ids|e] w1] eqn:Hmap; [|discriminate].
    cbv zeta. intros [= _ <-].
    destruct (executor_map_spec _ _ _ _ _ _ Hmap)
      as (_ & Hperm & _ & rs & Hone & Hres).
    pose proof (one_by_one_length _ _ _ _ _ _ Hone) as Hle.
    pose proof (Permutation_length Hperm) as Hn. rewrite length_seq in Hn.
    rewrite upload_to_heygen_of_uploader in Hone.
    destruct (one_by_one_uploads _ _ _ _ _ _ Hone) as (k & evs & -> & _ & Hok).
    assert (Hlen : length rs = length image_paths).
    { apply Nat.le_antisymm; [lia|].
      destruct (Nat.le_gt_cases (length image_paths) (length rs)) as [|Hlt]; [assumption|].
      exfalso. destruct image_paths as [|p ps]; [cbn in Hlt; lia|].
      set (n := length (p :: ps)) in *.
      destruct (lookup_lt_is_Some_2
                  (completion_order 5 (upload_to_heygen_of v) (p :: ps) w)
                  (length rs)) as [i Hi]; [lia|].
      destruct (Hres _ _ Hi) as (x & b & _ & Hr & _).
      apply lookup_lt_Some in Hr. lia. }
    exists (k + 1)%nat, (evs ++ [EHttp (generate_request (api_key (after w k evs))
                              (payload_of v bg_ids scripts))
                           (http (after w k evs) (clock (after w k evs))
                              (generate_request (api_key (after w k evs))
                                 (payload_of v bg_ids scripts)))]).
    rewrite after_after. split; [reflexivity|].
    rewrite urls_app, Hok, Hlen; [reflexivity|].
    intros r (j & Hj)%list_elem_of_lookup_1.
    destruct (lookup_lt_is_Some_2
                (completion_order 5 (upload_to_heygen_of v) image_paths w) j)
      as [i Hi]; [apply lookup_lt_Some in Hj; lia|].
    destruct (Hres _ _ Hi) as (x & b & _ & Hr & _).
    exists b. congruence.
  - intros image_paths scripts w id w'.
    rewrite PPT_create_eq.
    destruct (PPT.build_scenes (zip image_paths scripts) w)
      as [[scenes|e] w1] eqn:Hrun; [|discriminate].
    cbv zeta. intros [= _ <-].
    destruct (PPT_build_scenes_uploads _ _ _ _ Hrun) as (k & evs & -> & _ & _ & Hok).
    eexists (k + 1)%nat, (evs ++ [_]).
    rewrite after_after. split; [reflexivity|].
    rewrite urls_app, (Hok scenes eq_refl), length_zip. reflexivity.
Qed.

Lemma create_full_video_request_sequence_witness :
  let w := world_three_uploads in
  let paths := [py "outputs/slide_1.png"; py "outputs/slide_2.png";
                py "outputs/slide_3.png"] in
  let scripts := [py "First slide"; py "Second slide"] in
  exists k evs,
    (GoogleSearch.create_full_video paths scripts w).2 = after w k evs /\
    urls evs = replicate 3 UPLOAD_URL_V1 ++ [GENERATE_URL_V2].
Proof.
  intros w paths scripts.
  apply (proj1 create_full_video_request_sequence InGoogleSearch paths scripts w
           (JStr (py "video-1"))).
  vm_compute. reflexivity.
Defined.

(** ** The polling loop of the Youtube script *)

Lemma YT_loop_body_eq vid out w :
  let sreq := status_request (api_key w) vid in
  let res := http w (clock w) sreq in
  let w1 := after w 1 [EHttp sreq res] in
  Youtube.loop_body vid out w =
  match GS_observe res with
  | Raise _ => (Ok Continue, after w 1 [EHttp sreq res; ESleep 5])
  | Ok (data, status) =>
    if is_str status (py "completed") then
      (Youtube.download_if_present data out;; mret Break) w1
    else if is_str status (py "failed") then
      (err ← lift (py_get data (py "error") JNull);
       io_raise (Exception_ [Lit (py "渲染失敗: "); Fmt err])) w1
    else (Ok Continue, after w 1 [EHttp sreq res; ESleep 15])
  end.
Proof.
  intros sreq res w1.
  pose proof (GS_poll_eq vid w) as Hp. cbv zeta in Hp. fold sreq res in Hp.
  unfold Youtube.loop_body.
  change (Youtube.poll vid) with (GoogleSearch.poll vid).
  unfold mbind at 1, IO_bind, io_bind, try_except, fmap, IO_fmap, io_bind.
  rewrite Hp. fold w1.
  destruct (GS_observe res) as [[data status]|e].
  - cbn [io_ret].
    destruct (is_str status (py "completed")); [reflexivity|].
    destruct (is_str status (py "failed")); [reflexivity|].
    io_unfold. unfold w1. world_norm. reflexivity.
  - io_unfold. unfold w1. world_norm. reflexivity.
Qed.

Lemma YT_download_if_present_eq inner path w :
  let v := default JNull (assoc (py "video_url") inner) in
  Youtube.download_if_present (JObj inner) path w =
  if truthy v then
    match open_error w path with
    | Some e => (Raise e, w)
    | None =>
      match v with
      | JStr u =>
        let req := get_request u in
        match http w (clock w) req with
        | Ok resp =>
          (Ok tt, after w 1 [EOpen path WB; EHttp req (Ok resp); EWrite path (content resp)])
        | Raise e => (Raise e, after w 1 [EOpen path WB; EHttp req (Raise e)])
        end
      | _ => (Raise RequestException, after w 0 [EOpen path WB])
      end
    end
  else (Ok tt, w).
Proof.
  change (Youtube.download_if_present (JObj inner) path)
    with (GoogleSearch.download_if_present (JObj inner) (py "video_url") path).
  apply GS_download_if_present_eq.
Qed.

Lemma YT_turns_waiting vid out n w :
  let sreq := status_request (api_key w) vid in
  (forall k, (k < n)%nat -> ~ terminal (http w (clock w + k)%nat sreq)) ->
  turns n (Youtube.loop_body vid out) w
  = Some (after w n (waiting_polls sreq w n)).
Proof.
  intros sreq Hnt. unfold waiting_polls. apply turns_flat_map.
  intros k w0 Hk Hkey Hh Hc.
  pose proof (YT_loop_body_eq vid out w0) as H. cbv zeta in H.
  rewrite Hkey, Hh, Hc in H. fold sreq in H. rewrite H. clear H.
  destruct (GS_observe_not_terminal _ (Hnt k Hk))
    as [[e He]|(data & status & Ho & Hcm & Hf)].
  - rewrite He. reflexivity.
  - rewrite Ho, Hcm, Hf. reflexivity.
Qed.

(** X6.  [download_video] of the Youtube script, on a job that is reported
    [completed] after [n] polls that were not final, with an output file
    that can be opened: it fetches the video, writes it to the output path
    and returns.  Whatever the reply holds under [caption_url], no captions
    are asked for and no second file is written. *)
Theorem Youtube_download_video_fetches_video_only
  (fuel n : nat) (vid out : pystr) (w : world) (vurl : pystr) (rv : response) :
  let sreq := status_request (api_key w) vid in
  let rn := http w (clock w + n)%nat sreq in
  (n < fuel)%nat ->
  (forall k, (k < n)%nat -> ~ terminal (http w (clock w + k)%nat sreq)) ->
  reports rn "completed" ->
  data_field rn "video_url" = JStr vurl -> vurl <> [] ->
  open_error w out = None ->
  http w (clock w + n + 1)%nat (get_request vurl) = Ok rv ->
  Youtube.download_video fuel vid out w =
  Some (Ok tt, after w (n + 2)
    (waiting_polls sreq w n ++
     [EHttp sreq rn; EOpen out WB; EHttp (get_request vurl) (Ok rv);
      EWrite out (content rv)])).
Proof.
  intros sreq rn Hfuel Hwait Hc Hv Hvne Hopen Hrv.
  unfold Youtube.download_video.
  apply (while_true_leaves n) with (wn := after w n (waiting_polls sreq w n));
    [apply YT_turns_waiting; exact Hwait|exact Hfuel|].
  left. split; [|reflexivity].
  pose proof (YT_loop_body_eq vid out (after w n (waiting_polls sreq w n))) as H.
  cbv zeta in H. rewrite H. clear H. world_norm. fold sreq rn.
  destruct (GS_observe_reports rn _ Hc) as (inner & -> & Hget).
  rewrite is_str_py_true.
  unfold mbind, IO_bind, io_bind. rewrite YT_download_if_present_eq. cbv zeta.
  rewrite Hget, Hv, (truthy_nonempty_str _ Hvne). world_norm.
  replace (clock w + (n + 1))%nat with (clock w + n + 1)%nat by lia.
  rewrite Hopen, Hrv. unfold mret, IO_ret, io_ret. world_norm.
  replace (n + 1 + 1)%nat with (n + 2)%nat by lia.
  rewrite <- app_assoc. reflexivity.
Qed.

Lemma Youtube_download_video_fetches_video_only_witness :
  let w := world_processing_then_completed in
  let out := py "outputs/heygen_raw.mp4" in
  let sreq := status_request (api_key w) (py "v1") in
  let vurl := py "https://files.heygen.ai/v.mp4" in
  Youtube.download_video 2 (py "v1") out w =
  Some (Ok tt, after w (1 + 2)
    (waiting_polls sreq w 1 ++
     [EHttp sreq (http w (clock w + 1)%nat sreq); EOpen out WB;
      EHttp (get_request vurl) (Ok (file_reply [0; 0; 0; 24]));
      EWrite out (content (file_reply [0; 0; 0; 24]))])).
Proof.
  intros w out sreq vurl.
  apply (Youtube_download_video_fetches_video_only
           2 1 (py "v1") out w vurl (file_reply [0; 0; 0; 24])).
  - lia.
  - intros k Hk. assert (k = O) as -> by lia.
    intros [H|H]; vm_compute in H; discriminate.
  - vm_compute. reflexivity.
  - vm_compute. reflexivity.
  - vm_compute. discriminate.
  - vm_compute. reflexivity.
  - vm_compute. reflexivity.
Defined.

(** X7.  [download_video] of the Youtube script, on a job that is reported
    [failed] after [n] polls that were not final: it stops polling at that
    reply, asks for no download and raises an exception whose message is
    the render-failure text followed by the error detail of the reply. *)
Theorem Youtube_download_video_raises_on_failed
  (fuel n : nat) (vid out : pystr) (w : world) :
  let sreq := status_request (api_key w) vid in
  let rn := http w (clock w + n)%nat sreq in
  (n < fuel)%nat ->
  (forall k, (k < n)%nat -> ~ terminal (http w (clock w + k)%nat sreq)) ->
  reports rn "failed" ->
  Youtube.download_video fuel vid out w =
  Some (Raise (Exception_ [Lit (py "渲染失敗: "); Fmt (data_field rn "error")]),
        after w (n + 1) (waiting_polls sreq w n ++ [EHttp sreq rn])).
Proof.
  intros sreq rn Hfuel Hwait Hf.
  unfold Youtube.download_video.
  apply (while_true_leaves n) with (wn := after w n (waiting_polls sreq w n));
    [apply YT_turns_waiting; exact Hwait|exact Hfuel|].
  right. eexists. split; [|reflexivity].
  pose proof (YT_loop_body_eq vid out (after w n (waiting_polls sreq w n))) as H.
  cbv zeta in H. rewrite H. clear H. world_norm. fold sreq rn.
  destruct (GS_observe_reports rn _ Hf) as (inner & -> & Hget).
  rewrite (is_str_other (py "failed") (py "completed"))
    by (intros E; exact (completed_not_failed (eq_sym E))).
  rewrite is_str_py_true. io_unfold. rewrite py_get_obj, Hget. reflexivity.
Qed.

Lemma Youtube_download_video_raises_on_failed_witness :
  let w := world_failed in
  let sreq := status_request (api_key w) (py "v1") in
  Youtube.download_video 1 (py "v1") (py "outputs/heygen_raw.mp4") w =
  Some (Raise (Exception_ [Lit (py "渲染失敗: ");
                           Fmt (data_field (http w (clock w + 0)%nat sreq) "error")]),
        after w (0 + 1)
          (waiting_polls sreq w 0 ++ [EHttp sreq (http w (clock w + 0)%nat sreq)])).
Proof.
  intros w sreq.
  apply (Youtube_download_video_raises_on_failed
           1 0 (py "v1") (py "outputs/heygen_raw.mp4") w).
  - lia.
  - intros k Hk. lia.
  - vm_compute. reflexivity.
Defined.

(** ** The three polling loops side by side *)

Lemma download_video_of_eq p fuel vid out :
  download_video_of p fuel vid out = while_true fuel (loop_body_of p vid out).
Proof. destruct p; reflexivity. Qed.

Lemma PPT_fetch_caption_falsy splitext c out w :
  truthy c = false -> PPT.fetch_caption splitext c out w = (Ok tt, w).
Proof. intros H. unfold PPT.fetch_caption. rewrite H. reflexivity. Qed.

(** X8.  A job that is reported [completed] with neither a [video_url] nor
    a [caption_url] (absent, [null] or empty): in each of the three scripts
    [download_video] stops polling at that reply and returns normally,
    having asked for no download and created no file. *)
Theorem completed_without_links_returns_without_files
  (p : poller) (fuel n : nat) (vid out : pystr) (w wn : world) :
  let sreq := status_request (api_key wn) vid in
  let res := http wn (clock wn) sreq in
  turns n (loop_body_of p vid out) w = Some wn -> (n < fuel)%nat ->
  reports res "completed" ->
  truthy (data_field res "video_url") = false ->
  truthy (data_field res "caption_url") = false ->
  download_video_of p fuel vid out w = Some (Ok tt, after wn 1 [EHttp sreq res]).
Proof.
  intros sreq res Hturns Hfuel Hc Hv Hcap. subst res sreq.
  rewrite download_video_of_eq.
  apply (while_true_leaves n) with (wn := wn); [exact Hturns|exact Hfuel|].
  left. split; [|reflexivity].
  destruct p as [| |splitext]; cbn [loop_body_of].
  - destruct (GS_turn_completed vid out wn Hc) as (inner & Hget & ->).
    unfold mbind, IO_bind, io_bind.
    rewrite GS_download_if_present_eq. cbv zeta. rewrite Hget, Hv.
    rewrite GS_download_if_present_eq. cbv zeta. rewrite Hget, Hcap.
    reflexivity.
  - pose proof (YT_loop_body_eq vid out wn) as H. cbv zeta in H.
    rewrite H. clear H.
    destruct (GS_observe_reports _ _ Hc) as (inner & -> & Hget).
    rewrite is_str_py_true.
    unfold mbind, IO_bind, io_bind.
    rewrite YT_download_if_present_eq. cbv zeta. rewrite Hget, Hv.
    reflexivity.
  - unfold PPT.loop_body, try_except.
    pose proof (PPT_attempt_eq splitext vid out wn) as H. cbv zeta in H.
    rewrite H. clear H.
    destruct (PPT_observe_reports _ _ Hc) as (inner & -> & Hget).
    rewrite is_str_py_true, PPT_on_completed_eq, !Hget.
    rewrite PPT_fetch_video_eq, Hv, PPT_fetch_caption_falsy by exact Hcap.
    reflexivity.
Qed.

Lemma completed_without_links_returns_without_files_witness :
  let w := world_completed_without_links in
  let sreq := status_request (api_key w) (py "v1") in
  PPT.download_video example_splitext 1 (py "v1") (py "outputs/final_output.mp4") w
  = Some (Ok tt, after w 1 [EHttp sreq (http w (clock w) sreq)]).
Proof.
  intros w sreq.
  apply (completed_without_links_returns_without_files
           (PollPPT example_splitext) 1 0 (py "v1") (py "outputs/final_output.mp4") w w).
  - reflexivity.
  - lia.
  - vm_compute. reflexivity.
  - vm_compute. reflexivity.
  - vm_compute. reflexivity.
Defined.

(** X9.  In the GoogleSearch and Youtube scripts the output file is opened
    for writing before the video is requested.  When the file can be opened
    and that request raises after a [completed] reply, the exception leaves
    [download_video] (there is no retry), the output file has been created
    or truncated and nothing has been written to it; the GoogleSearch
    script does not go on to the captions. *)
Theorem video_download_failure_leaves_opened_file
  (p : poller) (fuel n : nat) (vid out : pystr) (w wn : world)
  (vurl : pystr) (e : exn) :
  let sreq := status_request (api_key wn) vid in
  let res := http wn (clock wn) sreq in
  p = PollGoogleSearch \/ p = PollYoutube ->
  turns n (loop_body_of p vid out) w = Some wn -> (n < fuel)%nat ->
  reports res "completed" ->
  data_field res "video_url" = JStr vurl -> vurl <> [] ->
  open_error wn out = None ->
  http wn (clock wn + 1)%nat (get_request vurl) = Raise e ->
  download_video_of p fuel vid out w =
  Some (Raise e,
        after wn 2 [EHttp sreq res; EOpen out WB; EHttp (get_request vurl) (Raise e)]).
Proof.
  intros sreq res Hp Hturns Hfuel Hc Hv Hvne Hopen Hget. subst res sreq.
  rewrite download_video_of_eq.
  apply (while_true_leaves n) with (wn := wn); [exact Hturns|exact Hfuel|].
  right. exists e. split; [|reflexivity].
  destruct Hp as [-> | ->]; cbn [loop_body_of].
  - destruct (GS_turn_completed vid out wn Hc) as (inner & Hin & ->).
    unfold mbind, IO_bind, io_bind.
    rewrite GS_download_if_present_eq. cbv zeta.
    rewrite Hin, Hv, (truthy_nonempty_str _ Hvne). world_norm.
    rewrite Hopen, Hget. world_norm. reflexivity.
  - pose proof (YT_loop_body_eq vid out wn) as H. cbv zeta in H.
    rewrite H. clear H.
    destruct (GS_observe_reports _ _ Hc) as (inner & -> & Hin).
    rewrite is_str_py_true.
    unfold mbind, IO_bind, io_bind.
    rewrite YT_download_if_present_eq. cbv zeta.
    rewrite Hin, Hv, (truthy_nonempty_str _ Hvne). world_norm.
    rewrite Hopen, Hget. world_norm. reflexivity.
Qed.

Lemma video_download_failure_leaves_opened_file_witness :
  let w := world_download_raises in
  let out := py "outputs/final_news_video.mp4" in
  let sreq := status_request (api_key w) (py "v1") in
  let vurl := py "https://files.heygen.ai/v.mp4" in
  GoogleSearch.download_video 1 (py "v1") out w =
  Some (Raise RequestException,
        after w 2 [EHttp sreq (http w (clock w) sreq); EOpen out WB;
                   EHttp (get_request vurl) (Raise RequestException)]).
Proof.
  intros w out sreq vurl.
  apply (video_download_failure_leaves_opened_file
           PollGoogleSearch 1 0 (py "v1") out w w vurl RequestException).
  - left. reflexivity.
  - reflexivity.
  - lia.
  - vm_compute. reflexivity.
  - vm_compute. reflexivity.
  - vm_compute. discriminate.
  - vm_compute. reflexivity.
  - vm_compute. reflexivity.
Defined.

(** ** Where the API key goes *)

Ltac bare_tac :=
  repeat (apply Forall_cons;
          [cbn [poll_or_bare_get];
           first [exact I | left; reflexivity | right; eexists; reflexivity]|]);
  apply Forall_nil.

Lemma GS_observe_Ok_obj res data status :
  GS_observe res = Ok (data, status) -> exists inner, data = JObj inner.
Proof.
  unfold GS_observe. destruct res as [resp|e]; [|discriminate].
  destruct (resp_json resp) as [r|e]; [|discriminate].
  destruct (py_get r (py "data") (JObj [])) as [d|e]; [|discriminate].
  destruct d; cbn [py_get]; try discriminate.
  destruct (assoc (py "status") fields); intros [= <- _]; eauto.
Qed.

Lemma PPT_observe_Ok_obj res data status :
  PPT_observe res = Ok (data, status) -> exists inner, data = JObj inner.
Proof.
  unfold PPT_observe. destruct res as [resp|e]; [|discriminate].
  destruct (resp_json resp) as [r|e]; [|discriminate].
  destruct (py_index r (py "data")) as [d|e]; [|discriminate].
  destruct d; cbn [py_index]; try discriminate.
  destruct (assoc (py "status") fields); intros [= <- _]; eauto.
Qed.

Lemma GS_download_events sreq inner key path w :
  exists r k evs,
    GoogleSearch.download_if_present (JObj inner) key path w = (r, after w k evs) /\
    Forall (poll_or_bare_get sreq) evs.
Proof.
  rewrite GS_download_if_present_eq. cbv zeta.
  destruct (truthy _).
  2:{ exists (Ok tt), O, []. rewrite after_0_nil. split; [reflexivity|bare_tac]. }
  destruct (open_error w path) as [e0|].
  { exists (Raise e0), O, []. rewrite after_0_nil. split; [reflexivity|bare_tac]. }
  destruct (default JNull (assoc key inner));
    try (eexists _, _, _; split; [reflexivity|bare_tac]).
  destruct (http w (clock w) (get_request s));
    eexists _, _, _; (split; [reflexivity|bare_tac]).
Qed.

Lemma PPT_fetch_video_events sreq v out w :
  exists r k evs,
    PPT.fetch_video v out w = (r, after w k evs) /\
    Forall (poll_or_bare_get sreq) evs.
Proof.
  rewrite PPT_fetch_video_eq.
  destruct (truthy v).
  2:{ exists (Ok tt), O, []. rewrite after_0_nil. split; [reflexivity|bare_tac]. }
  destruct v;
    try (eexists _, O, []; rewrite after_0_nil; split; [reflexivity|bare_tac]).
  destruct (http w (clock w) (get_request s)); [destruct (open_error w out)|];
    eexists _, _, _; (split; [reflexivity|bare_tac]).
Qed.

Lemma PPT_caption_events splitext sreq c out w :
  exists k evs,
    PPT.fetch_caption splitext c out w = (Ok tt, after w k evs) /\
    Forall (poll_or_bare_get sreq) evs.
Proof.
  unfold PPT.fetch_caption.
  destruct (truthy c).
  2:{ exists O, []. rewrite after_0_nil. split; [reflexivity|bare_tac]. }
  unfold PPT.save_caption, requests_get_value.
  destruct c; io_unfold;
    try (exists O, []; rewrite after_0_nil; split; [reflexivity|bare_tac]).
  fold (get_request s).
  destruct (http w (clock w) (get_request s)) as [resp|e] eqn:E.
  - destruct (startswith (py_strip (text resp)) (py "WEBVTT"));
      unfold PPT.convert_ass_to_srt; world_norm;
      destruct (open_error w _); world_norm;
      eexists _, _; (split; [reflexivity|bare_tac]).
  - world_norm. eexists _, _; (split; [reflexivity|bare_tac]).
Qed.

Ltac events_tac :=
  repeat first
    [ assumption
    | apply Forall_nil
    | apply Forall_cons;
      [cbn [poll_or_bare_get];
       first [exact I | left; reflexivity | right; eexists; reflexivity]|]
    | apply Forall_app; split ].

Lemma loop_body_of_events p vid out w r w' :
  loop_body_of p vid out w = (r, w') ->
  exists k evs,
    w' = after w k evs /\
    Forall (poll_or_bare_get (status_request (api_key w) vid)) evs.
Proof.
  set (sreq := status_request (api_key w) vid).
  destruct p as [| |splitext]; cbn [loop_body_of].
  - pose proof (GS_loop_body_eq vid out w) as H. cbv zeta in H. rewrite H. clear H.
    fold sreq.
    destruct (GS_observe _) as [[data status]|e] eqn:Hobs.
    2:{ intros [= <- <-]. eexists _, _. split; [reflexivity|bare_tac]. }
    destruct (GS_observe_Ok_obj _ _ _ Hobs) as [inner ->].
    destruct (is_str status (py "completed")).
    + unfold mbind, IO_bind, io_bind, mret, IO_ret, io_ret.
      match goal with |- context [GoogleSearch.download_if_present _ _ _ ?w1] =>
        destruct (GS_download_events sreq inner (py "video_url") out w1)
          as (r1 & k1 & e1 & -> & H1) end.
      rewrite after_after.
      destruct r1 as [[]|e].
      2:{ intros [= <- <-]. eexists _, _. split; [reflexivity|].
          events_tac. }
      match goal with |- context [GoogleSearch.download_if_present _ _ ?path ?w2] =>
        destruct (GS_download_events sreq inner (py "caption_url") path w2)
          as (r2 & k2 & e2 & -> & H2) end.
      rewrite after_after.
      destruct r2 as [[]|e]; intros [= <- <-]; eexists _, _;
        (split; [reflexivity|]);
        events_tac.
    + destruct (is_str status (py "failed")).
      * io_unfold. destruct (py_get (JObj inner) (py "error") JNull);
          intros [= <- <-]; eexists _, _; (split; [reflexivity|bare_tac]).
      * intros [= <- <-]. eexists _, _. split; [reflexivity|bare_tac].
  - pose proof (YT_loop_body_eq vid out w) as H. cbv zeta in H. rewrite H. clear H.
    fold sreq.
    destruct (GS_observe _) as [[data status]|e] eqn:Hobs.
    2:{ intros [= <- <-]. eexists _, _. split; [reflexivity|bare_tac]. }
    destruct (GS_observe_Ok_obj _ _ _ Hobs) as [inner ->].
    destruct (is_str status (py "completed")).
    + unfold mbind, IO_bind, io_bind, mret, IO_ret, io_ret.
      change (Youtube.download_if_present (JObj inner) out)
        with (GoogleSearch.download_if_present (JObj inner) (py "video_url") out).
      match goal with |- context [GoogleSearch.download_if_present _ _ _ ?w1] =>
        destruct (GS_download_events sreq inner (py "video_url") out w1)
          as (r1 & k1 & e1 & -> & H1) end.
      rewrite after_after.
      destruct r1 as [[]|e]; intros [= <- <-]; eexists _, _;
        (split; [reflexivity|]);
        events_tac.
    + destruct (is_str status (py "failed")).
      * io_unfold. destruct (py_get (JObj inner) (py "error") JNull);
          intros [= <- <-]; eexists _, _; (split; [reflexivity|bare_tac]).
      * intros [= <- <-]. eexists _, _. split; [reflexivity|bare_tac].
  - unfold PPT.loop_body, try_except.
    pose proof (PPT_attempt_eq splitext vid out w) as H. cbv zeta in H.
    rewrite H. clear H. fold sreq.
    destruct (PPT_observe _) as [[data status]|e] eqn:Hobs.
    2:{ io_unfold. world_norm. intros [= <- <-].
        eexists _, _. split; [reflexivity|bare_tac]. }
    destruct (PPT_observe_Ok_obj _ _ _ Hobs) as [inner ->].
    destruct (is_str status (py "completed")).
    + rewrite PPT_on_completed_eq.
      match goal with |- context [PPT.fetch_video ?v _ ?w1] =>
        destruct (PPT_fetch_video_events sreq v out w1)
          as (r1 & k1 & e1 & -> & H1) end.
      rewrite after_after.
      destruct r1 as [[]|e].
      2:{ io_unfold. world_norm. intros [= <- <-].
          eexists _, _. split; [reflexivity|].
          events_tac. }
      match goal with |- context [PPT.fetch_caption _ ?c _ ?w2] =>
        destruct (PPT_caption_events splitext sreq c out w2)
          as (k2 & e2 & -> & H2) end.
      rewrite after_after. intros [= <- <-].
      eexists _, _. split; [reflexivity|].
      events_tac.
    + destruct (is_str status (py "failed")); intros [= <- <-];
        eexists _, _; (split; [reflexivity|bare_tac]).
Qed.

Lemma turns_events p vid out n w wn :
  turns n (loop_body_of p vid out) w = Some wn ->
  exists k evs,
    wn = after w k evs /\
    Forall (poll_or_bare_get (status_request (api_key w) vid)) evs.
Proof.
  intros Hturns.
  destruct (turns_rounds
              (fun key round => Forall (poll_or_bare_get (status_request key vid)) round)
              (loop_body_of p vid out)) with (n := n) (w := w) (wn := wn)
    as (k & rounds & -> & Hall); [|exact Hturns|].
  - intros w0 w0' Hbody. apply (loop_body_of_events p vid out w0 _ _ Hbody).
  - exists k, (concat rounds). split; [reflexivity|].
    apply Forall_concat. exact Hall.
Qed.

(** X10.  The API key travels with the status polls only.  Whatever the
    servers answer and however long the loop runs, every request that
    [download_video] makes (in each of the three scripts) is either the
    status poll, which carries the key in its [X-Api-Key] header, or a
    plain GET with no header, no parameter and no body: the key is never
    sent to the address a download link points to. *)
Theorem download_video_sends_key_with_status_polls_only
  (p : poller) (vid out : pystr) (w : world) :
  let sreq := status_request (api_key w) vid in
  (forall n wn,
     turns n (loop_body_of p vid out) w = Some wn ->
     exists k evs, wn = after w k evs /\ Forall (poll_or_bare_get sreq) evs) /\
  (forall fuel r w',
     download_video_of p fuel vid out w = Some (r, w') ->
     exists k evs, w' = after w k evs /\ Forall (poll_or_bare_get sreq) evs).
Proof.
  intros sreq. split.
  - intros n wn Hturns. apply (turns_events p vid out n w wn Hturns).
  - intros fuel r w'. rewrite download_video_of_eq.
    intros (n & wn & _ & Hturns & Hleaves)%while_true_returns.
    destruct (turns_events p vid out n w wn Hturns) as (k1 & e1 & -> & H1).
    assert (Hbody : exists r0, loop_body_of p vid out (after w k1 e1) = (r0, w')).
    { destruct Hleaves as [[H _]|(e & H & _)]; eauto. }
    destruct Hbody as [r0 Hbody].
    destruct (loop_body_of_events p vid out _ _ _ Hbody) as (k2 & e2 & -> & H2).
    rewrite api_key_after in H2.
    exists (k1 + k2)%nat, (e1 ++ e2). rewrite after_after.
    split; [reflexivity|]. apply Forall_app. split; assumption.
Qed.

Lemma download_video_sends_key_with_status_polls_only_witness :
  let w := world_processing_then_completed in
  let out := py "outputs/final_news_video.mp4" in
  let srt := py "outputs/final_news_video.srt" in
  let sreq := status_request (api_key w) (py "v1") in
  let vurl := py "https://files.heygen.ai/v.mp4" in
  let curl := py "https://files.heygen.ai/v.srt" in
  let w' := after w 4
    [EHttp sreq (http w 0%nat sreq); ESleep 15; EHttp sreq (http w 1%nat sreq);
     EOpen out WB; EHttp (get_request vurl) (Ok (file_reply [0; 0; 0; 24]));
     EWrite out [0; 0; 0; 24];
     EOpen srt WB; EHttp (get_request curl) (Ok (file_reply [49; 10]));
     EWrite srt [49; 10]] in
  exists k evs, w' = after w k evs /\ Forall (poll_or_bare_get sreq) evs.
Proof.
  intros w out srt sreq vurl curl w'.
  apply (proj2 (download_video_sends_key_with_status_polls_only
                  PollGoogleSearch (py "v1") out w) 2%nat (Ok tt) w').
  vm_compute. reflexivity.
Defined.

(** ** The name of the captions file *)

Lemma py_replace_absent (s old new : pystr) :
  contains old s = false -> py_replace s old new = s.
Proof.
  unfold py_replace. induction s as [|c s IH]; [reflexivity|].
  cbn [contains replace_from].
  intros [Hhead Htail]%orb_false_iff.
  rewrite Hhead, (IH Htail). reflexivity.
Qed.

(** X11.  The GoogleSearch script names the captions file by replacing
    [.mp4] in the output path.  When the output path does not contain
    [.mp4], the two names are the same: when the output file can be opened,
    it is opened again after the video has been written, which empties it,
    and the captions are written over it. *)
Theorem GoogleSearch_captions_overwrite_video_without_mp4
  (fuel n : nat) (vid out : pystr) (w wn : world)
  (vurl curl : pystr) (rv rc : response) :
  let sreq := status_request (api_key wn) vid in
  let res := http wn (clock wn) sreq in
  contains (py ".mp4") out = false ->
  turns n (GoogleSearch.loop_body vid out) w = Some wn -> (n < fuel)%nat ->
  reports res "completed" ->
  data_field res "video_url" = JStr vurl -> vurl <> [] ->
  data_field res "caption_url" = JStr curl -> curl <> [] ->
  open_error wn out = None ->
  http wn (clock wn + 1)%nat (get_request vurl) = Ok rv ->
  http wn (clock wn + 2)%nat (get_request curl) = Ok rc ->
  GoogleSearch.download_video fuel vid out w =
  Some (Ok tt, after wn 3
    [EHttp sreq res;
     EOpen out WB; EHttp (get_request vurl) (Ok rv); EWrite out (content rv);
     EOpen out WB; EHttp (get_request curl) (Ok rc); EWrite out (content rc)]).
Proof.
  intros sreq res Habsent Hturns Hfuel Hc Hv Hvne Hcap Hcne Hopen Hrv Hrc.
  subst res sreq.
  unfold GoogleSearch.download_video.
  apply (while_true_leaves n) with (wn := wn); [exact Hturns|exact Hfuel|].
  left. split; [|reflexivity].
  destruct (GS_turn_completed vid out wn Hc) as (inner & Hin & ->).
  rewrite (py_replace_absent _ _ _ Habsent).
  unfold mbind, IO_bind, io_bind.
  rewrite GS_download_if_present_eq. cbv zeta.
  rewrite Hin, Hv, (truthy_nonempty_str _ Hvne). world_norm.
  rewrite Hopen, Hrv.
  rewrite GS_download_if_present_eq. cbv zeta.
  rewrite Hin, Hcap, (truthy_nonempty_str _ Hcne). world_norm.
  replace (clock wn + 1 + 1)%nat with (clock wn + 2)%nat by lia.
  rewrite Hopen, Hrc. unfold mret, IO_ret, io_ret. world_norm. reflexivity.
Qed.

Lemma GoogleSearch_captions_overwrite_video_without_mp4_witness :
  let w := scripted [
    Ok (status_reply [(py "status", JStr (py "completed"));
                      (py "video_url", JStr (py "https://files.heygen.ai/v.mp4"));
                      (py "caption_url", JStr (py "https://files.heygen.ai/v.srt"))]);
    Ok (file_reply [0; 0; 0; 24]);
    Ok (file_reply [49; 10])] in
  let out := py "outputs/final_news_video.mov" in
  let sreq := status_request (api_key w) (py "v1") in
  let vurl := py "https://files.heygen.ai/v.mp4" in
  let curl := py "https://files.heygen.ai/v.srt" in
  GoogleSearch.download_video 1 (py "v1") out w =
  Some (Ok tt, after w 3
    [EHttp sreq (http w (clock w) sreq);
     EOpen out WB; EHttp (get_request vurl) (Ok (file_reply [0; 0; 0; 24]));
     EWrite out (content (file_reply [0; 0; 0; 24]));
     EOpen out WB; EHttp (get_request curl) (Ok (file_reply [49; 10]));
     EWrite out (content (file_reply [49; 10]))]).
Proof.
  intros w out sreq vurl curl.
  apply (GoogleSearch_captions_overwrite_video_without_mp4
           1 0 (py "v1") out w w vurl curl).
  - vm_compute. reflexivity.
  - reflexivity.
  - lia.
  - vm_compute. reflexivity.
  - vm_compute. reflexivity.
  - vm_compute. discriminate.
  - vm_compute. reflexivity.
  - vm_compute. discriminate.
  - vm_compute. reflexivity.
  - vm_compute. reflexivity.
  - vm_compute. reflexivity.
Defined.

(** ** The video-only script *)

Lemma PV_create_video_eq asset_id text slide_number w :
  let req := PV_generate_request (api_key w) (PptVideoOnly.payload asset_id text) in
  let res := http w (clock w) req in
  PptVideoOnly.create_video asset_id text slide_number w =
  (Ok match res with
      | Ok resp =>
        if status_code resp =? 200 then
          match PV_video_id_of_reply resp with
          | Ok vid => if truthy vid then vid else JNull
          | Raise _ => JNull
          end
        else JNull
      | Raise _ => JNull
      end, after w 1 [EHttp req res]).
Proof.
  intros req res. subst req res.
  unfold PptVideoOnly.create_video, PV_generate_request, PV_video_id_of_reply.
  io_unfold.
  destruct (http w (clock w) _) as [resp|e]; world_norm; [|reflexivity].
  destruct (status_code resp =? 200); [|reflexivity].
  destruct (resp_json resp) as [j|e]; [|reflexivity]. cbn.
  destruct (py_get j (py "data") (JObj [])) as [d|e]; [|reflexivity]. cbn.
  destruct (py_get d (py "video_id") JNull) as [vid|e]; [|reflexivity].
  destruct (truthy vid); reflexivity.
Qed.

(** X12.  [create_video] of the video-only script never raises.  It sends
    the generate request once and returns either a video id, which is
    then a truthy value read under [data], [video_id] of a reply with
    status 200, or [None]: when the request cannot reach the server, when
    the status code is not 200 (whatever the body holds), when the body is
    not JSON or has no usable [video_id]. *)
Theorem create_video_never_raises
  (asset_id : json) (text : pystr) (slide_number : nat) (w : world) :
  let req := PV_generate_request (api_key w) (PptVideoOnly.payload asset_id text) in
  let res := http w (clock w) req in
  exists v,
    PptVideoOnly.create_video asset_id text slide_number w
    = (Ok v, after w 1 [EHttp req res]) /\
    (v = JNull \/
     (truthy v = true /\
      exists resp, res = Ok resp /\ status_code resp = 200 /\
                   PV_video_id_of_reply resp = Ok v)) /\
    (forall resp, res = Ok resp -> status_code resp <> 200 -> v = JNull) /\
    (forall e, res = Raise e -> v = JNull) /\
    (forall resp vid,
       res = Ok resp -> status_code resp = 200 ->
       PV_video_id_of_reply resp = Ok vid -> truthy vid = true -> v = vid).
Proof.
  intros req res.
  pose proof (PV_create_video_eq asset_id text slide_number w) as Heq.
  cbv zeta in Heq. fold req res in Heq.
  eexists. split; [exact Heq|]. clear Heq.
  split; [|split; [|split]].
  - destruct res as [resp|e]; [|left; reflexivity].
    destruct (status_code resp =? 200) eqn:Hcode; [|left; reflexivity].
    apply N.eqb_eq in Hcode.
    destruct (PV_video_id_of_reply resp) as [vid|e] eqn:Hvid; [|left; reflexivity].
    destruct (truthy vid) eqn:Ht; [|left; reflexivity].
    right. split; [exact Ht|]. exists resp. auto.
  - intros resp -> Hne. apply N.eqb_neq in Hne. rewrite Hne. reflexivity.
  - intros e ->. reflexivity.
  - intros resp vid -> Hcode Hvid Ht.
    rewrite Hcode, Hvid, Ht. reflexivity.
Qed.

Lemma create_video_never_raises_witness :
  let w := scripted [Ok (generate_reply_with_status 401 "video-1")] in
  let req := PV_generate_request (api_key w)
               (PptVideoOnly.payload (JStr (py "asset-1")) (py "Hello")) in
  let res := http w (clock w) req in
  exists v,
    PptVideoOnly.create_video (JStr (py "asset-1")) (py "Hello") 1 w
    = (Ok v, after w 1 [EHttp req res]) /\
    (v = JNull \/
     (truthy v = true /\
      exists resp, res = Ok resp /\ status_code resp = 200 /\
                   PV_video_id_of_reply resp = Ok v)) /\
    (forall resp, res = Ok resp -> status_code resp <> 200 -> v = JNull) /\
    (forall e, res = Raise e -> v = JNull) /\
    (forall resp vid,
       res = Ok resp -> status_code resp = 200 ->
       PV_video_id_of_reply resp = Ok vid -> truthy vid = true -> v = vid).
Proof.
  intros w req res.
  apply (create_video_never_raises (JStr (py "asset-1")) (py "Hello") 1 w).
Defined.

Lemma upload_is_not_generate : UPLOAD_URL_V1 <> GENERATE_URL_V2.
Proof. vm_compute. discriminate. Qed.

Lemma requests_to_app u l1 l2 :
  requests_to u (l1 ++ l2) = requests_to u l1 ++ requests_to u l2.
Proof. unfold requests_to. rewrite exchanges_app, map_app. apply list.filter_app. Qed.

Lemma requests_to_hit u req res :
  url req = u -> requests_to u [EHttp req res] = [req].
Proof.
  intros H. unfold requests_to. cbn [exchanges map fst].
  rewrite filter_cons_True by exact H. reflexivity.
Qed.

Lemma requests_to_miss u req res :
  url req <> u -> requests_to u [EHttp req res] = [].
Proof.
  intros H. unfold requests_to. cbn [exchanges map fst].
  rewrite filter_cons_False by exact H. reflexivity.
Qed.

Lemma requests_to_sleep u s : requests_to u [ESleep s] = [].
Proof. reflexivity. Qed.

(** The loop of [main], from any slide number. *)
Lemma PV_main_loop_spec scripts pngs i w r w' :
  PptVideoOnly.main_loop scripts i pngs w = (r, w') ->
  exists k evs,
    w' = after w k evs /\
    (length (requests_to GENERATE_URL_V2 evs)
     <= length (requests_to UPLOAD_URL_V1 evs))%nat /\
    (r = Ok tt ->
     Forall2 (fun req x => exists data,
                read_file w x.2 = Some data /\
                req = PV_upload_request (api_key w) data)
       (requests_to UPLOAD_URL_V1 evs)
       (filter (fun x => default [] (scripts !! x.1) <> [])
               (zip (seq i (length pngs)) pngs))).
Proof.
  revert i w r w'. induction pngs as [|p pngs IH]; intros i w r w';
    cbn [PptVideoOnly.main_loop length seq zip_with].
  { intros [= <- <-]. exists O, []. rewrite after_0_nil.
    split; [reflexivity|]. split; [reflexivity|]. intros _. constructor. }
  destruct (decide (default [] (scripts !! i) = [])) as [Hno|Htext].
  { rewrite bool_decide_eq_true_2 by exact Hno.
    rewrite filter_cons_False by (cbn [fst]; intros H; exact (H Hno)).
    apply IH. }
  rewrite bool_decide_eq_false_2 by exact Htext.
  rewrite filter_cons_True by exact Htext.
  unfold mbind, IO_bind, io_bind.
  destruct (read_file w p) as [data|] eqn:Hfile.
  2:{ pose proof (upload_of_missing UpVideoOnly p w Hfile) as Hup.
      cbn [upload_of] in Hup. rewrite Hup. intros [= <- <-].
      exists O, []. rewrite after_0_nil. split; [reflexivity|].
      split; [reflexivity|]. intros [=]. }
  pose proof (upload_of_eq UpVideoOnly p data w Hfile) as Hup.
  cbv zeta in Hup. cbn [upload_of upload_request_of] in Hup. rewrite Hup. clear Hup.
  set (ureq := PV_upload_request (api_key w) data).
  set (ures := http w (clock w) ureq).
  assert (Hu1 : requests_to UPLOAD_URL_V1 [EHttp ureq ures] = [ureq])
    by (apply requests_to_hit; reflexivity).
  assert (Hu2 : requests_to GENERATE_URL_V2 [EHttp ureq ures] = [])
    by (apply requests_to_miss; exact upload_is_not_generate).
  match goal with |- match ?x with _ => _ end = _ -> _ =>
    destruct x as [asset_id|e] eqn:Hasset end.
  2:{ intros [= <- <-]. eexists _, _. split; [reflexivity|].
      rewrite Hu1, Hu2. split; [cbn; lia|]. intros [=]. }
  destruct (truthy asset_id).
  - cbn [negb].
    pose proof (PV_create_video_eq asset_id (default [] (scripts !! i)) i
                  (after w 1 [EHttp ureq ures])) as Hcv.
    cbv zeta in Hcv. rewrite Hcv. clear Hcv.
    unfold time_sleep. world_norm.
    match goal with |- PptVideoOnly.main_loop _ _ _ ?w3 = _ -> _ =>
      intros Hrest; destruct (IH _ w3 _ _ Hrest) as (k & evs & -> & Hle & Hok) end.
    rewrite after_after. eexists _, _. split; [reflexivity|].
    rewrite !requests_to_app.
    match goal with |- context [[EHttp ureq ures; EHttp ?g ?gr; ESleep 1]] =>
      change [EHttp ureq ures; EHttp g gr; ESleep 1]
        with ([EHttp ureq ures] ++ [EHttp g gr] ++ [ESleep 1]);
      rewrite !requests_to_app, Hu1, Hu2, !requests_to_sleep;
      rewrite (requests_to_hit GENERATE_URL_V2 g gr) by reflexivity;
      rewrite (requests_to_miss UPLOAD_URL_V1 g gr)
        by (intros E; apply upload_is_not_generate; symmetry; exact E)
    end.
    split; [cbn [app length]; lia|].
    intros Hr. cbn [app]. constructor.
    + exists data. split; [exact Hfile|reflexivity].
    + specialize (Hok Hr). world_norm. rewrite read_file_after, api_key_after in Hok.
      exact Hok.
  - cbn [negb].
    intros Hrest. destruct (IH _ _ _ _ Hrest) as (k & evs & -> & Hle & Hok).
    rewrite after_after. eexists _, _. split; [reflexivity|].
    rewrite !requests_to_app, Hu1, Hu2.
    split; [cbn [app length]; lia|].
    intros Hr. cbn [app]. constructor.
    + exists data. split; [exact Hfile|reflexivity].
    + specialize (Hok Hr). rewrite read_file_after, api_key_after in Hok.
      exact Hok.
Qed.

(** X13.  [main] of the video-only script pairs the [i]-th image (counted
    from 1) with the text that the scripts hold for slide [i].  When it
    returns normally, the uploads it has made are, in order, those of the
    images whose slide has a non-empty text, each sent once with the bytes
    of its file; an image whose slide has no text is not uploaded.  At
    most one generate request is sent for each upload. *)
Theorem main_uploads_the_slides_that_have_text
  (scripts : gmap.gmap nat pystr) (pngs : list pystr) (w w' : world) :
  PptVideoOnly.main scripts pngs w = (Ok tt, w') ->
  exists k evs,
    w' = after w k evs /\
    Forall2 (fun req x => exists data,
               read_file w x.2 = Some data /\
               req = PV_upload_request (api_key w) data)
      (requests_to UPLOAD_URL_V1 evs) (slides_with_text scripts pngs) /\
    (length (requests_to GENERATE_URL_V2 evs)
     <= length (requests_to UPLOAD_URL_V1 evs))%nat.
Proof.
  unfold PptVideoOnly.main, slides_with_text.
  destruct (bool_decide (scripts = ∅) || bool_decide (pngs = [])) eqn:Hguard.
  - intros [= <-]. exists O, []. rewrite after_0_nil.
    split; [reflexivity|]. split; [|reflexivity].
    apply orb_true_iff in Hguard as [->%bool_decide_eq_true| ->%bool_decide_eq_true].
    + replace (filter _ _) with (@nil (nat * pystr)); [constructor|].
      symmetry. induction (zip (seq 1 (length pngs)) pngs) as [|x l IH]; [reflexivity|].
      rewrite filter_cons_False; [exact IH|].
      rewrite fin_maps.lookup_empty. intros H. exact (H eq_refl).
    + constructor.
  - intros Hloop.
    destruct (PV_main_loop_spec _ _ _ _ _ _ Hloop) as (k & evs & -> & Hle & Hok).
    exists k, evs. split; [reflexivity|]. split; [exact (Hok eq_refl)|exact Hle].
Qed.

Lemma main_uploads_the_slides_that_have_text_witness :
  let scripts : gmap.gmap nat pystr :=
    <[1%nat := py "Welcome"]> (<[3%nat := py "Thanks"]> ∅) in
  let pngs := [py "slide_1.png"; py "slide_2.png"; py "slide_3.png"] in
  let w := scripted [upload_reply "asset-1"; generate_reply "video-1";
                     Ok (upload_reply_with_status 500 "overloaded" "asset-3")] in
  exists k evs,
    (PptVideoOnly.main scripts pngs w).2 = after w k evs /\
    Forall2 (fun req x => exists data,
               read_file w x.2 = Some data /\
               req = PV_upload_request (api_key w) data)
      (requests_to UPLOAD_URL_V1 evs) (slides_with_text scripts pngs) /\
    (length (requests_to GENERATE_URL_V2 evs)
     <= length (requests_to UPLOAD_URL_V1 evs))%nat.
Proof.
  intros scripts pngs w.
  apply (main_uploads_the_slides_that_have_text scripts pngs w).
  vm_compute. reflexivity.
Defined.

(** X14.  [main] of the video-only script sends nothing and returns
    normally when no slide has a text: in particular when the scripts are
    empty or when there is no image. *)
Theorem main_without_text_sends_nothing
  (scripts : gmap.gmap nat pystr) (pngs : list pystr) (w : world) :
  (slides_with_text scripts pngs = [] ->
   PptVideoOnly.main scripts pngs w = (Ok tt, w)) /\
  (scripts = ∅ \/ pngs = [] -> slides_with_text scripts pngs = []).
Proof.
  assert (Hloop : forall pngs i w,
    filter (fun x : nat * pystr => default [] (scripts !! x.1) <> [])
           (zip (seq i (length pngs)) pngs) = [] ->
    PptVideoOnly.main_loop scripts i pngs w = (Ok tt, w)).
  { clear. induction pngs as [|p pngs IH]; intros i w;
      cbn [PptVideoOnly.main_loop length seq zip_with]; [reflexivity|].
    destruct (decide (default [] (scripts !! i) = [])) as [Hno|Htext].
    - rewrite bool_decide_eq_true_2 by exact Hno.
      rewrite filter_cons_False by (cbn [fst]; intros H; exact (H Hno)).
      apply IH.
    - rewrite filter_cons_True by exact Htext. discriminate. }
  split.
  - intros Hnone. unfold PptVideoOnly.main.
    destruct (bool_decide (scripts = ∅) || bool_decide (pngs = [])); [reflexivity|].
    apply Hloop. exact Hnone.
  - unfold slides_with_text. intros [-> | ->]; [|reflexivity].
    induction (zip (seq 1 (length pngs)) pngs) as [|x l IH]; [reflexivity|].
    rewrite filter_cons_False; [exact IH|].
    rewrite fin_maps.lookup_empty. intros H. exact (H eq_refl).
Qed.

Lemma main_without_text_sends_nothing_witness :
  let scripts : gmap.gmap nat pystr := <[4%nat := py "Thanks"]> ∅ in
  let pngs := [py "slide_1.png"; py "slide_2.png"] in
  PptVideoOnly.main scripts pngs world_without_files = (Ok tt, world_without_files).
Proof.
  intros scripts pngs.
  apply (proj1 (main_without_text_sends_nothing scripts pngs world_without_files)).
  vm_compute. reflexivity.
Defined.

(** ** Cleaning a path *)

Lemma lstrip_as_lstrip_by s : lstrip s = lstrip_by py_isspace s.
Proof. induction s as [|c s IH]; cbn; [reflexivity|]. rewrite IH. reflexivity. Qed.

Lemma lstrip_chars_as_lstrip_by chars s :
  Youtube.lstrip_chars chars s = lstrip_by (fun c => bool_decide (c ∈ chars)) s.
Proof. induction s as [|c s IH]; cbn; [reflexivity|]. rewrite IH. reflexivity. Qed.

Lemma lstrip_by_prefix P ws s :
  forallb P ws = true -> lstrip_by P (ws ++ s) = lstrip_by P s.
Proof.
  induction ws as [|c ws IH]; cbn [forallb app lstrip_by]; [reflexivity|].
  intros [Hc Hws]%andb_true_iff. rewrite Hc. apply IH. exact Hws.
Qed.

Lemma lstrip_by_stop P c s : P c = false -> lstrip_by P (c :: s) = c :: s.
Proof. intros H. cbn. rewrite H. reflexivity. Qed.

(** Stripping both ends takes off exactly the characters of the class
    around a text that neither begins nor ends with one. *)
Lemma strip_by_trim P ws1 ws2 c s d r :
  forallb P ws1 = true -> forallb P ws2 = true ->
  P c = false -> P d = false -> rev (c :: s) = d :: r ->
  rev (lstrip_by P (rev (lstrip_by P (ws1 ++ (c :: s) ++ ws2)))) = c :: s.
Proof.
  intros H1 H2 Hc Hd Hrev.
  rewrite lstrip_by_prefix by exact H1.
  cbn [app]. rewrite lstrip_by_stop by exact Hc.
  change (c :: s ++ ws2) with ((c :: s) ++ ws2).
  rewrite rev_app_distr, lstrip_by_prefix.
  2:{ rewrite forallb_forall in H2 |- *. intros x Hx. apply H2.
      apply in_rev. exact Hx. }
  rewrite Hrev, lstrip_by_stop by exact Hd.
  rewrite <- Hrev. apply rev_involutive.
Qed.

Lemma py_strip_trim ws1 ws2 c s d r :
  forallb py_isspace ws1 = true -> forallb py_isspace ws2 = true ->
  py_isspace c = false -> py_isspace d = false -> rev (c :: s) = d :: r ->
  py_strip (ws1 ++ (c :: s) ++ ws2) = c :: s.
Proof.
  intros. unfold py_strip. rewrite !lstrip_as_lstrip_by.
  eapply strip_by_trim; eassumption.
Qed.

Lemma strip_chars_trim q ws1 ws2 c s d r :
  forallb (N.eqb q) ws1 = true -> forallb (N.eqb q) ws2 = true ->
  c <> q -> d <> q -> rev (c :: s) = d :: r ->
  Youtube.strip_chars [q] (ws1 ++ (c :: s) ++ ws2) = c :: s.
Proof.
  intros H1 H2 Hc Hd Hrev. unfold Youtube.strip_chars.
  rewrite !lstrip_chars_as_lstrip_by.
  assert (Hin : forall x, bool_decide (x ∈ [q]) = N.eqb q x).
  { intros x. destruct (N.eqb_spec q x) as [->|Hne].
    - apply bool_decide_eq_true. left.
    - apply bool_decide_eq_false. intros ->%list_elem_of_singleton. exact (Hne eq_refl). }
  eapply strip_by_trim; try exact Hrev.
  - rewrite forallb_forall in H1 |- *. intros x Hx. rewrite Hin. apply H1, Hx.
  - rewrite forallb_forall in H2 |- *. intros x Hx. rewrite Hin. apply H2, Hx.
  - rewrite Hin. apply N.eqb_neq. intros E. exact (Hc (eq_sym E)).
  - rewrite Hin. apply N.eqb_neq. intros E. exact (Hd (eq_sym E)).
Qed.

Lemma plain_path_inv p :
  plain_path p = true ->
  exists c s d r,
    p = c :: s /\ rev (c :: s) = d :: r /\
    py_isspace c = false /\ c <> Youtube.dquote /\ c <> Youtube.squote /\
    py_isspace d = false /\ d <> Youtube.dquote /\ d <> Youtube.squote.
Proof.
  unfold plain_path. destruct p as [|c s]; [discriminate|].
  destruct (rev (c :: s)) as [|d r] eqn:Hrev; [discriminate|].
  unfold path_edge.
  intros [[[Hc1 Hc2]%andb_true_iff Hc3]%andb_true_iff
          [[Hd1 Hd2]%andb_true_iff Hd3]%andb_true_iff]%andb_true_iff.
  apply negb_true_iff in Hc1, Hc2, Hc3, Hd1, Hd2, Hd3.
  apply N.eqb_neq in Hc2, Hc3, Hd2, Hd3.
  exists c, s, d, r. repeat split; assumption.
Qed.

Lemma startswith_app (prefix s : pystr) : startswith (prefix ++ s) prefix = true.
Proof.
  induction prefix as [|c prefix IH]; [destruct s; reflexivity|].
  cbn [app startswith]. rewrite N.eqb_refl. exact IH.
Qed.

Lemma strip_chars_id q c s d r :
  c <> q -> d <> q -> rev (c :: s) = d :: r ->
  Youtube.strip_chars [q] (c :: s) = c :: s.
Proof.
  intros Hc Hd Hrev.
  pose proof (strip_chars_trim q [] [] c s d r eq_refl eq_refl Hc Hd Hrev) as H.
  cbn [app] in H. rewrite app_nil_r in H. exact H.
Qed.

Lemma rev_wrapped (q : N) (t : pystr) :
  rev (q :: t ++ [q]) = q :: (rev t ++ [q]).
Proof. cbn [rev]. rewrite rev_unit. reflexivity. Qed.

(** The four strippings of quotation marks, on a path between two marks
    of the same kind. *)
Lemma strip_quotes_wrapped q c s d r :
  q = Youtube.dquote \/ q = Youtube.squote ->
  c <> Youtube.dquote -> c <> Youtube.squote ->
  d <> Youtube.dquote -> d <> Youtube.squote ->
  rev (c :: s) = d :: r ->
  Youtube.strip_chars [Youtube.squote] (Youtube.strip_chars [Youtube.dquote]
    (Youtube.strip_chars [Youtube.squote] (Youtube.strip_chars [Youtube.dquote]
      (q :: (c :: s) ++ [q])))) = c :: s.
Proof.
  intros Hq Hc2 Hc3 Hd2 Hd3 Hrev.
  assert (Hds : Youtube.dquote <> Youtube.squote) by discriminate.
  assert (Hwrap : forall q' : N, q' :: (c :: s) ++ [q'] = [q'] ++ (c :: s) ++ [q'])
    by reflexivity.
  destruct Hq as [-> | ->].
  - rewrite (Hwrap Youtube.dquote).
    rewrite (strip_chars_trim Youtube.dquote [Youtube.dquote] [Youtube.dquote] c s d r)
      by (reflexivity || assumption).
    rewrite (strip_chars_id Youtube.squote c s d r) by assumption.
    rewrite (strip_chars_id Youtube.dquote c s d r) by assumption.
    apply (strip_chars_id Youtube.squote c s d r); assumption.
  - rewrite (strip_chars_id Youtube.dquote Youtube.squote ((c :: s) ++ [Youtube.squote])
               Youtube.squote (rev (c :: s) ++ [Youtube.squote])).
    2,3: intros E; exact (Hds (eq_sym E)).
    2: apply rev_wrapped.
    rewrite (Hwrap Youtube.squote).
    rewrite (strip_chars_trim Youtube.squote [Youtube.squote] [Youtube.squote] c s d r)
      by (reflexivity || assumption).
    rewrite (strip_chars_id Youtube.dquote c s d r) by assumption.
    apply (strip_chars_id Youtube.squote c s d r); assumption.
Qed.

(** X15.  [clean_path_input] (Youtube script) gives back the path itself
    when the path was typed or dropped between two quotation marks of the
    same kind, double or single, with or without the [& ] that a shell puts
    before a dropped file, and with any white space around: the marks, the
    [& ] and the white space are taken off.  (The path is non-empty and
    neither begins nor ends with white space or a quotation mark.) *)
Theorem clean_path_input_unwraps_quoted_path
  (ws1 ws2 ws3 p : pystr) (q : N) (amp : bool) :
  forallb py_isspace ws1 = true -> forallb py_isspace ws2 = true ->
  forallb py_isspace ws3 = true ->
  q = Youtube.dquote \/ q = Youtube.squote ->
  plain_path p = true ->
  Youtube.clean_path_input
    (ws1 ++ (if amp then py "& " ++ ws3 else []) ++ [q] ++ p ++ [q] ++ ws2) = p.
Proof.
  intros Hw1 Hw2 Hw3 Hq Hp.
  destruct (plain_path_inv p Hp)
    as (c & s & d & r & -> & Hrev & Hc1 & Hc2 & Hc3 & Hd1 & Hd2 & Hd3).
  assert (Hamp : py "& " = [38; 32]) by (vm_compute; reflexivity).
  assert (Hqs : py_isspace q = false) by (destruct Hq as [-> | ->]; reflexivity).
  assert (Hq38 : (q =? 38) = false) by (destruct Hq as [-> | ->]; reflexivity).
  unfold Youtube.clean_path_input.
  rewrite bool_decide_eq_false_2.
  2:{ intros H. apply (f_equal (@length N)) in H.
      rewrite !length_app in H. cbn [length] in H. lia. }
  cbv zeta.
  destruct amp.
  - rewrite Hamp.
    replace (ws1 ++ ([38; 32] ++ ws3) ++ [q] ++ (c :: s) ++ [q] ++ ws2)
      with (ws1 ++ (38 :: (32 :: ws3 ++ q :: c :: s) ++ [q]) ++ ws2).
    2:{ cbn [app]. rewrite <- !app_assoc. reflexivity. }
    rewrite (py_strip_trim ws1 ws2 38 ((32 :: ws3 ++ q :: c :: s) ++ [q])
               q (rev (38 :: 32 :: ws3 ++ q :: c :: s)));
      [|assumption|assumption|reflexivity|assumption|].
    2:{ change (38 :: (32 :: ws3 ++ q :: c :: s) ++ [q])
          with ((38 :: 32 :: ws3 ++ q :: c :: s) ++ [q]).
        apply rev_unit. }
    change (38 :: (32 :: ws3 ++ q :: c :: s) ++ [q])
      with ([38; 32] ++ (ws3 ++ q :: c :: s) ++ [q]).
    rewrite startswith_app. cbn [app drop]. rewrite drop_0.
    replace ((ws3 ++ q :: c :: s) ++ [q]) with (ws3 ++ (q :: (c :: s) ++ [q]) ++ []).
    2:{ rewrite app_nil_r, <- app_assoc. reflexivity. }
    rewrite (py_strip_trim ws3 [] q ((c :: s) ++ [q]) q (rev (c :: s) ++ [q]));
      [|assumption|reflexivity|assumption|assumption|apply rev_wrapped].
    apply (strip_quotes_wrapped q c s d r); assumption.
  - replace (ws1 ++ [] ++ [q] ++ (c :: s) ++ [q] ++ ws2)
      with (ws1 ++ (q :: (c :: s) ++ [q]) ++ ws2).
    2:{ cbn [app]. rewrite <- !app_assoc. reflexivity. }
    rewrite (py_strip_trim ws1 ws2 q ((c :: s) ++ [q]) q (rev (c :: s) ++ [q]));
      [|assumption|assumption|assumption|assumption|apply rev_wrapped].
    rewrite Hamp. cbn [startswith]. rewrite Hq38. cbn [andb].
    apply (strip_quotes_wrapped q c s d r); assumption.
Qed.

Lemma clean_path_input_unwraps_quoted_path_witness :
  Youtube.clean_path_input
    ([32] ++ (py "& " ++ []) ++ [Youtube.squote] ++ py "C:\Users\j\Videos\my intro.mp4"
     ++ [Youtube.squote] ++ [32; 10])
  = py "C:\Users\j\Videos\my intro.mp4".
Proof.
  apply (clean_path_input_unwraps_quoted_path
           [32] [32; 10] [] (py "C:\Users\j\Videos\my intro.mp4") Youtube.squote true).
  - reflexivity.
  - reflexivity.
  - reflexivity.
  - right. reflexivity.
  - vm_compute. reflexivity.
Defined.

(** ** Matching *)

Section matching_facts.
Context {R : Type}.
Implicit Types (k : pystr -> option R) (K : pystr -> option pystr -> option R).

Lemma rmatch_RLit l s g K : rmatch (RLit l) (l ++ s) g K = K s g.
Proof.
  induction l as [|c l IH]; cbn [RLit rmatch app]; [reflexivity|].
  rewrite N.eqb_refl. exact IH.
Qed.

(** A literal does not match a text that begins with another character. *)
Lemma rmatch_RLit_fail c l s g K :
  match s with x :: _ => x <> c | [] => True end ->
  rmatch (RLit (c :: l)) s g K = None.
Proof.
  cbn [RLit rmatch]. destruct s as [|x s]; [reflexivity|].
  intros Hx. apply N.eqb_neq in Hx. rewrite Hx. reflexivity.
Qed.

(** A greedy star goes over the whole run of its class when what follows
    matches there. *)
Lemma star_greedy_run cls ws s k m :
  forallb cls ws = true ->
  match s with x :: _ => cls x = false | [] => True end ->
  k s = Some m ->
  star cls true (ws ++ s) k = Some m.
Proof.
  intros Hws Hs Hk. induction ws as [|c ws IH]; cbn [app].
  - destruct s as [|x s]; cbn [star]; [exact Hk|]. rewrite Hs. exact Hk.
  - cbn [forallb] in Hws. apply andb_true_iff in Hws as [Hc Hws].
    cbn [star]. rewrite Hc, (IH Hws). reflexivity.
Qed.

(** A greedy star followed by something that needs the character [c]
    first fails on a text in which a character outside the class comes
    before any [c]. *)
Lemma star_greedy_none cls c u v k :
  (forall t, match t with x :: _ => x <> c | [] => True end -> k t = None) ->
  free_of c u = true ->
  existsb (fun x => negb (cls x)) u = true ->
  star cls true (u ++ v) k = None.
Proof.
  intros Hk. induction u as [|x u IH]; cbn [free_of forallb existsb app]; [discriminate|].
  intros [Hx Hu]%andb_true_iff Hex.
  apply negb_true_iff, N.eqb_neq in Hx.
  cbn [star]. destruct (cls x) eqn:Hcls.
  - cbn [negb orb] in Hex. rewrite (IH Hu Hex). apply Hk. exact Hx.
  - apply Hk. exact Hx.
Qed.

(** A lazy star stops at the first place where what follows matches. *)
Lemma star_lazy_first cls u v k m :
  forallb cls u = true ->
  (forall u1 d, u = u1 ++ d -> d <> [] -> k (d ++ v) = None) ->
  k v = Some m ->
  star cls false (u ++ v) k = Some m.
Proof.
  intros Hu Hfail Hk. induction u as [|c u IH]; cbn [app].
  - destruct v as [|x v]; cbn [star]; [exact Hk|].
    destruct (cls x); rewrite ?Hk; reflexivity.
  - cbn [forallb] in Hu. apply andb_true_iff in Hu as [Hc Hu].
    cbn [star]. rewrite Hc.
    pose proof (Hfail [] (c :: u) eq_refl ltac:(discriminate)) as H0.
    cbn [app] in H0. rewrite H0.
    apply IH; [exact Hu|].
    intros u1 d -> Hd. apply (Hfail (c :: u1) d); [reflexivity|exact Hd].
Qed.

Lemma star_greedy_all_fail v k :
  (forall w1 t, v = w1 ++ t -> k t = None) ->
  star any_char true v k = None.
Proof.
  induction v as [|c v IH]; intros Hnone; cbn [star any_char].
  - apply (Hnone [] []). reflexivity.
  - rewrite IH.
    + apply (Hnone [] (c :: v)). reflexivity.
    + intros w1 t ->. apply (Hnone (c :: w1) t). reflexivity.
Qed.

(** A greedy star of any character gives back the longest text after
    which what follows matches. *)
Lemma star_greedy_last u v k m :
  (forall v1 t, v = v1 ++ t -> v1 <> [] -> k t = None) ->
  k v = Some m ->
  star any_char true (u ++ v) k = Some m.
Proof.
  intros Hfail Hk.
  assert (Hv : star any_char true v k = Some m).
  { destruct v as [|c v]; cbn [star any_char]; [exact Hk|].
    rewrite star_greedy_all_fail; [exact Hk|].
    intros w1 t ->. apply (Hfail (c :: w1) t); [reflexivity|discriminate]. }
  induction u as [|c u IH]; cbn [app]; [exact Hv|].
  cbn [star any_char]. rewrite IH. reflexivity.
Qed.
End matching_facts.

(** ** Extracting the JSON text of an answer *)

Lemma re_search_eq r s :
  re_search r s =
  match rmatch r s None (fun rest g => Some (take (length s - length rest) s, g)) with
  | Some m => Some m
  | None => match s with [] => None | _ :: s' => re_search r s' end
  end.
Proof. destruct s; reflexivity. Qed.

(** An expression that needs the character [c] first is not found in a
    text without [c], and is found in a longer text where it is found
    once a beginning without [c] is left out. *)
Lemma re_search_first_char r c s :
  (forall t g (K : pystr -> option pystr -> option (pystr * option pystr)),
     match t with x :: _ => x <> c | [] => True end -> rmatch r t g K = None) ->
  free_of c s = true ->
  re_search r s = None.
Proof.
  intros Hr. induction s as [|x s IH]; cbn [free_of forallb re_search].
  - intros _. rewrite Hr by exact I. reflexivity.
  - intros [Hx Hs]%andb_true_iff. apply negb_true_iff, N.eqb_neq in Hx.
    rewrite Hr by exact Hx. apply IH. exact Hs.
Qed.

Lemma re_search_skip r c pre s :
  (forall t g (K : pystr -> option pystr -> option (pystr * option pystr)),
     match t with x :: _ => x <> c | [] => True end -> rmatch r t g K = None) ->
  free_of c pre = true ->
  re_search r (pre ++ s) = re_search r s.
Proof.
  intros Hr. induction pre as [|x pre IH]; cbn [free_of forallb app]; [reflexivity|].
  intros [Hx Hs]%andb_true_iff. apply negb_true_iff, N.eqb_neq in Hx.
  cbn [re_search]. rewrite Hr by exact Hx. apply IH. exact Hs.
Qed.

Lemma fence_chars :
  py "```json" = [96; 96; 96; 106; 115; 111; 110] /\ py "```" = [96; 96; 96].
Proof. split; vm_compute; reflexivity. Qed.

Lemma fenced_json_first_char t g
    (K : pystr -> option pystr -> option (pystr * option pystr)) :
  match t with x :: _ => x <> 96 | [] => True end ->
  rmatch fenced_json t g K = None.
Proof.
  intros Ht. unfold fenced_json. cbn [rmatch].
  rewrite (proj1 fence_chars). apply rmatch_RLit_fail. exact Ht.
Qed.

Lemma json_array_first_char t g
    (K : pystr -> option pystr -> option (pystr * option pystr)) :
  match t with x :: _ => x <> 91 | [] => True end ->
  rmatch json_array t g K = None.
Proof.
  intros Ht. unfold json_array. cbn [rmatch].
  destruct t as [|x t]; [reflexivity|].
  apply N.eqb_neq in Ht. rewrite Ht. reflexivity.
Qed.

Lemma take_matched (m rest : pystr) :
  take (length (m ++ rest) - length rest) (m ++ rest) = m.
Proof.
  rewrite length_app.
  replace (length m + length rest - length rest)%nat with (length m) by lia.
  apply take_app_length.
Qed.

Lemma forallb_any_char s : forallb any_char s = true.
Proof. induction s; [reflexivity|exact IHs]. Qed.

(** A non-empty end of a text that does not end with white space holds a
    character that is not white space. *)
Lemma suffix_has_nonspace core d0 r u1 d :
  rev core = d0 :: r -> py_isspace d0 = false ->
  core = u1 ++ d -> d <> [] ->
  existsb (fun x => negb (py_isspace x)) d = true.
Proof.
  intros Hrev Hd0 -> Hd.
  rewrite rev_app_distr in Hrev.
  destruct (rev d) as [|l r'] eqn:Hrd.
  { exfalso. apply Hd. rewrite <- (rev_involutive d), Hrd. reflexivity. }
  cbn [app] in Hrev. injection Hrev as -> _.
  rewrite <- (rev_involutive d), Hrd. cbn [rev].
  rewrite existsb_app. cbn [existsb]. rewrite Hd0. cbn.
  apply orb_true_r.
Qed.

(** What comes after [```json]: the content of the fence is the shortest
    text that is followed by white space and the closing fence. *)
Lemma fenced_body_match {R} ws1 core ws2 post g0
    (K : pystr -> option pystr -> option R) m :
  forallb py_isspace ws1 = true -> forallb py_isspace ws2 = true ->
  free_of 96 core = true -> trimmed core = true ->
  K post (Some core) = Some m ->
  rmatch (RSeq (RStar py_isspace true)
            (RSeq (RGroup (RStar any_char false))
               (RSeq (RStar py_isspace true) (RLit [96; 96; 96]))))
    (ws1 ++ core ++ ws2 ++ [96; 96; 96] ++ post) g0 K = Some m.
Proof.
  intros Hw1 Hw2 Hfree Htrim HK.
  assert (Htail : forall g m', K post g = Some m' ->
            star py_isspace true (ws2 ++ [96; 96; 96] ++ post)
              (fun t => rmatch (RLit [96; 96; 96]) t g K) = Some m').
  { intros g m' Hg. apply star_greedy_run; [exact Hw2|reflexivity|].
    rewrite rmatch_RLit. exact Hg. }
  cbn [rmatch].
  destruct core as [|c cs].
  - cbn [app]. rewrite app_assoc.
    apply star_greedy_run; [|reflexivity|].
    { rewrite forallb_app, Hw1, Hw2. reflexivity. }
    apply (star_lazy_first any_char [] ([96; 96; 96] ++ post)); [reflexivity| |].
    + intros u1 d Hnil Hd. exfalso. apply Hd.
      destruct u1; [symmetry; exact Hnil|discriminate].
    + rewrite Nat.sub_diag. cbn [take].
      apply (star_greedy_run py_isspace [] ([96; 96; 96] ++ post));
        [reflexivity|reflexivity|].
      rewrite rmatch_RLit. exact HK.
  - unfold trimmed in Htrim.
    destruct (rev (c :: cs)) as [|d0 r] eqn:Hrev.
    { exfalso. apply (f_equal (@length N)) in Hrev.
      rewrite length_rev in Hrev. discriminate. }
    apply andb_true_iff in Htrim as [Hc Hd0].
    apply negb_true_iff in Hc, Hd0.
    apply star_greedy_run; [exact Hw1|exact Hc|].
    apply star_lazy_first; [apply forallb_any_char| |].
    + intros u1 d Hsplit Hd. cbv beta.
      apply (star_greedy_none py_isspace 96).
      * intros t Ht. apply rmatch_RLit_fail. exact Ht.
      * unfold free_of in Hfree |- *. rewrite Hsplit, forallb_app in Hfree.
        apply andb_true_iff in Hfree as [_ H]. exact H.
      * apply (suffix_has_nonspace (c :: cs) d0 r u1 d); assumption.
    + cbv beta. apply Htail. rewrite take_matched. exact HK.
Qed.

(** X16.  [safe_extract_json] on an answer that holds a fenced block,
    [```json ... ```]: it returns the content of the first such block
    without the white space around it, whatever comes before the block
    and after it.  (No backquote before the block nor inside the
    content.) *)
Theorem safe_extract_json_takes_fenced_content
  (pre ws1 core ws2 post : pystr) :
  free_of 96 pre = true ->
  forallb py_isspace ws1 = true -> forallb py_isspace ws2 = true ->
  free_of 96 core = true -> trimmed core = true ->
  safe_extract_json
    (pre ++ py "```json" ++ ws1 ++ core ++ ws2 ++ py "```" ++ post)
  = Some core.
Proof.
  intros Hpre Hw1 Hw2 Hfree Htrim.
  destruct fence_chars as [HJ HF]. rewrite HJ, HF.
  unfold safe_extract_json.
  rewrite bool_decide_eq_false_2.
  2:{ intros H. apply (f_equal (@length N)) in H.
      rewrite !length_app in H. cbn [length] in H. lia. }
  rewrite (re_search_skip fenced_json 96) by (exact fenced_json_first_char || exact Hpre).
  rewrite re_search_eq.
  set (s1 := ws1 ++ core ++ ws2 ++ [96; 96; 96] ++ post).
  set (s0 := [96; 96; 96; 106; 115; 111; 110] ++ s1).
  unfold fenced_json. rewrite HJ, HF. cbn [rmatch]. unfold s0 at 1.
  rewrite rmatch_RLit.
  pose proof (fenced_body_match ws1 core ws2 post None
                (fun rest g => Some (take (length s0 - length rest) s0, g))
                (take (length s0 - length post) s0, Some core)
                Hw1 Hw2 Hfree Htrim eq_refl) as Hbody.
  cbn [rmatch] in Hbody. fold s1 in Hbody. rewrite Hbody. reflexivity.
Qed.

Lemma safe_extract_json_takes_fenced_content_witness :
  safe_extract_json
    (py "Here is the list you asked for: " ++ py "```json" ++ [10]
     ++ py "[{'summary': 'a b'}]" ++ [10] ++ py "```" ++ py " Anything else?")
  = Some (py "[{'summary': 'a b'}]").
Proof.
  apply (safe_extract_json_takes_fenced_content
           (py "Here is the list you asked for: ") [10]
           (py "[{'summary': 'a b'}]") [10] (py " Anything else?"));
    vm_compute; reflexivity.
Defined.

(** X17.  [safe_extract_json] returns [None] for an empty answer, and an
    answer that holds neither a backquote nor an opening square bracket is
    returned as it is, without the white space around it. *)
Theorem safe_extract_json_strips_plain_text (text : pystr) :
  (text = [] -> safe_extract_json text = None) /\
  (text <> [] -> free_of 96 text = true -> free_of 91 text = true ->
   safe_extract_json text = Some (py_strip text)).
Proof.
  split.
  - intros ->. reflexivity.
  - intros Hne H96 H91. unfold safe_extract_json.
    rewrite bool_decide_eq_false_2 by exact Hne.
    rewrite (re_search_first_char fenced_json 96)
      by (exact fenced_json_first_char || exact H96).
    rewrite (re_search_first_char json_array 91)
      by (exact json_array_first_char || exact H91).
    reflexivity.
Qed.

Lemma safe_extract_json_strips_plain_text_witness :
  safe_extract_json (py "  {'summary': 'a b'}  ")
  = Some (py_strip (py "  {'summary': 'a b'}  ")).
Proof.
  apply (proj2 (safe_extract_json_strips_plain_text (py "  {'summary': 'a b'}  "))).
  - vm_compute. discriminate.
  - vm_compute. reflexivity.
  - vm_compute. reflexivity.
Defined.

Lemma space_is_not c x :
  py_isspace x = true -> py_isspace c = false -> (x =? c) = false.
Proof.
  intros Hx Hc. apply N.eqb_neq. intros ->. rewrite Hx in Hc. discriminate.
Qed.

Lemma spaces_free_of c ws :
  py_isspace c = false -> forallb py_isspace ws = true -> free_of c ws = true.
Proof.
  intros Hc Hws. unfold free_of. rewrite forallb_forall in Hws |- *.
  intros x Hx. rewrite (space_is_not c x (Hws x Hx) Hc). reflexivity.
Qed.

Lemma free_of_app c s t : free_of c (s ++ t) = free_of c s && free_of c t.
Proof. apply forallb_app. Qed.

(** In a text without [c], a greedy star followed by [c] finds nothing. *)
Lemma star_char_absent {R} cls c t g (K : pystr -> option pystr -> option R) :
  free_of c t = true ->
  star cls true t (fun u => rmatch (RChar c) u g K) = None.
Proof.
  induction t as [|x t IH]; cbn [free_of forallb star]; [reflexivity|].
  intros [Hx Ht]%andb_true_iff. apply negb_true_iff in Hx.
  destruct (cls x); rewrite ?(IH Ht); cbn [rmatch]; rewrite Hx; reflexivity.
Qed.

(** X18.  [safe_extract_json] on an answer without fenced block that holds
    an array of objects: it returns the text from the first opening square
    bracket to the last closing one, brackets included, whatever the array
    holds in between (further brackets and braces too) and whatever text
    surrounds it.  (The bracket is followed by an opening brace and the
    last closing bracket is preceded by a closing brace, white space
    apart.) *)
Theorem safe_extract_json_takes_outermost_array
  (pre ws1 body ws2 post : pystr) :
  free_of 96 (pre ++ body ++ post) = true ->
  free_of 91 pre = true -> free_of 93 post = true ->
  forallb py_isspace ws1 = true -> forallb py_isspace ws2 = true ->
  safe_extract_json
    (pre ++ [91] ++ ws1 ++ [123] ++ body ++ [125] ++ ws2 ++ [93] ++ post)
  = Some ([91] ++ ws1 ++ [123] ++ body ++ [125] ++ ws2 ++ [93]).
Proof.
  intros H96 Hpre Hpost Hw1 Hw2.
  rewrite !free_of_app in H96.
  apply andb_true_iff in H96 as [H96pre [H96body H96post]%andb_true_iff].
  unfold safe_extract_json.
  rewrite bool_decide_eq_false_2.
  2:{ intros H. apply (f_equal (@length N)) in H.
      rewrite !length_app in H. cbn [length] in H. lia. }
  rewrite (re_search_first_char fenced_json 96); [|exact fenced_json_first_char|].
  2:{ rewrite !free_of_app, H96pre, H96body, H96post.
      rewrite (spaces_free_of 96 ws1), (spaces_free_of 96 ws2)
        by (reflexivity || assumption).
      reflexivity. }
  rewrite (re_search_skip json_array 91) by (exact json_array_first_char || exact Hpre).
  rewrite re_search_eq.
  set (found := [91] ++ ws1 ++ [123] ++ body ++ [125] ++ ws2 ++ [93]).
  replace ([91] ++ ws1 ++ [123] ++ body ++ [125] ++ ws2 ++ [93] ++ post)
    with (found ++ post) by (unfold found; rewrite <- !app_assoc; reflexivity).
  set (K0 := fun (rest : pystr) (g : option pystr) =>
               Some (take (length (found ++ post) - length rest) (found ++ post), g)).
  assert (Hmatch : rmatch json_array (found ++ post) None K0
                   = Some (found, None)).
  { unfold found at 1. rewrite <- !app_assoc. cbn [app].
    unfold json_array. cbn [rmatch]. rewrite N.eqb_refl.
    apply star_greedy_run; [exact Hw1|reflexivity|].
    cbn [rmatch]. rewrite N.eqb_refl.
    apply star_greedy_last.
    - intros v1 t Hsplit Hv1.
      destruct v1 as [|x v1]; [exfalso; exact (Hv1 eq_refl)|].
      cbn [app] in Hsplit. injection Hsplit as _ Hsplit.
      change (ws2 ++ 93 :: post) with (ws2 ++ [93] ++ post) in Hsplit.
      destruct t as [|y t]; [reflexivity|].
      cbn [rmatch].
      destruct (N.eqb_spec y 125) as [->|Hy]; [|reflexivity].
      apply star_char_absent.
      apply app_eq_app in Hsplit as [l [[Hws Ht]|[_ Ht]]].
      + exfalso. destruct l as [|z l]; cbn [app] in Ht; [discriminate|].
        injection Ht as <- _.
        rewrite Hws, forallb_app in Hw2. apply andb_true_iff in Hw2 as [_ Hw2].
        cbn [forallb] in Hw2. apply andb_true_iff in Hw2 as [Hw2 _].
        discriminate.
      + destruct l as [|z l]; cbn [app] in Ht; [discriminate|].
        injection Ht as _ Ht. subst post.
        rewrite free_of_app in Hpost.
        apply andb_true_iff in Hpost as [_ Hpost].
        cbn [free_of forallb] in Hpost.
        apply andb_true_iff in Hpost as [_ Hpost]. exact Hpost.
    - cbn [rmatch]. rewrite N.eqb_refl.
      apply star_greedy_run; [exact Hw2|reflexivity|].
      cbn [rmatch]. rewrite N.eqb_refl. unfold K0.
      rewrite take_matched. reflexivity. }
  fold K0. rewrite Hmatch. reflexivity.
Qed.

Lemma safe_extract_json_takes_outermost_array_witness :
  safe_extract_json
    (py "Sure: " ++ [91] ++ [10] ++ [123] ++ py "'a': [1]}, {'b': 2" ++ [125]
     ++ [10] ++ [93] ++ py " and more } text")
  = Some ([91] ++ [10] ++ [123] ++ py "'a': [1]}, {'b': 2" ++ [125] ++ [10] ++ [93]).
Proof.
  apply (safe_extract_json_takes_outermost_array
           (py "Sure: ") [10] (py "'a': [1]}, {'b': 2") [10] (py " and more } text"));
    vm_compute; reflexivity.
Defined.

(** ** The scripts of the PPT flow *)

Lemma generate_scripts_from_length gemini i image_paths :
  length (PPT.generate_scripts_from gemini i image_paths) = length image_paths.
Proof.
  revert i. induction image_paths as [|p ps IH]; intros i; cbn; [reflexivity|].
  rewrite IH. reflexivity.
Qed.

Lemma generate_scripts_from_failed gemini i image_paths j path e :
  image_paths !! j = Some path -> gemini (i + j)%nat path = Raise e ->
  PPT.generate_scripts_from gemini i image_paths !! j
  = Some (py "第 " ++ py_str_nat (i + j + 1) ++ py " 頁內容生成失敗，請手動補充。").
Proof.
  revert i j. induction image_paths as [|p ps IH]; intros i [|j];
    cbn [PPT.generate_scripts_from]; try discriminate.
  - intros [= ->]. rewrite Nat.add_0_r. intros ->. reflexivity.
  - intros Hj Hg.
    change (PPT.generate_scripts_from gemini (S i) ps !! j
            = Some (py "第 " ++ py_str_nat (i + S j + 1)
                    ++ py " 頁內容生成失敗，請手動補充。")).
    replace (i + S j)%nat with (S i + j)%nat in Hg |- * by lia.
    apply (IH (S i) j Hj Hg).
Qed.

(** X19.  The PPT flow hands [create_full_video] the slides and the
    scripts that [generate_scripts] made of them.  [generate_scripts]
    gives one script for every slide, whatever Gemini does; a slide for
    which Gemini raises gets the text that asks to fill in page [i + 1] by
    hand.  So pairing slides and scripts drops nothing: once the uploads
    have succeeded, the payload that is submitted has one scene for every
    slide, the [i]-th with the script made for slide [i]. *)
Theorem generated_scripts_cover_every_slide
  (gemini : nat -> pystr -> outcome (option pystr)) (slides : list pystr) (w : world) :
  let scripts := PPT.generate_scripts gemini slides in
  length scripts = length slides /\
  (forall i path e,
     slides !! i = Some path -> gemini i path = Raise e ->
     scripts !! i
     = Some (py "第 " ++ py_str_nat (i + 1) ++ py " 頁內容生成失敗，請手動補充。")) /\
  (forall scenes w1,
     PPT.build_scenes (zip slides scripts) w = (Ok scenes, w1) ->
     exists req res,
       PPT.create_full_video slides scripts w
       = (PPT_submit_result res, after w1 1 [EHttp req res]) /\
       video_inputs req = Some scenes /\
       length scenes = length slides /\
       forall i script, scripts !! i = Some script ->
         exists scene,
           scenes !! i = Some scene /\ input_text scene = Some (JStr script)).
Proof.
  intros scripts.
  assert (Hlen : length scripts = length slides)
    by apply generate_scripts_from_length.
  split; [exact Hlen|]. split.
  - intros i path e Hi Hg.
    apply (generate_scripts_from_failed gemini 0 slides i path e Hi Hg).
  - intros scenes w1 Hrun.
    destruct (PPT_build_scenes_spec _ _ _ _ Hrun) as [Hn Hscene].
    eexists _, _.
    split; [rewrite PPT_create_eq, Hrun; reflexivity|].
    split; [apply video_inputs_PPT|].
    split; [rewrite Hn, length_zip, Hlen; apply Nat.min_id|].
    intros i script Hi.
    destruct (lookup_lt_is_Some_2 slides i) as [path Hpath].
    { rewrite <- Hlen. apply (lookup_lt_Some _ _ _ Hi). }
    destruct (Hscene i path script) as (scene & id & Hs & _ & Htext).
    { apply lookup_zip_with_Some. exists path, script. auto. }
    exists scene. split; assumption.
Qed.

Lemma generated_scripts_cover_every_slide_witness :
  let gemini : nat -> pystr -> outcome (option pystr) :=
    fun i _ => match i with
               | O => Ok (Some (py " Welcome to the course. "))
               | _ => Raise RequestException
               end in
  let slides := [py "outputs/slide_1.png"; py "outputs/slide_2.png"] in
  let w := scripted [upload_reply "asset-1"; upload_reply "asset-2";
                     generate_reply "video-1"] in
  let scripts := PPT.generate_scripts gemini slides in
  length scripts = length slides /\
  (forall i path e,
     slides !! i = Some path -> gemini i path = Raise e ->
     scripts !! i
     = Some (py "第 " ++ py_str_nat (i + 1) ++ py " 頁內容生成失敗，請手動補充。")) /\
  (forall scenes w1,
     PPT.build_scenes (zip slides scripts) w = (Ok scenes, w1) ->
     exists req res,
       PPT.create_full_video slides scripts w
       = (PPT_submit_result res, after w1 1 [EHttp req res]) /\
       video_inputs req = Some scenes /\
       length scenes = length slides /\
       forall i script, scripts !! i = Some script ->
         exists scene,
           scenes !! i = Some scene /\ input_text scene = Some (JStr script)).
Proof.
  intros gemini slides w.
  apply (generated_scripts_cover_every_slide gemini slides w).
Defined.

(** ** From ASS to SRT *)

Lemma datetime_add_Some dt delta r :
  PPT.datetime_add dt delta = Some r ->
  r = (dt + delta)%Z /\ (PPT.datetime_min <= r <= PPT.datetime_max)%Z.
Proof.
  unfold PPT.datetime_add. cbv zeta.
  destruct (_ && _)%Z eqn:Hrange; [|discriminate].
  intros [= <-]. apply andb_true_iff in Hrange as [H1 H2].
  apply Z.leb_le in H1, H2. auto.
Qed.

(** X20.  Whatever the line and the offset, an event that
    [convert_ass_to_srt] keeps never starts or ends before
    [0:00:00]: a time that the offset moves before it is put at it.  The
    offset keeps the order of the two times: when the start read from the
    line is not after the end read from it, the same holds of the event. *)
Theorem subtitle_times_not_before_zero_and_in_order
  (py_int : pystr -> option Z) (delta : Z) (line : pystr) (e : PPT.srt_event) :
  PPT.dialogue_event py_int delta line = Some e ->
  (0 <= PPT.ev_start e <= PPT.datetime_max)%Z /\
  (0 <= PPT.ev_end e <= PPT.datetime_max)%Z /\
  ((PPT.parse_ass_time py_int (ass_field 1 line)
    <= PPT.parse_ass_time py_int (ass_field 2 line))%Z ->
   (PPT.ev_start e <= PPT.ev_end e)%Z).
Proof.
  unfold PPT.dialogue_event, ass_field.
  destruct (startswith line (py "Dialogue:")); [|discriminate].
  cbv zeta. destruct (length _ <? 10)%nat; [discriminate|].
  destruct (PPT.py_split_max 44 9 line !! 1%nat) as [f1|]; [|discriminate].
  destruct (PPT.py_split_max 44 9 line !! 2%nat) as [f2|]; [|discriminate].
  destruct (PPT.py_split_max 44 9 line !! 9%nat) as [f9|]; [|discriminate].
  cbn [fmap option_fmap option_map mbind option_bind default from_option id].
  destruct (PPT.datetime_add (PPT.parse_ass_time py_int (py_strip f1)) delta)
    as [t1|] eqn:H1; [|discriminate].
  destruct (PPT.datetime_add (PPT.parse_ass_time py_int (py_strip f2)) delta)
    as [t2|] eqn:H2; [|discriminate].
  cbn [mbind option_bind].
  apply datetime_add_Some in H1 as [-> [_ Hmax1]].
  apply datetime_add_Some in H2 as [-> [_ Hmax2]].
  intros [= <-]. cbn [PPT.ev_start PPT.ev_end].
  unfold PPT.base_time, PPT.datetime_max in *.
  repeat match goal with |- context [(?a <? 0)%Z] =>
    destruct (Z.ltb_spec a 0) end; lia.
Qed.

Lemma subtitle_times_not_before_zero_and_in_order_witness :
  let line := py "Dialogue: 0,0:00:01.00,0:00:03.00,Default,,0,0,0,,Hello\Nworld" in
  let e := PPT.SrtEvent 0 1700000 (py "Hello" ++ [10] ++ py "world") in
  (0 <= PPT.ev_start e <= PPT.datetime_max)%Z /\
  (0 <= PPT.ev_end e <= PPT.datetime_max)%Z /\
  ((PPT.parse_ass_time ascii_int (ass_field 1 line)
    <= PPT.parse_ass_time ascii_int (ass_field 2 line))%Z ->
   (PPT.ev_start e <= PPT.ev_end e)%Z).
Proof.
  intros line e.
  apply (subtitle_times_not_before_zero_and_in_order ascii_int (-1300000) line e).
  vm_compute. reflexivity.
Defined.

(** X21.  A captions file in which no line is a [Dialogue:] line of at
    least ten fields (a file that is SRT already, for one) is left as it
    is: [convert_ass_to_srt] writes nothing.  When it does write, some
    line of the file begins with [Dialogue:] and what is written is three
    texts for every event kept, the first of them the number of the
    event, counted from 1. *)
Theorem captions_without_dialogue_are_left_alone
  (py_int : pystr -> option Z) (delta : Z) (lines : list pystr) :
  (forallb (fun line => negb (startswith line (py "Dialogue:"))
                        || (length (PPT.py_split_max 44 9 line) <? 10)%nat) lines
   = true ->
   PPT.convert_lines py_int delta lines = None) /\
  (forall writes,
     PPT.convert_lines py_int delta lines = Some writes ->
     existsb (fun line => startswith line (py "Dialogue:")) lines = true /\
     exists srt_events,
       srt_events = omap (PPT.dialogue_event py_int delta) lines /\
       length writes = (3 * length srt_events)%nat /\
       forall k event, srt_events !! k = Some event ->
         writes !! (3 * k)%nat = Some (py_str_nat (k + 1) ++ [13; 10])).
Proof.
  assert (Hnone : forall line,
    negb (startswith line (py "Dialogue:"))
    || (length (PPT.py_split_max 44 9 line) <? 10)%nat = true ->
    PPT.dialogue_event py_int delta line = None).
  { intros line H. unfold PPT.dialogue_event.
    destruct (startswith line (py "Dialogue:")); [|reflexivity].
    cbn [negb orb] in H. cbv zeta. rewrite H. reflexivity. }
  assert (Hwrites : forall events idx,
    length (PPT.srt_writes idx events) = (3 * length events)%nat /\
    forall k event, events !! k = Some event ->
      PPT.srt_writes idx events !! (3 * k)%nat
      = Some (py_str_nat (idx + k) ++ [13; 10])).
  { induction events as [|ev events IH]; intros idx.
    - split; [reflexivity|]. intros k event [=].
    - destruct (IH (S idx)) as [IHlen IHget].
      split; [cbn [PPT.srt_writes PPT.srt_block app length]; rewrite IHlen; lia|].
      intros [|k] event Hk.
      + rewrite Nat.add_0_r. reflexivity.
      + replace (3 * S k)%nat with (S (S (S (3 * k)))) by lia.
        cbn [PPT.srt_writes PPT.srt_block app].
        change (PPT.srt_writes (S idx) events !! (3 * k)%nat
                = Some (py_str_nat (idx + S k) ++ [13; 10])).
        replace (idx + S k)%nat with (S idx + k)%nat by lia.
        apply (IHget k event). exact Hk. }
  split.
  - intros Hall. unfold PPT.convert_lines.
    replace (omap (PPT.dialogue_event py_int delta) lines) with (@nil PPT.srt_event);
      [reflexivity|].
    symmetry. induction lines as [|line lines IH]; [reflexivity|].
    cbn [forallb] in Hall. apply andb_true_iff in Hall as [Hline Hall].
    cbn [omap list_omap]. rewrite (Hnone line Hline). apply IH. exact Hall.
  - intros writes. unfold PPT.convert_lines.
    destruct (omap (PPT.dialogue_event py_int delta) lines) as [|ev events] eqn:Hev;
      [discriminate|].
    intros [= <-]. split.
    + destruct (existsb _ lines) eqn:Hex; [reflexivity|]. exfalso.
      assert (Hnil : omap (PPT.dialogue_event py_int delta) lines = []).
      { clear Hev. induction lines as [|line lines IH]; [reflexivity|].
        cbn [existsb] in Hex. apply orb_false_iff in Hex as [Hline Hex].
        cbn [omap list_omap]. rewrite (Hnone line), (IH Hex); [reflexivity|].
        rewrite Hline. reflexivity. }
      rewrite Hnil in Hev. discriminate.
    + exists (ev :: events). split; [reflexivity|].
      destruct (Hwrites (ev :: events) 1%nat) as [Hlen Hget].
      split; [exact Hlen|].
      intros k event Hk. replace (k + 1)%nat with (1 + k)%nat by lia.
      exact (Hget k event Hk).
Qed.

Lemma captions_without_dialogue_are_left_alone_witness :
  PPT.convert_lines ascii_int (-1300000)
    [py "1"; py "00:00:00,000 --> 00:00:02,000"; py "Hello"; [];
     py "Dialogue: no fields here"]
  = None.
Proof.
  apply (proj1 (captions_without_dialogue_are_left_alone ascii_int (-1300000)
    [py "1"; py "00:00:00,000 --> 00:00:02,000"; py "Hello"; [];
     py "Dialogue: no fields here"])).
  vm_compute. reflexivity.
Defined.

Ltac zdiv := Z.div_mod_to_equations; lia.

Lemma py_split_free sep u :
  free_of sep u = true -> PPT.py_split sep u = [u].
Proof.
  induction u as [|c u IH]; cbn [free_of forallb PPT.py_split]; [reflexivity|].
  intros [Hc Hu]%andb_true_iff. apply negb_true_iff in Hc.
  rewrite Hc, (IH Hu). reflexivity.
Qed.

Lemma py_split_app sep u v :
  free_of sep u = true ->
  PPT.py_split sep (u ++ sep :: v) = u :: PPT.py_split sep v.
Proof.
  induction u as [|c u IH]; cbn [free_of forallb PPT.py_split app].
  - intros _. rewrite N.eqb_refl. reflexivity.
  - intros [Hc Hu]%andb_true_iff. apply negb_true_iff in Hc.
    rewrite Hc, (IH Hu). reflexivity.
Qed.

Lemma two_digits_free_of sep n :
  (0 <= n < 100)%Z -> sep = 58 \/ sep = 46 ->
  free_of sep (PPT.two_digits n) = true.
Proof.
  intros Hn Hsep. unfold free_of, PPT.two_digits. cbn [forallb].
  assert (H1 : (Z.to_N (48 + n / 10) =? sep) = false)
    by (apply N.eqb_neq; destruct Hsep as [-> | ->]; zdiv).
  assert (H2 : (Z.to_N (48 + n mod 10) =? sep) = false)
    by (apply N.eqb_neq; destruct Hsep as [-> | ->]; zdiv).
  rewrite H1, H2. reflexivity.
Qed.

(** X22.  A time of the ASS form [h:mm:ss.cc] (hours below ten, two
    digits for the minutes, the seconds and the hundredths) is read by
    [parse_ass_time] as that many hours, minutes, seconds and hundredths
    after [0:00:00], and [convert_ass_to_srt] writes it in the SRT form
    [0h:mm:ss,cc0]: the same digits, with the hours on two digits and the
    hundredths as thousandths. *)
Theorem ass_time_is_rewritten_as_srt_time
  (py_int : pystr -> option Z) (h m s cs : Z) :
  (0 <= h <= 9)%Z -> (0 <= m < 60)%Z -> (0 <= s < 60)%Z -> (0 <= cs < 100)%Z ->
  py_int [digit h] = Some h ->
  py_int (PPT.two_digits m) = Some m ->
  py_int (PPT.two_digits s) = Some s ->
  py_int (PPT.two_digits cs) = Some cs ->
  let time_str := [digit h] ++ [58] ++ PPT.two_digits m ++ [58]
                  ++ PPT.two_digits s ++ [46] ++ PPT.two_digits cs in
  PPT.parse_ass_time py_int time_str
  = (((h * 60 + m) * 60 + s) * 1000000 + cs * 10000)%Z /\
  PPT.strftime_ms (PPT.parse_ass_time py_int time_str)
  = [48; digit h] ++ [58] ++ PPT.two_digits m ++ [58]
    ++ PPT.two_digits s ++ [44] ++ PPT.two_digits cs ++ [48].
Proof.
  intros Hh Hm Hs Hcs Ih Im Is Ics time_str.
  assert (Hparse : PPT.parse_ass_time py_int time_str
                   = (((h * 60 + m) * 60 + s) * 1000000 + cs * 10000)%Z).
  { unfold PPT.parse_ass_time, time_str. cbv zeta.
    assert (Hd : free_of 58 [digit h] = true).
    { unfold free_of, digit. cbn [forallb].
      assert ((Z.to_N (48 + h) =? 58) = false) as -> by (apply N.eqb_neq; lia).
      reflexivity. }
    change ([digit h] ++ [58] ++ PPT.two_digits m ++ [58]
            ++ PPT.two_digits s ++ [46] ++ PPT.two_digits cs)
      with ([digit h] ++ 58 :: (PPT.two_digits m ++ 58
            :: (PPT.two_digits s ++ 46 :: PPT.two_digits cs))).
    rewrite (py_split_app 58 [digit h]) by exact Hd.
    rewrite (py_split_app 58 (PPT.two_digits m)) by (apply two_digits_free_of; [lia|auto]).
    rewrite (py_split_free 58).
    2:{ unfold free_of. rewrite forallb_app. fold (free_of 58 (PPT.two_digits s)).
        rewrite two_digits_free_of by (lia || auto). cbn [forallb andb negb N.eqb Pos.eqb].
        fold (free_of 58 (PPT.two_digits cs)).
        rewrite two_digits_free_of by (lia || auto). reflexivity. }
    cbn [lookup list_lookup mbind option_bind]. rewrite Ih.
    cbn [mbind option_bind]. rewrite Im. cbn [mbind option_bind].
    rewrite (py_split_app 46 (PPT.two_digits s)) by (apply two_digits_free_of; [lia|auto]).
    rewrite (py_split_free 46) by (apply two_digits_free_of; [lia|auto]).
    cbn [lookup list_lookup mbind option_bind]. rewrite Is.
    cbn [mbind option_bind]. rewrite Ics. cbn [mbind option_bind].
    assert (Hvalid : ((0 <=? h) && (h <=? 23) && (0 <=? m) && (m <=? 59)
                      && (0 <=? s) && (s <=? 59))%Z = true).
    { repeat (apply andb_true_intro; split); apply Z.leb_le; lia. }
    rewrite Hvalid. unfold PPT.datetime_add. cbv zeta.
    assert (Hrange : ((PPT.datetime_min
                       <=? ((h * 60 + m) * 60 + s) * 1000000 + cs * 10 * 1000)
                      && (((h * 60 + m) * 60 + s) * 1000000 + cs * 10 * 1000
                          <=? PPT.datetime_max))%Z = true).
    { unfold PPT.datetime_min, PPT.datetime_max.
      apply andb_true_intro. split; apply Z.leb_le; lia. }
    rewrite Hrange. cbn [default from_option id]. lia. }
  split; [exact Hparse|].
  rewrite Hparse. unfold PPT.strftime_ms. cbv zeta.
  set (T := (((h * 60 + m) * 60 + s) * 1000000 + cs * 10000)%Z).
  assert (HH : ((T / 1000000 / 3600) mod 24 = h)%Z) by (unfold T; zdiv).
  assert (HM : ((T / 1000000 / 60) mod 60 = m)%Z) by (unfold T; zdiv).
  assert (HS : ((T / 1000000) mod 60 = s)%Z) by (unfold T; zdiv).
  assert (HF : (T mod 1000000 / 1000 = cs * 10)%Z) by (unfold T; zdiv).
  rewrite HH, HM, HS, HF.
  unfold PPT.two_digits at 1, PPT.three_digits, digit.
  assert (E1 : (h / 10 = 0)%Z) by zdiv.
  assert (E2 : (h mod 10 = h)%Z) by zdiv.
  assert (E3 : (cs * 10 / 100 = cs / 10)%Z) by zdiv.
  assert (E4 : ((cs * 10 / 10) mod 10 = cs mod 10)%Z) by zdiv.
  assert (E5 : ((cs * 10) mod 10 = 0)%Z) by zdiv.
  rewrite E1, E2, E3, E4, E5. reflexivity.
Qed.

Lemma ass_time_is_rewritten_as_srt_time_witness :
  let time_str := [digit 1] ++ [58] ++ PPT.two_digits 2 ++ [58]
                  ++ PPT.two_digits 3 ++ [46] ++ PPT.two_digits 45 in
  PPT.parse_ass_time ascii_int time_str
  = (((1 * 60 + 2) * 60 + 3) * 1000000 + 45 * 10000)%Z /\
  PPT.strftime_ms (PPT.parse_ass_time ascii_int time_str)
  = [48; digit 1] ++ [58] ++ PPT.two_digits 2 ++ [58]
    ++ PPT.two_digits 3 ++ [44] ++ PPT.two_digits 45 ++ [48].
Proof.
  apply (ass_time_is_rewritten_as_srt_time ascii_int 1 2 3 45);
    first [lia | vm_compute; reflexivity].
Defined.

(** ** The captions of the PPT script *)

Lemma PPT_fetch_caption_eq splitext c out w :
  PPT.fetch_caption splitext c out w =
  if truthy c then
    match c with
    | JStr u =>
      match http w (clock w) (get_request u) with
      | Ok sub_resp =>
        let content_text := py_strip (text sub_resp) in
        if startswith content_text (py "WEBVTT") then
          let vtt := (splitext out).1 ++ py ".vtt" in
          match open_error w vtt with
          | Some _ => (Ok tt, after w 1 [EHttp (get_request u) (Ok sub_resp)])
          | None =>
            (Ok tt, after w 1 [EHttp (get_request u) (Ok sub_resp);
                               EOpen vtt (WText (py "utf-8"));
                               EWriteText vtt content_text])
          end
        else
          let srt := (splitext out).1 ++ py ".srt" in
          match open_error w srt with
          | Some _ => (Ok tt, after w 1 [EHttp (get_request u) (Ok sub_resp)])
          | None =>
            (Ok tt, after w 1 [EHttp (get_request u) (Ok sub_resp);
                               EOpen srt (WText (py "utf-8-sig"));
                               EWriteText srt content_text;
                               EConvertAssToSrt srt])
          end
      | Raise e => (Ok tt, after w 1 [EHttp (get_request u) (Raise e)])
      end
    | _ => (Ok tt, w)
    end
  else (Ok tt, w).
Proof.
  unfold PPT.fetch_caption.
  destruct (truthy c); [|reflexivity].
  unfold PPT.save_caption, requests_get_value.
  destruct c; io_unfold; try reflexivity.
  fold (get_request s).
  destruct (http w (clock w) (get_request s)) as [resp|e] eqn:E.
  - cbv zeta.
    destruct (startswith (py_strip (text resp)) (py "WEBVTT"));
      unfold PPT.convert_ass_to_srt; world_norm;
      destruct (open_error w _); world_norm; reflexivity.
  - world_norm. reflexivity.
Qed.

(** The turn of the PPT loop that sees [completed] and gets the video. *)
Lemma PPT_turn_video_fetched splitext vid out w vurl rv :
  let sreq := status_request (api_key w) vid in
  let res := http w (clock w) sreq in
  reports res "completed" ->
  data_field res "video_url" = JStr vurl -> vurl <> [] ->
  open_error w out = None ->
  http w (clock w + 1)%nat (get_request vurl) = Ok rv ->
  PPT.loop_body splitext vid out w =
  match PPT.fetch_caption splitext (data_field res "caption_url") out
          (after w 2 [EHttp sreq res; EHttp (get_request vurl) (Ok rv);
                      EOpen out WB; EWrite out (content rv)]) with
  | (_, w3) => (Ok Break, w3)
  end.
Proof.
  intros sreq res Hc Hv Hvne Hopen Hrv. subst res sreq.
  unfold PPT.loop_body, try_except.
  pose proof (PPT_attempt_eq splitext vid out w) as H. cbv zeta in H.
  rewrite H. clear H.
  destruct (PPT_observe_reports _ _ Hc) as (inner & -> & Hget).
  rewrite is_str_py_true, PPT_on_completed_eq, !Hget, PPT_fetch_video_eq.
  rewrite Hv, (truthy_nonempty_str _ Hvne). world_norm. rewrite Hrv, Hopen.
  world_norm.
  match goal with |- context [PPT.fetch_caption _ ?c _ ?w2] =>
    destruct (PPT_caption_events splitext (status_request (api_key w) vid) c out w2)
      as (k & evs & Heq & _) end.
  rewrite Heq. reflexivity.
Qed.

(** X23.  In the PPT script a failure of the captions never fails the
    download.  After a [completed] reply and a video that was fetched and
    written (the output file can be opened), a request for the captions
    that raises is swallowed:
    [download_video] returns normally, the video file is there, and no
    captions file is created or converted. *)
Theorem PPT_caption_failure_is_swallowed
  (splitext : pystr -> pystr * pystr) (fuel n : nat) (vid out : pystr)
  (w wn : world) (vurl curl : pystr) (rv : response) (e : exn) :
  let sreq := status_request (api_key wn) vid in
  let res := http wn (clock wn) sreq in
  turns n (PPT.loop_body splitext vid out) w = Some wn -> (n < fuel)%nat ->
  reports res "completed" ->
  data_field res "video_url" = JStr vurl -> vurl <> [] ->
  data_field res "caption_url" = JStr curl -> curl <> [] ->
  open_error wn out = None ->
  http wn (clock wn + 1)%nat (get_request vurl) = Ok rv ->
  http wn (clock wn + 2)%nat (get_request curl) = Raise e ->
  PPT.download_video splitext fuel vid out w =
  Some (Ok tt, after wn 3
    [EHttp sreq res;
     EHttp (get_request vurl) (Ok rv); EOpen out WB; EWrite out (content rv);
     EHttp (get_request curl) (Raise e)]).
Proof.
  intros sreq res Hturns Hfuel Hc Hv Hvne Hcap Hcne Hopen Hrv Hrc. subst res sreq.
  unfold PPT.download_video.
  apply (while_true_leaves n) with (wn := wn); [exact Hturns|exact Hfuel|].
  left. split; [|reflexivity].
  rewrite (PPT_turn_video_fetched splitext vid out wn vurl rv Hc Hv Hvne Hopen Hrv).
  rewrite PPT_fetch_caption_eq, Hcap, (truthy_nonempty_str _ Hcne). world_norm.
  rewrite Hrc. world_norm. reflexivity.
Qed.

Lemma PPT_caption_failure_is_swallowed_witness :
  let w := scripted [
    Ok (status_reply [(py "status", JStr (py "completed"));
                      (py "video_url", JStr (py "https://files.heygen.ai/v.mp4"));
                      (py "caption_url", JStr (py "https://files.heygen.ai/v.ass"))]);
    Ok (file_reply [0; 0; 0; 24]);
    Raise RequestException] in
  let out := py "outputs/final_output.mp4" in
  let sreq := status_request (api_key w) (py "v1") in
  let vurl := py "https://files.heygen.ai/v.mp4" in
  let curl := py "https://files.heygen.ai/v.ass" in
  PPT.download_video example_splitext 1 (py "v1") out w =
  Some (Ok tt, after w 3
    [EHttp sreq (http w (clock w) sreq);
     EHttp (get_request vurl) (Ok (file_reply [0; 0; 0; 24])); EOpen out WB;
     EWrite out (content (file_reply [0; 0; 0; 24]));
     EHttp (get_request curl) (Raise RequestException)]).
Proof.
  intros w out sreq vurl curl.
  apply (PPT_caption_failure_is_swallowed example_splitext 1 0 (py "v1") out w w
           vurl curl (file_reply [0; 0; 0; 24]) RequestException).
  - reflexivity.
  - lia.
  - vm_compute. reflexivity.
  - vm_compute. reflexivity.
  - vm_compute. discriminate.
  - vm_compute. reflexivity.
  - vm_compute. discriminate.
  - vm_compute. reflexivity.
  - vm_compute. reflexivity.
  - vm_compute. reflexivity.
Defined.

(** X24.  How the PPT script stores the captions it has fetched, after
    the video, when the files can be opened.  The text of the reply is
    stripped.  When it begins with
    [WEBVTT] it is written as it is to the output path with the extension
    replaced by [.vtt] (encoding utf-8) and not converted; otherwise it is
    written to the output path with the extension replaced by [.srt]
    (encoding utf-8-sig) and that file is then handed to
    [convert_ass_to_srt].  Either way [download_video] returns. *)
Theorem PPT_captions_stored_by_format
  (splitext : pystr -> pystr * pystr) (fuel n : nat) (vid out : pystr)
  (w wn : world) (vurl curl : pystr) (rv rc : response) :
  let sreq := status_request (api_key wn) vid in
  let res := http wn (clock wn) sreq in
  let content_text := py_strip (text rc) in
  let root := (splitext out).1 in
  turns n (PPT.loop_body splitext vid out) w = Some wn -> (n < fuel)%nat ->
  reports res "completed" ->
  data_field res "video_url" = JStr vurl -> vurl <> [] ->
  data_field res "caption_url" = JStr curl -> curl <> [] ->
  open_error wn out = None ->
  open_error wn (root ++ if startswith content_text (py "WEBVTT")
                         then py ".vtt" else py ".srt") = None ->
  http wn (clock wn + 1)%nat (get_request vurl) = Ok rv ->
  http wn (clock wn + 2)%nat (get_request curl) = Ok rc ->
  PPT.download_video splitext fuel vid out w =
  Some (Ok tt, after wn 3
    ([EHttp sreq res;
      EHttp (get_request vurl) (Ok rv); EOpen out WB; EWrite out (content rv);
      EHttp (get_request curl) (Ok rc)] ++
     if startswith content_text (py "WEBVTT") then
       [EOpen (root ++ py ".vtt") (WText (py "utf-8"));
        EWriteText (root ++ py ".vtt") content_text]
     else
       [EOpen (root ++ py ".srt") (WText (py "utf-8-sig"));
        EWriteText (root ++ py ".srt") content_text;
        EConvertAssToSrt (root ++ py ".srt")])).
Proof.
  intros sreq res content_text root Hturns Hfuel Hc Hv Hvne Hcap Hcne Hopen Hopen2
    Hrv Hrc.
  subst res sreq content_text root.
  unfold PPT.download_video.
  apply (while_true_leaves n) with (wn := wn); [exact Hturns|exact Hfuel|].
  left. split; [|reflexivity].
  rewrite (PPT_turn_video_fetched splitext vid out wn vurl rv Hc Hv Hvne Hopen Hrv).
  rewrite PPT_fetch_caption_eq, Hcap, (truthy_nonempty_str _ Hcne). world_norm.
  rewrite Hrc. cbv zeta.
  destruct (startswith (py_strip (text rc)) (py "WEBVTT"));
    world_norm; rewrite Hopen2; reflexivity.
Qed.

Lemma PPT_captions_stored_by_format_witness :
  let rc := Response 200 [] ([10] ++ py "WEBVTT" ++ [10; 10] ++ py "00:00.000 --> 00:02.000"
                             ++ [10] ++ py "Hello" ++ [10]) None in
  let w := scripted [
    Ok (status_reply [(py "status", JStr (py "completed"));
                      (py "video_url", JStr (py "https://files.heygen.ai/v.mp4"));
                      (py "caption_url", JStr (py "https://files.heygen.ai/v.vtt"))]);
    Ok (file_reply [0; 0; 0; 24]);
    Ok rc] in
  let out := py "outputs/final_output.mp4" in
  let sreq := status_request (api_key w) (py "v1") in
  let vurl := py "https://files.heygen.ai/v.mp4" in
  let curl := py "https://files.heygen.ai/v.vtt" in
  PPT.download_video example_splitext 1 (py "v1") out w =
  Some (Ok tt, after w 3
    ([EHttp sreq (http w (clock w) sreq);
      EHttp (get_request vurl) (Ok (file_reply [0; 0; 0; 24])); EOpen out WB;
      EWrite out (content (file_reply [0; 0; 0; 24]));
      EHttp (get_request curl) (Ok rc)] ++
     if startswith (py_strip (text rc)) (py "WEBVTT") then
       [EOpen ((example_splitext out).1 ++ py ".vtt") (WText (py "utf-8"));
        EWriteText ((example_splitext out).1 ++ py ".vtt") (py_strip (text rc))]
     else
       [EOpen ((example_splitext out).1 ++ py ".srt") (WText (py "utf-8-sig"));
        EWriteText ((example_splitext out).1 ++ py ".srt") (py_strip (text rc));
        EConvertAssToSrt ((example_splitext out).1 ++ py ".srt")])).
Proof.
  intros rc w out sreq vurl curl.
  apply (PPT_captions_stored_by_format example_splitext 1 0 (py "v1") out w w
           vurl curl (file_reply [0; 0; 0; 24]) rc).
  - reflexivity.
  - lia.
  - vm_compute. reflexivity.
  - vm_compute. reflexivity.
  - vm_compute. discriminate.
  - vm_compute. reflexivity.
  - vm_compute. discriminate.
  - vm_compute. reflexivity.
  - vm_compute. reflexivity.
  - vm_compute. reflexivity.
  - vm_compute. reflexivity.
Defined.

(** ** The voice of a scene *)

Lemma voice_by_cjk (script : pystr) (v : option json) :
  v = Some (JStr (if re_search_cjk script then VOICE_ID_ZH else VOICE_ID_EN)) ->
  (has_cjk script -> v = Some (JStr VOICE_ID_ZH)) /\
  (~ has_cjk script -> v = Some (JStr VOICE_ID_EN)).
Proof.
  intros ->. pose proof (re_search_cjk_spec script) as Hspec.
  destruct (re_search_cjk script).
  - split; [reflexivity|]. intros Hno. exfalso. apply Hno, Hspec. reflexivity.
  - split; [|reflexivity]. intros Hyes%Hspec. discriminate.
Qed.

(** X25.  In every script the voice of a scene is chosen from the script
    of that very scene: the Chinese voice when the script holds a
    character of the block U+4E00 to U+9FFF, the English voice when it
    holds none.  This holds of the [i]-th scene that the GoogleSearch and
    Youtube scripts build from the [i]-th script, of the [i]-th scene of
    the PPT script, and of the one scene of the video-only script, which
    sets the locale with the voice ([zh-TW], [en-US]). *)
Theorem scene_voice_follows_its_script :
  (forall v bg_ids scripts i id script,
     bg_ids !! i = Some id -> scripts !! i = Some script ->
     exists scene,
       scenes_of v bg_ids scripts !! i = Some scene /\
       (has_cjk script -> voice_id scene = Some (JStr VOICE_ID_ZH)) /\
       (~ has_cjk script -> voice_id scene = Some (JStr VOICE_ID_EN))) /\
  (forall pairs w scenes w1 i path script,
     PPT.build_scenes pairs w = (Ok scenes, w1) ->
     pairs !! i = Some (path, script) ->
     exists scene,
       scenes !! i = Some scene /\
       (has_cjk script -> voice_id scene = Some (JStr VOICE_ID_ZH)) /\
       (~ has_cjk script -> voice_id scene = Some (JStr VOICE_ID_EN))) /\
  (forall asset_id text,
     exists scene,
       PV_scene (PptVideoOnly.payload asset_id text) = Some scene /\
       (has_cjk text ->
        voice_id scene = Some (JStr VOICE_ID_ZH) /\
        voice_locale scene = Some (JStr (py "zh-TW"))) /\
       (~ has_cjk text ->
        voice_id scene = Some (JStr VOICE_ID_EN) /\
        voice_locale scene = Some (JStr (py "en-US")))).
Proof.
  split; [|split].
  - intros v bg_ids scripts i id script Hid Hs.
    destruct v; cbn [scenes_of].
    + exists (GoogleSearch.scene id script). split.
      * unfold GoogleSearch.build_scenes.
        rewrite (map_zip_lookup _ _ _ _ _ _ Hid Hs). reflexivity.
      * apply voice_by_cjk. vm_compute. reflexivity.
    + exists (Youtube.scene id script). split.
      * unfold Youtube.build_scenes.
        rewrite (map_zip_lookup _ _ _ _ _ _ Hid Hs). reflexivity.
      * apply voice_by_cjk. vm_compute. reflexivity.
  - intros pairs. induction pairs as [|[path0 script0] pairs IH];
      intros w scenes w1 i path script; cbn [PPT.build_scenes].
    { intros _ H. discriminate. }
    unfold mbind, IO_bind, io_bind, mret, IO_ret, io_ret.
    destruct (PPT.upload_to_heygen path0 w) as [[id|e] w2]; [|discriminate].
    destruct (PPT.build_scenes pairs w2) as [[scenes'|e] w3] eqn:Hrest; [|discriminate].
    intros [= <- <-]. destruct i as [|i]; cbn.
    + intros [= <- <-]. exists (PPT.scene id script0). split; [reflexivity|].
      apply voice_by_cjk. vm_compute. reflexivity.
    + intros Hi. apply (IH _ _ _ _ _ _ Hrest Hi).
  - intros asset_id text. unfold PptVideoOnly.payload, PptVideoOnly.detect_voice_and_locale.
    pose proof (re_search_cjk_spec text) as Hspec. fold (has_cjk text) in Hspec.
    destruct (re_search_cjk text); eexists; (split; [vm_compute; reflexivity|]).
    + split; [intros _; split; vm_compute; reflexivity|].
      intros Hno. exfalso. apply Hno, Hspec. reflexivity.
    + split; [|intros _; split; vm_compute; reflexivity].
      intros Hyes%Hspec. discriminate.
Qed.

Lemma scene_voice_follows_its_script_witness :
  exists scene,
    scenes_of InYoutube [JStr (py "asset-1"); JStr (py "asset-2")]
      [py "Hello"; py "今天的重點"] !! 1%nat = Some scene /\
    (has_cjk (py "今天的重點") -> voice_id scene = Some (JStr VOICE_ID_ZH)) /\
    (~ has_cjk (py "今天的重點") -> voice_id scene = Some (JStr VOICE_ID_EN)).
Proof.
  apply (proj1 scene_voice_follows_its_script InYoutube
           [JStr (py "asset-1"); JStr (py "asset-2")] [py "Hello"; py "今天的重點"]
           1%nat (JStr (py "asset-2")) (py "今天的重點")); reflexivity.
Defined.

(** ** The text of a caption *)

Lemma startswith_app_l (s t prefix : pystr) :
  startswith s prefix = true -> startswith (s ++ t) prefix = true.
Proof.
  revert s. induction prefix as [|p prefix IH]; intros [|c s];
    cbn [startswith app]; intros H; try reflexivity; try discriminate.
  - destruct t; reflexivity.
  - apply andb_true_iff in H as [Hc Hs]. rewrite Hc, (IH _ Hs). reflexivity.
Qed.

Lemma py_split_max_zero sep s : PPT.py_split_max sep 0 s = [s].
Proof. destruct s; reflexivity. Qed.

Lemma py_split_max_app sep n u v :
  free_of sep u = true ->
  PPT.py_split_max sep (S n) (u ++ sep :: v) = u :: PPT.py_split_max sep n v.
Proof.
  induction u as [|c u IH]; cbn [free_of forallb PPT.py_split_max app].
  - intros _. rewrite N.eqb_refl. reflexivity.
  - intros [Hc Hu]%andb_true_iff. apply negb_true_iff in Hc.
    rewrite Hc, (IH Hu). reflexivity.
Qed.

Lemma py_split_max_fields sep fields text :
  forallb (free_of sep) fields = true ->
  PPT.py_split_max sep (length fields)
    (concat (map (fun f => f ++ [sep]) fields) ++ text)
  = fields ++ [text].
Proof.
  induction fields as [|f fields IH]; cbn [forallb map concat length app].
  - intros _. apply py_split_max_zero.
  - intros [Hf Hrest]%andb_true_iff.
    rewrite <- !app_assoc. cbn [app].
    rewrite (py_split_max_app sep _ f) by exact Hf.
    rewrite (IH Hrest). reflexivity.
Qed.

Lemma contains_free_of c x s :
  free_of c s = true -> contains [c; x] s = false.
Proof.
  induction s as [|d s IH]; cbn [free_of forallb contains startswith].
  - reflexivity.
  - intros [Hd Hs]%andb_true_iff. apply negb_true_iff in Hd.
    rewrite Hd. cbn [andb orb]. exact (IH Hs).
Qed.

(** X26.  A [Dialogue:] line is cut at its first nine commas only: when
    the nine fields before the text hold no comma, the text of the event
    is all that follows the ninth comma, commas included, stripped and
    with the markers [\n] and [\N] turned into line breaks (a text
    without backslash is kept as it is), and the times of the event are
    those of the second and third fields, moved by the offset and not
    before [0:00:00]. *)
Theorem caption_text_keeps_its_commas
  (py_int : pystr -> option Z) (delta : Z) (fields : list pystr) (text : pystr)
  (t1 t2 : Z) :
  length fields = 9%nat ->
  forallb (free_of 44) fields = true ->
  startswith (default [] (fields !! 0%nat)) (py "Dialogue:") = true ->
  PPT.datetime_add
    (PPT.parse_ass_time py_int (py_strip (default [] (fields !! 1%nat)))) delta
  = Some t1 ->
  PPT.datetime_add
    (PPT.parse_ass_time py_int (py_strip (default [] (fields !! 2%nat)))) delta
  = Some t2 ->
  let line := concat (map (fun f => f ++ [44]) fields) ++ text in
  PPT.dialogue_event py_int delta line
  = Some (PPT.SrtEvent (Z.max 0 t1) (Z.max 0 t2)
            (py_replace (py_replace (py_strip text) [92; 110] [10]) [92; 78] [10])) /\
  (free_of 92 (py_strip text) = true ->
   PPT.dialogue_event py_int delta line
   = Some (PPT.SrtEvent (Z.max 0 t1) (Z.max 0 t2) (py_strip text))).
Proof.
  intros Hlen Hfree Hstart H1 H2 line.
  assert (Hevent : PPT.dialogue_event py_int delta line
    = Some (PPT.SrtEvent (Z.max 0 t1) (Z.max 0 t2)
              (py_replace (py_replace (py_strip text) [92; 110] [10]) [92; 78] [10]))).
  { assert (Hsplit : PPT.py_split_max 44 9 line = fields ++ [text]).
    { rewrite <- Hlen. apply py_split_max_fields. exact Hfree. }
    assert (Hline : startswith line (py "Dialogue:") = true).
    { unfold line. destruct fields as [|f0 fields]; [discriminate|].
      cbn [map concat]. rewrite <- !app_assoc.
      apply startswith_app_l. exact Hstart. }
    unfold PPT.dialogue_event. rewrite Hline. cbv zeta. rewrite Hsplit.
    rewrite length_app, Hlen. cbn [length Nat.add Nat.ltb Nat.leb].
    destruct fields as [|f0 [|f1 [|f2 [|f3 [|f4 [|f5 [|f6 [|f7 [|f8 [|]]]]]]]]]];
      try discriminate.
    cbn [app lookup list_lookup fmap option_fmap option_map mbind option_bind
         default from_option id] in *.
    rewrite H1, H2. cbn [mbind option_bind].
    unfold PPT.base_time.
    assert (Hclamp : forall t, (if (t <? 0)%Z then 0%Z else t) = Z.max 0 t).
    { intros t. destruct (Z.ltb_spec t 0); lia. }
    rewrite !Hclamp. reflexivity. }
  split; [exact Hevent|].
  intros Hplain. rewrite Hevent.
  rewrite (py_replace_absent (py_strip text) [92; 110] [10])
    by (apply contains_free_of; exact Hplain).
  rewrite (py_replace_absent (py_strip text) [92; 78] [10])
    by (apply contains_free_of; exact Hplain).
  reflexivity.
Qed.

Lemma caption_text_keeps_its_commas_witness :
  PPT.dialogue_event ascii_int (-1000000)
    (concat (map (fun f => f ++ [44])
       [py "Dialogue: 0"; py "0:00:01.50"; py "0:00:03.00"; py "Default"; [];
        py "0"; py "0"; py "0"; []])
     ++ py " Hello, world\Nsee you, soon")
  = Some (PPT.SrtEvent (Z.max 0 500000) (Z.max 0 2000000)
            (py_replace (py_replace (py_strip (py " Hello, world\Nsee you, soon"))
                           [92; 110] [10]) [92; 78] [10])).
Proof.
  apply (proj1 (caption_text_keeps_its_commas ascii_int (-1000000)
           [py "Dialogue: 0"; py "0:00:01.50"; py "0:00:03.00"; py "Default"; [];
            py "0"; py "0"; py "0"; []]
           (py " Hello, world\Nsee you, soon") 500000 2000000
           eq_refl eq_refl eq_refl eq_refl eq_refl)).
Defined.
